(** * train_waterbirds.py: a shallow embedding of the training script

    The script is orchestration around PyTorch: it builds a ResNet-50
    variant, loads the Waterbirds data, runs a training loop with an
    optional localization loss, evaluates, and writes checkpoints.

    The embedding keeps the control flow, the Python exceptions raised by
    the script's own operators (unbound locals, [None] attribute access,
    dictionary lookups, division by zero) and the externally visible
    effects (files written, datasets opened, TensorBoard scalars) as they
    are in the source.  What the imported libraries compute (forward
    passes, losses, metric values, optimizer updates) is taken as an
    interface [Lib] of total functions over opaque carriers. *)

From Stdlib Require Import ZArith QArith Qcanon List Bool Lia Ascii String.
From Stdlib Require Import Floats.SpecFloat.
From stdpp Require Import base option list strings gmap pretty.

Local Open Scope string_scope.
Local Open Scope list_scope.
Local Open Scope Z_scope.

(** ** Carriers and scalar arithmetic *)

(** Python floats and the values of 0-dimensional tensors.  [Tensor],
    [Params] (a state dict) and [Dataset] are opaque library objects. *)
Record Base := {
  R : Type;
  of_Z : Z → R;
  add : R → R → R;
  mul : R → R → R;
  div : R → R → R;
  ltb : R → R → bool;
  eqb : R → R → bool;
  repr : R → string;            (* str(x) *)
  Tensor : Type;
  Params : Type;
  Dataset : Type;
}.

Existing Class Base.

(** Exact rational arithmetic as scalars. *)
Definition pretty_Qc (q : Qc) : string :=
  pretty (Qnum (this q)) +:+ "over" +:+ pretty (Zpos (Qden (this q))).

Definition ExactBase : Base := {|
  R := Qc;
  of_Z := fun z => Q2Qc (inject_Z z);
  add := Qcplus; mul := Qcmult; div := Qcdiv;
  ltb := fun x y => bool_decide (Qclt x y);
  eqb := fun x y => bool_decide (x = y);
  repr := pretty_Qc;
  Tensor := list Z; Params := list Z; Dataset := list (list Z * Z * option (list Z) * Z);
|}.

(** IEEE 754 binary32, the default dtype of [torch.Tensor]. *)
Definition prec32 : Z := 24.
Definition emax32 : Z := 128.

Definition b32_of_Z (z : Z) : spec_float :=
  match z with
  | Z0 => S754_zero false
  | _ => binary_normalize prec32 emax32 z 0 false
  end.

Definition Binary32Base : Base := {|
  R := spec_float;
  of_Z := b32_of_Z;
  add := SFadd prec32 emax32; mul := SFmul prec32 emax32;
  div := SFdiv prec32 emax32;
  ltb := SFltb; eqb := SFeqb;
  repr := fun _ => "<float32>";
  Tensor := list Z; Params := list Z; Dataset := list (list Z * Z * option (list Z) * Z);
|}.

(** ** get_loss_upweights (lines 27-41) *)

Section LossUpweights.
Context (B : Base).

(** [torch.max] of a 1-D tensor: the largest entry. *)
Definition torch_max (xs : list (R B)) : option (R B) :=
  match xs with
  | [] => None
  | x :: rest => Some (fold_left (fun m y => if ltb B m y then y else m) rest x)
  end.

Definition get_loss_upweights : list (R B) :=
  let counts := [of_Z B 3694; of_Z B 1101] in
  let fracs := map (fun c => div B (of_Z B 1) c) counts in
  let weights :=
    match torch_max fracs with
    | Some m => map (fun f => div B f m) fracs
    | None => []
    end in
  weights.
End LossUpweights.

(** ** os.path on POSIX (posixpath.join, posixpath.basename) *)

Definition is_sep (c : Ascii.ascii) : bool := Ascii.eqb c "/"%char.

Definition starts_with_sep (s : string) : bool :=
  match s with
  | String c _ => is_sep c
  | EmptyString => false
  end.

Fixpoint ends_with_sep (s : string) : bool :=
  match s with
  | EmptyString => false
  | String c EmptyString => is_sep c
  | String _ rest => ends_with_sep rest
  end.

(** One round of the loop in [posixpath.join]: an absolute component
    discards what came before; a separator is inserted unless the path so
    far is empty or already ends with one. *)
Definition path_join2 (path b : string) : string :=
  if starts_with_sep b then b
  else if bool_decide (path = "") || ends_with_sep path then path +:+ b
  else path +:+ "/" +:+ b.

Definition os_path_join (a : string) (p : list string) : string :=
  fold_left path_join2 p a.

Fixpoint basename_from (s acc : string) : string :=
  match s with
  | EmptyString => acc
  | String c rest =>
      if is_sep c then basename_from rest "" else basename_from rest (acc +:+ String c "")
  end.

Definition os_path_basename (p : string) : string := basename_from p "".

(** ** Python values, exceptions, command-line arguments *)

Inductive PyErr :=
| NotImplementedError
| KeyError (key : string)
| AttributeError (what : string)
| TypeError (what : string)
| UnboundLocalError (var : string)
| ZeroDivisionError
| IndexError
| ValueError (what : string)
| RuntimeError (what : string)
| FileNotFoundError (path : string).

(** line 24 *)
Definition GROUP_NAMES : list string :=
  ["Landbird_on_Land"; "Landbird_on_Water"; "Waterbird_on_Land"; "Waterbird_on_Water"].

Inductive Arch := BcosResNet50 | XFixupResNet50 | TorchvisionResNet50.

Inductive FcKind := BcosConv2d | Linear.

(** The final classification layer; for [BcosConv2d] the two sizes are
    [in_channels] and [out_channels]. *)
Record FcLayer := { fc_kind : FcKind; fc_in : Z; fc_out : Z }.

Inductive Transform :=
| AddInverse (dim : Z)
| Normalize
| RandomResizedCrop (h w : Z)
| RandomHorizontalFlip.

Inductive Pipeline :=
| Single (t : Transform)
| Compose (ts : list Transform).

Section Script.
Context {B : Base}.

Inductive PyVal :=
| VNone
| VBool (b : bool)
| VInt (z : Z)
| VFloat (x : R B)
| VStr (s : string)
| VParams (p : Params B)
| VTensor (t : Tensor B).

(** A Python number as the accumulators of the script hold it: the
    literal [0] is an [int]; a 0-dimensional tensor carries its value
    and whether it is attached to the autograd graph. *)
Inductive Num :=
| NInt (z : Z)
| NFloat (x : R B)
| NTensor (x : R B) (grad : bool).

Definition num_val (n : Num) : R B :=
  match n with
  | NInt z => of_Z B z
  | NFloat x => x
  | NTensor x _ => x
  end.

(** [a + b] with Python's and PyTorch's promotion. *)
Definition num_add (a b : Num) : Num :=
  match a, b with
  | NInt x, NInt y => NInt (x + y)
  | NTensor x g, NTensor y h => NTensor (add B x y) (g || h)
  | NTensor x g, _ => NTensor (add B x (num_val b)) g
  | _, NTensor y h => NTensor (add B (num_val a) y) h
  | _, _ => NFloat (add B (num_val a) (num_val b))
  end.

(** [x * b] for a Python float [x]. *)
Definition num_scale (x : R B) (b : Num) : Num :=
  match b with
  | NTensor y h => NTensor (mul B x y) h
  | _ => NFloat (mul B x (num_val b))
  end.

Definition num_detach (n : Num) : Num :=
  match n with
  | NTensor x _ => NTensor x false
  | _ => n
  end.

Definition is_tensor (n : Num) : bool :=
  match n with NTensor _ _ => true | _ => false end.

Definition num_to_val (n : Num) : PyVal :=
  match n with
  | NInt z => VInt z
  | NFloat x => VFloat x
  | NTensor x _ => VFloat x
  end.

(** The parsed command line (lines 374-403). *)
Record Args := {
  task : string;
  model_backbone : string;
  model_path : option string;
  data_path : string;
  total_epochs : Z;
  learning_rate : R B;
  log_path : option string;
  save_path : string;
  seed : Z;
  train_batch_size : Z;
  dataset : string;
  localization_loss_lambda : R B;
  layer : string;
  localization_loss_fn : option string;
  attribution_method : option string;
  optimize_explanations : bool;
  min_acc : R B;
  pareto : bool;
  annotated_fraction : R B;
  evaluation_frequency : Z;
  eval_batch_size : Z;
  box_dilation_percentage : R B;
  use_loss_weights : bool;
}.

Definition val_of_opt_str (o : option string) : PyVal :=
  match o with Some s => VStr s | None => VNone end.

(** [vars(args)] *)
Definition vars_args (a : Args) : gmap string PyVal :=
  list_to_map [
    ("task", VStr (task a));
    ("model_backbone", VStr (model_backbone a));
    ("model_path", val_of_opt_str (model_path a));
    ("data_path", VStr (data_path a));
    ("total_epochs", VInt (total_epochs a));
    ("learning_rate", VFloat (learning_rate a));
    ("log_path", val_of_opt_str (log_path a));
    ("save_path", VStr (save_path a));
    ("seed", VInt (seed a));
    ("train_batch_size", VInt (train_batch_size a));
    ("dataset", VStr (dataset a));
    ("localization_loss_lambda", VFloat (localization_loss_lambda a));
    ("layer", VStr (layer a));
    ("localization_loss_fn", val_of_opt_str (localization_loss_fn a));
    ("attribution_method", val_of_opt_str (attribution_method a));
    ("optimize_explanations", VBool (optimize_explanations a));
    ("min_acc", VFloat (min_acc a));
    ("pareto", VBool (pareto a));
    ("annotated_fraction", VFloat (annotated_fraction a));
    ("evaluation_frequency", VInt (evaluation_frequency a));
    ("eval_batch_size", VInt (eval_batch_size a));
    ("box_dilation_percentage", VFloat (box_dilation_percentage a));
    ("use_loss_weights", VBool (use_loss_weights a))
  ].

(** [str(x)] of an optional string, and truthiness of one. *)
Definition str_opt (o : option string) : string :=
  match o with Some s => s | None => "None" end.

Definition truthy_str (o : option string) : bool :=
  match o with
  | Some s => negb (bool_decide (s = ""))
  | None => false
  end.

(** ** Library objects the script creates *)

Record Model := {
  m_arch : Arch;
  m_fc : FcLayer;
  m_params : Params B;
  m_training : bool;
  m_device : option string;
}.

Record Batch := {
  b_X : Tensor B;
  b_y : Tensor B;
  b_bbs : list (option (Tensor B));
  b_groups : Tensor B;
}.

Record DataLoader := {
  dl_data : Dataset B;
  dl_batch_size : Z;
  dl_shuffle : bool;
}.

(** [torch.nn.BCEWithLogitsLoss(weight=...)] *)
Record LossFn := { bce_weight : option (list (R B)) }.

(** [losses.get_localization_loss(name)] *)
Record LocLoss := { ll_name : string; only_positive : bool; binarize : bool }.

(** [attribution_methods.get_attributor(model, method, only_positive,
    binarize, interpolate, (224, 224), batch_mode)] *)
Record Attributor := {
  at_method : string;
  at_only_positive : bool;
  at_binarize : bool;
  at_interpolate : bool;
  at_batch_mode : bool;
}.

(** [model_activators.ResNetModelActivator(model, layer, is_bcos)]; it
    wraps the one model object of the run. *)
Record Activator := { act_layer : option Z; act_is_bcos : bool }.

Inductive Event :=
| EvSetSeed (s : Z)
| EvMakedirs (path : string)
| EvSummaryWriter (log_dir : string)
| EvWaterbirdsDetectParsed (root image_set : string) (transform : Pipeline)
                (annotated : option (R B))
| EvPrintMetrics (metric_vals : gmap string PyVal)
| EvPrintGroups (group_names : option (list string)) (group_acc_vals : gmap string PyVal)
| EvPrintEpoch (e : Z) (avg : R B)
| EvPrintBelow (acc : PyVal)
| EvAddScalar (tag : string) (value : PyVal) (step : option Z)
| EvAttribution (a : Attributor)
| EvZeroGrad
| EvBackward (loss : R B)
| EvOptimizerStep
| EvTorchSave (obj : gmap string PyVal) (path : string)
| EvSaveParetoFront (path : string).

Record World := {
  w_model : Model;
  w_rng : nat;               (* position in the seeded random stream *)
  w_steps : nat;             (* optimizer steps taken (Adam's state) *)
  w_trace : list Event;      (* oldest first *)
}.

(** ** State and exception monad *)

Inductive Res (A : Type) :=
| Ok (a : A) (w : World)
| Err (e : PyErr) (tr : list Event).
Global Arguments Ok {A} a w.
Global Arguments Err {A} e tr.

Definition M (A : Type) : Type := World → Res A.

Definition ret {A} (a : A) : M A := fun w => Ok a w.

Definition bind {A C} (m : M A) (k : A → M C) : M C :=
  fun w => match m w with
           | Ok a w' => k a w'
           | Err e tr => Err e tr
           end.

Definition raise {A} (e : PyErr) : M A := fun w => Err e (w_trace w).

Definition emit (ev : Event) : M unit :=
  fun w => Ok tt {| w_model := w_model w; w_rng := w_rng w;
                    w_steps := w_steps w; w_trace := w_trace w ++ [ev] |}.

Definition get_model : M Model := fun w => Ok (w_model w) w.

Definition set_model (m : Model) : M unit :=
  fun w => Ok tt {| w_model := m; w_rng := w_rng w; w_steps := w_steps w;
                    w_trace := w_trace w |}.

(** draw from the random stream *)
Definition draw : M nat :=
  fun w => Ok (w_rng w) {| w_model := w_model w; w_rng := S (w_rng w);
                           w_steps := w_steps w; w_trace := w_trace w |}.

Definition from_option {A} (o : option A) (e : PyErr) : M A :=
  match o with Some a => ret a | None => raise e end.

Definition when (b : bool) (m : M unit) : M unit := if b then m else ret tt.

Fixpoint for_each {A S} (xs : list A) (body : A → S → M S) (s : S) : M S :=
  match xs with
  | [] => ret s
  | x :: rest => bind (body x s) (for_each rest body)
  end.

Definition res_trace {A} (r : Res A) : list Event :=
  match r with Ok _ w => w_trace w | Err _ tr => tr end.

Definition is_ok {A} (r : Res A) : bool :=
  match r with Ok _ _ => true | Err _ _ => false end.
End Script.

Global Instance M_ret {B : Base} : MRet (@M B) := @ret B.
Global Instance M_bind {B : Base} : MBind (@M B) := fun A C k m => bind m k.

(** ** The imported libraries, as an interface

    Every field is a total function: the libraries' own failures (a missing
    file other than a checkpoint, a shape mismatch) are outside the model.
    Random draws are functions of the position in the seeded stream. *)
Record Lib {B : Base} := {
  (* hubconf, fixup_resnet, torchvision.models, torch.nn *)
  hubconf_resnet50 : bool → Params B;
  xfixup_resnet50 : Params B;
  torchvision_resnet50 : string → Params B;
  pretrained_fc : Arch → FcLayer;
  fresh_fc : FcLayer → Params B → Params B;
  remove_module : Params B → Params B;
  torch_load : string → option (gmap string (@PyVal B));
  (* datasets, torch.utils.data *)
  waterbirds_detect_parsed :
    string → string → Pipeline → option (R B) → Dataset B;
  ds_len : Dataset B → Z;
  iter_loader : @DataLoader B → nat → list (@Batch B);
  tensor_len : Tensor B → nat;
  tensor_index : Tensor B → nat → Tensor B;
  (* the forward pass, losses and attributions *)
  forward : Activator → @Model B → Tensor B → Tensor B * Tensor B;
  bce_with_logits : @LossFn B → Tensor B → Tensor B → R B;
  get_localization_loss : string → LocLoss;
  loc_loss : LocLoss → Tensor B → Tensor B → R B;
  attribute_batch :
    Attributor → @Model B → Tensor B → Tensor B → Tensor B → Tensor B;
  attribute_one :
    Attributor → @Model B → Tensor B → Tensor B → Tensor B → nat → Tensor B;
  get_random_optimization_targets : nat → Tensor B → Tensor B;
  positive_classes : Tensor B → nat → list (Tensor B);
  filter_bbs : Tensor B → Tensor B → Tensor B;
  enlarge_bb : Tensor B → R B → Tensor B;
  adam_step : R B → nat → Params B → @Batch B → R B → Params B;
  (* metrics *)
  multilabel_compute : Z → list (Tensor B * Tensor B) → gmap string (@PyVal B);
  grouped_compute :
    option (list string) → list (Tensor B * Tensor B * Tensor B) →
    gmap string (@PyVal B);
  bb_energy_compute : list (Tensor B * Tensor B) → @PyVal B;
  bb_iou_compute : list (Tensor B * Tensor B) → @PyVal B;
  (* utils *)
  update_val_metrics : gmap string (@PyVal B) → gmap string (@PyVal B);
  Tracker : Type;
  tracker_new : string → Tracker;
  tracker_update : Tracker → gmap string (@PyVal B) → @Model B → Z → Tracker;
  tracker_get_best :
    Tracker →
    option (R B) * option (Params B) * option Z * option (gmap string (@PyVal B));
  Pareto : Type;
  pareto_new : Pareto;
  pareto_update : Pareto → @Model B → gmap string (@PyVal B) → Z → Pareto;
}.
Global Arguments Lib : clear implicits.

Section Program.
Context {B : Base} (L : Lib B).

Abbreviation Dict := (gmap string (@PyVal B)).
Abbreviation T := (Tensor B).

Definition set_training (b : bool) : M unit :=
  m ← get_model;
  set_model {| m_arch := m_arch m; m_fc := m_fc m; m_params := m_params m;
               m_training := b; m_device := m_device m |}.

(** [n.item()] *)
Definition num_item (n : @Num B) : M (R B) :=
  match n with
  | NTensor x _ => ret x
  | NInt _ => raise (AttributeError "'int' object has no attribute 'item'")
  | NFloat _ => raise (AttributeError "'float' object has no attribute 'item'")
  end.

(** [x / y] on Python floats *)
Definition float_div (x y : R B) : M (R B) :=
  if eqb B y (of_Z B 0) then raise ZeroDivisionError else ret (div B x y).

(** [d[k]] *)
Definition dict_get (d : Dict) (k : string) : M (@PyVal B) :=
  from_option (d !! k) (KeyError k).

(** ** eval_model (lines 43-120) *)

(** The four metric objects and [total_loss]; a metric object is the
    list of its [update] calls. *)
Record EvalAcc := {
  ea_total_loss : @Num B;
  ea_acc : list (T * T);
  ea_grouped : list (T * T * T);
  ea_bb : list (T * T);
  ea_iou : list (T * T);
}.

Definition eval_init : EvalAcc :=
  {| ea_total_loss := NInt 0; ea_acc := []; ea_grouped := [];
     ea_bb := []; ea_iou := [] |}.

(** lines 84-90 *)
Definition eval_pred (attributor : Attributor) (features logits : T)
    (test_bbs : list (option T)) (img_idx : nat) (pred : T) (s : EvalAcc)
    : M EvalAcc :=
  m ← get_model;
  emit (EvAttribution attributor);;
  let attributions := attribute_one L attributor m features logits pred img_idx in
  bbs ← match test_bbs !! img_idx with
        | None => raise IndexError
        | Some None => raise (AttributeError "'NoneType' object has no attribute 'cuda'")
        | Some (Some t) => ret t
        end;
  let bb_list := filter_bbs L bbs pred in
  ret {| ea_total_loss := ea_total_loss s; ea_acc := ea_acc s;
         ea_grouped := ea_grouped s;
         ea_bb := ea_bb s ++ [(attributions, bb_list)];
         ea_iou := ea_iou s ++ [(attributions, bb_list)] |}.

(** lines 69-90 *)
Definition eval_batch (model : Activator) (attributor : option Attributor)
    (loss_fn : LossFn) (data : Batch) (s : EvalAcc) : M EvalAcc :=
  m ← get_model;
  let out := forward L model m (b_X data) in
  let logits := out.1 in
  let features := out.2 in
  let loss := num_detach (NTensor (bce_with_logits L loss_fn logits (b_y data)) true) in
  let s1 := {| ea_total_loss := num_add (ea_total_loss s) loss;
               ea_acc := ea_acc s ++ [(logits, b_y data)];
               ea_grouped := ea_grouped s ++ [(logits, b_y data, b_groups data)];
               ea_bb := ea_bb s; ea_iou := ea_iou s |} in
  match attributor with
  | Some a =>
      for_each (seq 0 (tensor_len L (b_X data)))
        (fun img_idx =>
           for_each (positive_classes L (b_y data) img_idx)
             (eval_pred a features logits (b_bbs data) img_idx))
        s1
  | None => ret s1
  end.

(** lines 113-116: [group_acc_vals[group_names[i]]] *)
Definition group_value (group_names : option (list string))
    (group_acc_vals : Dict) (i : nat) : M (@PyVal B) :=
  gn ← from_option group_names (TypeError "'NoneType' object is not subscriptable");
  name ← from_option (gn !! i) IndexError;
  dict_get group_acc_vals name.

(** lines 106-119 *)
Definition eval_log (attributor : option Attributor) (total_loss : @Num B)
    (num_batches : R B) (metric_vals group_acc_vals : Dict)
    (epoch : option Z) (group_names : option (list string)) : M unit :=
  tl ← num_item total_loss;
  avg ← float_div tl num_batches;
  emit (EvAddScalar "val_loss" (VFloat avg) epoch);;
  v ← dict_get metric_vals "Accuracy"; emit (EvAddScalar "accuracy" v epoch);;
  v ← dict_get metric_vals "Precision"; emit (EvAddScalar "precision" v epoch);;
  v ← dict_get metric_vals "Recall"; emit (EvAddScalar "recall" v epoch);;
  v ← dict_get metric_vals "F-Score"; emit (EvAddScalar "fscore" v epoch);;
  v ← group_value group_names group_acc_vals 0; emit (EvAddScalar "G1" v epoch);;
  v ← group_value group_names group_acc_vals 1; emit (EvAddScalar "G2" v epoch);;
  v ← group_value group_names group_acc_vals 2; emit (EvAddScalar "G3" v epoch);;
  v ← group_value group_names group_acc_vals 3; emit (EvAddScalar "G4" v epoch);;
  match attributor with
  | Some _ =>
      v ← dict_get metric_vals "BB-Loc"; emit (EvAddScalar "bbloc" v epoch);;
      v ← dict_get metric_vals "BB-IoU"; emit (EvAddScalar "bbiou" v epoch)
  | None => mret tt
  end.

(** lines 92-101 *)
Definition eval_metrics (attributor : option Attributor) (num_classes : Z)
    (s : EvalAcc) : Dict :=
  let metric_vals := multilabel_compute L num_classes (ea_acc s) in
  match attributor with
  | Some _ =>
      let bb_metric_vals := bb_energy_compute L (ea_bb s) in
      let iou_metric_vals := bb_iou_compute L (ea_iou s) in
      <["BB-IoU" := iou_metric_vals]> (<["BB-Loc" := bb_metric_vals]> metric_vals)
  | None => metric_vals
  end.

(** lines 60-90 *)
Definition eval_loop (model : Activator) (attributor : option Attributor)
    (loader : DataLoader) (loss_fn : LossFn) : M EvalAcc :=
  set_training false;;
  i ← draw;
  for_each (iter_loader L loader i) (eval_batch model attributor loss_fn) eval_init.

(** lines 92-120 *)
Definition eval_report (attributor : option Attributor) (num_batches : R B)
    (num_classes : Z) (writer : option string) (epoch : option Z)
    (group_names : option (list string)) (s : EvalAcc) : M Dict :=
  let group_acc_vals := grouped_compute L group_names (ea_grouped s) in
  let metric_vals := eval_metrics attributor num_classes s in
  tl ← num_item (ea_total_loss s);
  avg ← float_div tl num_batches;
  let metric_vals := <["Average-Loss" := VFloat avg]> metric_vals in
  emit (EvPrintMetrics metric_vals);;
  emit (EvPrintGroups group_names group_acc_vals);;
  set_training true;;
  match writer with
  | Some _ =>
      eval_log attributor (ea_total_loss s) num_batches metric_vals
        group_acc_vals epoch group_names
  | None => mret tt
  end;;
  mret metric_vals.

Definition eval_model (model : Activator) (attributor : option Attributor)
    (loader : DataLoader) (num_batches : R B) (num_classes : Z)
    (loss_fn : LossFn) (writer : option string) (epoch : option Z)
    (group_names : option (list string)) : M Dict :=
  s ← eval_loop model attributor loader loss_fn;
  eval_report attributor num_batches num_classes writer epoch group_names s.

(** ** main: model construction (lines 130-177) *)

Definition num_classes : Z := 2.

Definition layer_dict_3456 : gmap string (option Z) :=
  list_to_map [("Input", None); ("Mid1", Some 3); ("Mid2", Some 4);
               ("Mid3", Some 5); ("Final", Some 6)].

Definition layer_dict_4567 : gmap string (option Z) :=
  list_to_map [("Input", None); ("Mid1", Some 4); ("Mid2", Some 5);
               ("Mid3", Some 6); ("Final", Some 7)].

Definition new_model (arch : Arch) (p : Params B) : Model :=
  {| m_arch := arch; m_fc := pretrained_fc L arch; m_params := p;
     m_training := true; m_device := None |}.

(** [model.load_state_dict(sd)] *)
Definition load_state_dict (m : Model) (sd : Params B) : Model :=
  {| m_arch := m_arch m; m_fc := m_fc m; m_params := sd;
     m_training := m_training m; m_device := m_device m |}.

(** [model.fc = <kind>(in_features=model.fc.in_features,
    out_features=num_classes)] *)
Definition replace_fc (kind : FcKind) (m : Model) : Model :=
  let fc := {| fc_kind := kind; fc_in := fc_in (m_fc m); fc_out := num_classes |} in
  {| m_arch := m_arch m; m_fc := fc; m_params := fresh_fc L fc (m_params m);
     m_training := m_training m; m_device := m_device m |}.

(** [torch.load(path)[key]], expected to be a state dict *)
Definition load_params (path key : string) : PyErr + Params B :=
  match torch_load L path with
  | None => inl (FileNotFoundError path)
  | Some checkpoint =>
      match checkpoint !! key with
      | None => inl (KeyError key)
      | Some (VParams sd) => inr sd
      | Some _ => inl (TypeError "state_dict")
      end
  end.

Definition xdnn_weights : string := "weights/xdnn/xfixup_resnet50_model_best.pth.tar".

(** lines 132-168 *)
Definition construct_model (args : Args)
    : PyErr + (Model * gmap string (option Z)) :=
  let is_bcos := bool_decide (model_backbone args = "bcos") in
  let is_xdnn := bool_decide (model_backbone args = "xdnn") in
  let is_vanilla := bool_decide (model_backbone args = "vanilla") in
  if is_bcos then
    let model := new_model BcosResNet50 (hubconf_resnet50 L true) in
    inr (replace_fc BcosConv2d model, layer_dict_3456)
  else if is_xdnn then
    let model := new_model XFixupResNet50 (xfixup_resnet50 L) in
    match load_params (os_path_join xdnn_weights []) "state_dict" with
    | inl err => inl err
    | inr sd =>
        let imagenet_state_dict := remove_module L sd in
        let model := load_state_dict model imagenet_state_dict in
        inr (replace_fc Linear model, layer_dict_3456)
    end
  else if is_vanilla then
    let model := new_model TorchvisionResNet50
                   (torchvision_resnet50 L "ResNet50_Weights.IMAGENET1K_V1") in
    inr (replace_fc Linear model, layer_dict_4567)
  else inl NotImplementedError.

(** lines 130-177: the model as the training loop receives it, and
    [layer_idx] *)
Definition setup_model (args : Args) : PyErr + (Model * option Z) :=
  match construct_model args with
  | inl err => inl err
  | inr (model, layer_dict) =>
      match layer_dict !! layer args with
      | None => inl (KeyError (layer args))
      | Some layer_idx =>
          let loaded :=
            match model_path args with
            | Some path =>
                match load_params path "model" with
                | inl err => inl err
                | inr sd => inr (load_state_dict model sd)
                end
            | None => inr model
            end in
          match loaded with
          | inl err => inl err
          | inr model =>
              inr ({| m_arch := m_arch model; m_fc := m_fc model;
                      m_params := m_params model; m_training := true;
                      m_device := Some "cuda:1" |}, layer_idx)
          end
      end
  end.

(** ** main: names and paths (lines 179-196, 218-221) *)

Definition orig_name (args : Args) : string :=
  if truthy_str (model_path args)
  then os_path_basename (default "" (model_path args))
  else "None".

Definition dilated (args : Args) : bool :=
  ltb B (of_Z B 0) (box_dilation_percentage args).

Definition limited (args : Args) : bool :=
  ltb B (annotated_fraction args) (of_Z B 1).

Definition optimize_explanation_str (args : Args) : string :=
  (if optimize_explanations args then "finetunedobjloc" else "standard")
  +:+ (if pareto args then "pareto" else "")
  +:+ (if limited args then "limited" else "")
  +:+ (if dilated args then "dilated" else "").

Definition out_name (args : Args) : string :=
  model_backbone args +:+ "_" +:+ optimize_explanation_str args
  +:+ "_attr" +:+ str_opt (attribution_method args)
  +:+ "_locloss" +:+ str_opt (localization_loss_fn args)
  +:+ "_orig" +:+ orig_name args +:+ "_resnet50"
  +:+ "_lr" +:+ repr B (learning_rate args)
  +:+ "_sll" +:+ repr B (localization_loss_lambda args)
  +:+ "_layer" +:+ layer args
  +:+ (if limited args then "limited" +:+ repr B (annotated_fraction args) else "")
  +:+ (if dilated args then "_dilation" +:+ repr B (box_dilation_percentage args) else "").

Definition save_dir (args : Args) : string :=
  os_path_join (save_path args) [dataset args; task args; out_name args].

Definition data_root (args : Args) : string :=
  if bool_decide (task args = "birds")
  then os_path_join (data_path args) [dataset args; "birds_processed/"]
  else os_path_join (data_path args) [dataset args; "background_processed/"].

Definition stopped_path (args : Args) (e : Z) : string :=
  os_path_join (save_dir args) ["model_checkpoint_stopped_" +:+ pretty (e + 1) +:+ ".pt"].

Definition final_path (args : Args) (e : Z) : string :=
  os_path_join (save_dir args) ["model_checkpoint_final_" +:+ pretty (e + 1) +:+ ".pt"].

Definition acc_best_path (args : Args) : string :=
  os_path_join (save_dir args) ["model_checkpoint_acc_best.pt"].

(** ** main: the objects of a run (lines 199-279) *)

Record Run := {
  writer : option string;
  train_loader : DataLoader;
  val_loader : DataLoader;
  test_loader : DataLoader;
  num_train_batches : R B;
  num_val_batches : R B;
  num_test_batches : R B;
  loss_fn : LossFn;
  loss_loc : option LocLoss;
  model_activator : Activator;
  attributor : option Attributor;
  eval_attributor : option Attributor;
}.

(** [torch.utils.data.DataLoader(data, batch_size=..., shuffle=...)]: with
    [shuffle=True] its random sampler refuses a dataset without samples;
    then its batch sampler refuses a batch size that is not positive. *)
Definition make_loader (data : Dataset B) (batch_size : Z) (shuffle : bool)
    : M DataLoader :=
  if shuffle && bool_decide (ds_len L data ≤ 0)
  then raise (ValueError "num_samples should be a positive integer value")
  else if bool_decide (batch_size ≤ 0)
  then raise (ValueError "batch_size should be a positive integer value")
  else mret {| dl_data := data; dl_batch_size := batch_size; dl_shuffle := shuffle |}.

(** [len(data) / batch_size] on Python ints *)
Definition int_div (n d : Z) : M (R B) :=
  if bool_decide (d = 0) then raise ZeroDivisionError
  else mret (div B (of_Z B n) (of_Z B d)).

Definition load_dataset (root image_set : string) (transform : Pipeline)
    (annotated : option (R B)) : M (Dataset B) :=
  emit (EvWaterbirdsDetectParsed root image_set transform annotated);;
  mret (waterbirds_detect_parsed L root image_set transform annotated).

(** lines 268-276 *)
Definition make_attributors (args : Args) (layer_idx : option Z)
    (loss_loc : option LocLoss) : M (option Attributor * option Attributor) :=
  match attribution_method args with
  | Some method =>
      if truthy_str (Some method) then
        let interpolate := bool_decide (layer_idx ≠ None) in
        ll ← from_option loss_loc
               (AttributeError "'NoneType' object has no attribute 'only_positive'");
        let mk batch_mode :=
          {| at_method := method; at_only_positive := only_positive ll;
             at_binarize := binarize ll; at_interpolate := interpolate;
             at_batch_mode := batch_mode |} in
        mret (Some (mk true), Some (mk false))
      else mret (None, None)
  | None => mret (None, None)
  end.

(** lines 199-203 *)
Definition open_writer (args : Args) : M (option string) :=
  match log_path args with
  | Some lp =>
      let log_dir := os_path_join lp [dataset args; out_name args] in
      emit (EvSummaryWriter log_dir);; mret (Some log_dir)
  | None => mret None
  end.

(** lines 205-227 *)
Definition load_datasets (args : Args) : M (Dataset B * Dataset B * Dataset B) :=
  let is_bcos := bool_decide (model_backbone args = "bcos") in
  let transformer := if is_bcos then AddInverse 0 else Normalize in
  let train_transformer :=
    Compose ([RandomResizedCrop 224 224; RandomHorizontalFlip] ++ [transformer]) in
  let root := data_root args in
  train_data ← load_dataset root "train" train_transformer (Some (annotated_fraction args));
  val_data ← load_dataset root "val" (Single transformer) None;
  test_data ← load_dataset root "test" (Single transformer) None;
  mret (train_data, val_data, test_data).

(** lines 239-276 *)
Definition make_run (args : Args) (layer_idx : option Z) (writer : option string)
    (train_data val_data test_data : Dataset B) : M Run :=
  let is_bcos := bool_decide (model_backbone args = "bcos") in
  train_loader ← make_loader train_data (train_batch_size args) true;
  val_loader ← make_loader val_data (eval_batch_size args) false;
  test_loader ← make_loader test_data (eval_batch_size args) false;
  num_train_batches ← int_div (ds_len L train_data) (train_batch_size args);
  num_val_batches ← int_div (ds_len L val_data) (eval_batch_size args);
  num_test_batches ← int_div (ds_len L test_data) (eval_batch_size args);
  let loss_fn :=
    if use_loss_weights args
    then {| bce_weight := Some (get_loss_upweights B) |}
    else {| bce_weight := None |} in
  let loss_loc :=
    match localization_loss_fn args with
    | Some name =>
        if truthy_str (Some name) then Some (get_localization_loss L name) else None
    | None => None
    end in
  let model_activator := {| act_layer := layer_idx; act_is_bcos := is_bcos |} in
  ats ← make_attributors args layer_idx loss_loc;
  mret {| writer := writer; train_loader := train_loader;
          val_loader := val_loader; test_loader := test_loader;
          num_train_batches := num_train_batches;
          num_val_batches := num_val_batches;
          num_test_batches := num_test_batches;
          loss_fn := loss_fn; loss_loc := loss_loc;
          model_activator := model_activator;
          attributor := ats.1; eval_attributor := ats.2 |}.

(** lines 196-276 *)
Definition setup_run (args : Args) (layer_idx : option Z) : M Run :=
  emit (EvMakedirs (save_dir args));;
  writer ← open_writer args;
  data ← load_datasets args;
  make_run args layer_idx writer data.1.1 data.1.2 data.2.

(** ** main: one training batch (lines 287-320) *)

Record TrainAcc := {
  total_loss : @Num B;
  total_class_loss : @Num B;
  total_localization_loss : @Num B;
}.

(** lines 304-311: one round of the loop over the images of a batch *)
Definition loc_image (args : Args) (loss_loc : option LocLoss)
    (attributions gt_classes : T) (train_bbs : list (option T))
    (img_idx : nat) (localization_loss : @Num B) : M (@Num B) :=
  bb ← from_option (train_bbs !! img_idx) IndexError;
  match bb with
  | None => mret localization_loss
  | Some bbs =>
      let bb_list := filter_bbs L bbs (tensor_index L gt_classes img_idx) in
      let bb_list :=
        if dilated args then enlarge_bb L bb_list (box_dilation_percentage args)
        else bb_list in
      ll ← from_option loss_loc (TypeError "'NoneType' object is not callable");
      mret (num_add localization_loss
              (NTensor (loc_loss L ll (tensor_index L attributions img_idx) bb_list) true))
  end.

(** [batch_loss.backward()] *)
Definition backward (batch_loss : @Num B) : M unit :=
  match batch_loss with
  | NTensor x true => emit (EvBackward x)
  | NTensor _ false => raise (RuntimeError "tensor does not require grad")
  | NInt _ => raise (AttributeError "'int' object has no attribute 'backward'")
  | NFloat _ => raise (AttributeError "'float' object has no attribute 'backward'")
  end.

(** [optimizer.step()] *)
Definition optimizer_step (lr : R B) (data : Batch) (loss : R B) : M unit :=
  fun w =>
    let m := w_model w in
    Ok tt {| w_model := load_state_dict m
                          (adam_step L lr (w_steps w) (m_params m) data loss);
             w_rng := w_rng w; w_steps := S (w_steps w);
             w_trace := w_trace w ++ [EvOptimizerStep] |}.

(** lines 299-316: the localization part; returns the new [batch_loss]
    and [total_localization_loss] *)
Definition explanation_loss (args : Args) (run : Run) (data : Batch)
    (features logits : T) (batch_loss total_loc : @Num B)
    : M (@Num B * @Num B) :=
  let localization_loss := NInt 0 in
  k ← draw;
  let gt_classes := get_random_optimization_targets L k (b_y data) in
  a ← from_option (attributor run) (TypeError "'NoneType' object is not callable");
  m ← get_model;
  emit (EvAttribution a);;
  let attributions := attribute_batch L a m features logits gt_classes in
  localization_loss ←
    for_each (seq 0 (tensor_len L (b_X data)))
      (loc_image args (loss_loc run) attributions gt_classes (b_bbs data))
      localization_loss;
  let batch_loss :=
    num_add batch_loss (num_scale (localization_loss_lambda args) localization_loss) in
  let total_loc :=
    if is_tensor localization_loss
    then num_add total_loc (num_detach localization_loss)
    else num_add total_loc localization_loss in
  mret (batch_loss, total_loc).

Definition train_batch (args : Args) (run : Run) (data : Batch) (acc : TrainAcc)
    : M TrainAcc :=
  let batch_loss := NInt 0 in
  emit EvZeroGrad;;
  m ← get_model;
  let out := forward L (model_activator run) m (b_X data) in
  let logits := out.1 in
  let features := out.2 in
  let loss := NTensor (bce_with_logits L (loss_fn run) logits (b_y data)) true in
  let batch_loss := num_add batch_loss loss in
  let total_class_loss := num_add (total_class_loss acc) (num_detach loss) in
  r ← (if optimize_explanations args
       then explanation_loss args run data features logits batch_loss
              (total_localization_loss acc)
       else mret (batch_loss, total_localization_loss acc));
  let batch_loss := r.1 in
  backward batch_loss;;
  let total_loss := num_add (total_loss acc) (num_detach batch_loss) in
  optimizer_step (learning_rate args) data (num_val batch_loss);;
  mret {| total_loss := total_loss; total_class_loss := total_class_loss;
          total_localization_loss := r.2 |}.

(** [total_loss / num_train_batches]: a tensor divides without raising, a
    Python number raises on a zero divisor. *)
Definition num_div (n : @Num B) (d : R B) : M (R B) :=
  match n with
  | NTensor x _ => mret (div B x d)
  | _ => float_div (num_val n) d
  end.

(** lines 283-327 *)
Definition train_epoch (args : Args) (run : Run) (e : Z) : M unit :=
  i ← draw;
  acc ← for_each (iter_loader L (train_loader run) i) (train_batch args run)
          {| total_loss := NInt 0; total_class_loss := NInt 0;
             total_localization_loss := NInt 0 |};
  avg ← num_div (total_loss acc) (num_train_batches run);
  emit (EvPrintEpoch e avg);;
  match writer run with
  | Some _ =>
      emit (EvAddScalar "train_loss" (num_to_val (total_loss acc)) (Some (e + 1)));;
      emit (EvAddScalar "class_loss" (num_to_val (total_class_loss acc)) (Some (e + 1)));;
      emit (EvAddScalar "localization_loss"
              (num_to_val (total_localization_loss acc)) (Some (e + 1)))
  | None => mret tt
  end.

(** ** main: the epoch loop (lines 282-345) *)

(** The locals of [main] that the loop assigns; [metric_vals] and [e]
    are unbound until their first assignment. *)
Record Locals := {
  metric_vals : option Dict;
  acc_tracker : Tracker L;
  pareto_front_tracker : Pareto L;
  e_var : option Z;
}.

Inductive Flow := Next (s : Locals) | Return.

Fixpoint for_epochs (es : list Z) (body : Z → Locals → M Flow) (s : Locals)
    : M Flow :=
  match es with
  | [] => mret (Next s)
  | e :: rest =>
      f ← body e s;
      match f with
      | Next s' => for_epochs rest body s'
      | Return => mret Return
      end
  end.

(** [range(n)] *)
Definition range (n : Z) : list Z := map Z.of_nat (seq 0 (Z.to_nat n)).

Definition save_pareto_front (args : Args) : M unit :=
  when (pareto args) (emit (EvSaveParetoFront (save_dir args))).

(** [d.update(other)] and [a | b] on dicts: the right operand wins. *)
Definition dict_update (d other : Dict) : Dict := other ∪ d.

(** lines 335-344 *)
Definition stop_early (args : Args) (e : Z) (metric_vals : Dict) : M Flow :=
  acc ← dict_get metric_vals "Accuracy";
  emit (EvPrintBelow acc);;
  let metric_vals :=
    dict_update metric_vals
      (dict_update {[ "model" := VNone; "epochs" := VInt (e + 1) ]} (vars_args args)) in
  let metric_vals := dict_update metric_vals {[ "BelowThresh" := VBool true ]} in
  emit (EvTorchSave metric_vals (stopped_path args e));;
  save_pareto_front args;;
  mret Return.

(** lines 328-345 *)
Definition evaluate_epoch (args : Args) (run : Run) (e : Z) (s : Locals) : M Flow :=
  metric_vals ← eval_model (model_activator run) (eval_attributor run)
                  (val_loader run) (num_val_batches run) num_classes (loss_fn run)
                  (writer run) (Some e) (Some GROUP_NAMES);
  model ← get_model;
  let pareto_tracker :=
    if pareto args
    then pareto_update L (pareto_front_tracker s) model metric_vals e
    else pareto_front_tracker s in
  let best_acc := (tracker_get_best L (acc_tracker s)).1.1.1 in
  match best_acc with
  | Some best =>
      if ltb B best (min_acc args) then stop_early args e metric_vals
      else
        mret (Next {| metric_vals := Some metric_vals;
                      acc_tracker := tracker_update L (acc_tracker s) metric_vals model e;
                      pareto_front_tracker := pareto_tracker; e_var := Some e |})
  | None =>
      mret (Next {| metric_vals := Some metric_vals;
                    acc_tracker := tracker_update L (acc_tracker s) metric_vals model e;
                    pareto_front_tracker := pareto_tracker; e_var := Some e |})
  end.

(** lines 283-345: one round of the loop over [range(args.total_epochs)] *)
Definition epoch (args : Args) (run : Run) (e : Z) (s : Locals) : M Flow :=
  train_epoch args run e;;
  if bool_decide (evaluation_frequency args = 0) then raise ZeroDivisionError
  else if bool_decide ((e + 1) `mod` evaluation_frequency args = 0)
  then evaluate_epoch args run e s
  else mret (Next {| metric_vals := metric_vals s; acc_tracker := acc_tracker s;
                     pareto_front_tracker := pareto_front_tracker s;
                     e_var := Some e |}).

(** ** main: after the loop (lines 347-371) *)

Definition test_eval (run : Run) : M Dict :=
  eval_model (model_activator run) (eval_attributor run) (test_loader run)
    (num_test_batches run) num_classes (loss_fn run) None None (Some GROUP_NAMES).

Definition finish (args : Args) (run : Run) (s : Locals) : M unit :=
  save_pareto_front args;;
  final_metric_vals ← from_option (metric_vals s) (UnboundLocalError "metric_vals");
  let final_metric_vals := update_val_metrics L final_metric_vals in
  final_metrics ← test_eval run;
  model ← get_model;
  let final_state_dict := m_params model in
  let final_metrics := dict_update final_metrics final_metric_vals in
  e ← from_option (e_var s) (UnboundLocalError "e");
  let final_metrics :=
    dict_update final_metrics
      (dict_update {[ "model" := VParams final_state_dict; "epochs" := VInt (e + 1) ]}
         (vars_args args)) in
  let best := tracker_get_best L (acc_tracker s) in
  let acc_best_model_dict := best.1.1.2 in
  let acc_best_epoch := best.1.2 in
  let acc_best_metric_vals := best.2 in
  acc_best_metric_vals ← from_option acc_best_metric_vals
                           (TypeError "'NoneType' object is not subscriptable");
  let acc_best_metric_vals := update_val_metrics L acc_best_metric_vals in
  acc_best_model_dict ← from_option acc_best_model_dict
                          (AttributeError "'NoneType' object has no attribute 'keys'");
  set_model (load_state_dict model acc_best_model_dict);;
  acc_best_metrics ← test_eval run;
  let acc_best_metrics := dict_update acc_best_metrics acc_best_metric_vals in
  acc_best_epoch ← from_option acc_best_epoch
                     (TypeError "unsupported operand type(s) for +: 'NoneType' and 'int'");
  let acc_best_metrics :=
    dict_update acc_best_metrics
      (dict_update {[ "model" := VParams acc_best_model_dict;
                      "epochs" := VInt (acc_best_epoch + 1) ]}
         (vars_args args)) in
  emit (EvTorchSave final_metrics (final_path args e));;
  emit (EvTorchSave acc_best_metrics (acc_best_path args)).

(** lines 196-371, run on the store that holds the constructed model *)
Definition train_and_save (args : Args) (layer_idx : option Z) : M unit :=
  run ← setup_run args layer_idx;
  f ← for_epochs (range (total_epochs args)) (epoch args run)
        {| metric_vals := None; acc_tracker := tracker_new L "Accuracy";
           pareto_front_tracker := pareto_new L; e_var := None |};
  match f with
  | Next s => finish args run s
  | Return => mret tt
  end.

Definition main (args : Args) : Res unit :=
  match setup_model args with
  | inl err => Err err [EvSetSeed (seed args)]
  | inr (model, layer_idx) =>
      train_and_save args layer_idx
        {| w_model := model; w_rng := 0; w_steps := 0;
           w_trace := [EvSetSeed (seed args)] |}
  end.
End Program.

Arguments Next {B L} s.
Arguments Return {B L}.
Arguments metric_vals {B L} _.
Arguments acc_tracker {B L} _.
Arguments pareto_front_tracker {B L} _.
Arguments e_var {B L} _.

(** ** A small library instance

    Tensors and state dicts are lists of integers; a dataset is a list of
    samples (image, label, optional box, group); scalars are exact
    rationals.  It serves to run the script's model on concrete inputs. *)
Module Toy.
#[local] Existing Instance ExactBase.

Definition sample : Type := list Z * Z * option (list Z) * Z.

Definition qc (n : Z) (d : positive) : Qc := Q2Qc (n # d).

Definition sum_Z (l : list Z) : Z := fold_right Z.add 0 l.

Definition batch_of (s : sample) : @Batch ExactBase :=
  {| b_X := s.1.1.1; b_y := [s.1.1.2]; b_bbs := map (fun _ => s.1.2) s.1.1.1;
     b_groups := [s.2] |}.

(** accuracy [k / (k + 1)] after [k] optimizer steps *)
Definition accuracy (updates : list (list Z * list Z)) : Qc :=
  match updates with
  | (logits, _) :: _ => qc (sum_Z logits) (Z.to_pos (sum_Z logits + 1))
  | [] => qc 0 1
  end.

Definition tracker : Type :=
  option (Qc * list Z * Z * gmap string (@PyVal ExactBase)).

(** Modelled from the spec: [utils.BestMetricTracker], whose source is
    not part of the script: no best value before the first update, and
    an update replaces the record when the metric improves. *)
Definition tracker_update_toy (name : string) (t : tracker)
    (metric_vals : gmap string (@PyVal ExactBase)) (m : @Model ExactBase) (e : Z)
    : tracker :=
  match metric_vals !! name with
  | Some (VFloat x) =>
      match t with
      | Some (best, _, _, _) =>
          if bool_decide (Qclt best x) then Some (x, m_params m, e, metric_vals) else t
      | None => Some (x, m_params m, e, metric_vals)
      end
  | _ => t
  end.

Definition tracker_get_best_toy (t : tracker) :=
  match t with
  | Some (best, p, e, d) => (Some best, Some p, Some e, Some d)
  | None => (None, None, None, None)
  end.

Definition lib : Lib ExactBase := {|
  hubconf_resnet50 := fun _ => [1];
  xfixup_resnet50 := [2];
  torchvision_resnet50 := fun _ => [3];
  pretrained_fc := fun arch =>
    {| fc_kind := match arch with BcosResNet50 => BcosConv2d | _ => Linear end;
       fc_in := 2048; fc_out := 1000 |};
  fresh_fc := fun _ p => p;
  remove_module := fun p => p;
  torch_load := fun path =>
    if bool_decide (path = "missing.pt") then None
    else Some {[ "model" := VParams [7]; "state_dict" := VParams [8] ]};
  waterbirds_detect_parsed := fun root image_set _ _ =>
    if bool_decide (image_set = "train")
    then [([5; 6], 1, Some [0; 0; 1; 1], 0); ([7], 0, None, 1)]
    else [([9], 1, Some [0; 0; 2; 2], 3)];
  ds_len := fun d => Z.of_nat (length d);
  iter_loader := fun dl _ => map batch_of (dl_data dl);
  tensor_len := fun t => length t;
  tensor_index := fun t i => [default 0 (t !! i)];
  forward := fun _ m x => (m_params m, x);
  bce_with_logits := fun _ logits y => qc (sum_Z logits + sum_Z y) 2;
  get_localization_loss := fun name =>
    {| ll_name := name; only_positive := true; binarize := false |};
  loc_loss := fun _ attr bb => qc (sum_Z attr + sum_Z bb) 3;
  attribute_batch := fun _ _ features _ _ => features;
  attribute_one := fun _ _ features _ _ _ => features;
  get_random_optimization_targets := fun _ y => y;
  positive_classes := fun y _ => if bool_decide (y = [1]) then [[0]] else [];
  filter_bbs := fun bb _ => bb;
  enlarge_bb := fun bb _ => bb;
  adam_step := fun _ _ p _ _ => map Z.succ p;
  multilabel_compute := fun _ ups =>
    {[ "Accuracy" := VFloat (accuracy ups); "Precision" := VFloat (qc 1 2);
       "Recall" := VFloat (qc 1 3); "F-Score" := VFloat (qc 2 5) ]};
  grouped_compute := fun names _ =>
    list_to_map (map (fun n => (n, VFloat (qc 1 4))) (default [] names));
  bb_energy_compute := fun ups => VInt (Z.of_nat (length ups));
  bb_iou_compute := fun ups => VInt (Z.of_nat (length ups));
  update_val_metrics := fun d => d;
  Tracker := tracker;
  tracker_new := fun _ => None;
  tracker_update := tracker_update_toy "Accuracy";
  tracker_get_best := tracker_get_best_toy;
  Pareto := nat;
  pareto_new := 0%nat;
  pareto_update := fun p _ _ _ => S p;
|}.

Definition args : @Args ExactBase := {|
  task := "birds"; model_backbone := "vanilla"; model_path := None;
  data_path := "datasets/"; total_epochs := 2; learning_rate := qc 1 100000;
  log_path := None; save_path := "checkpoints/"; seed := 0;
  train_batch_size := 16; dataset := "Waterbirds-100";
  localization_loss_lambda := qc 1 1; layer := "Input";
  localization_loss_fn := Some "Energy"; attribution_method := Some "IxG";
  optimize_explanations := true; min_acc := qc (-1) 1; pareto := false;
  annotated_fraction := qc 1 1; evaluation_frequency := 1;
  eval_batch_size := 4; box_dilation_percentage := qc 0 1;
  use_loss_weights := false;
|}.

Definition model : @Model ExactBase :=
  {| m_arch := TorchvisionResNet50;
     m_fc := {| fc_kind := Linear; fc_in := 2048; fc_out := 2 |};
     m_params := [3]; m_training := true; m_device := Some "cuda:1" |}.

Definition world : @World ExactBase :=
  {| w_model := model; w_rng := 0; w_steps := 0; w_trace := [] |}.

Definition ixg (batch_mode : bool) : Attributor :=
  {| at_method := "IxG"; at_only_positive := true; at_binarize := false;
     at_interpolate := false; at_batch_mode := batch_mode |}.

Definition energy : LocLoss :=
  {| ll_name := "Energy"; only_positive := true; binarize := false |}.

Definition loader (image_set : string) (batch_size : Z) (shuffle : bool)
    : @DataLoader ExactBase :=
  {| dl_data := waterbirds_detect_parsed lib "datasets/Waterbirds-100/birds_processed/"
                  image_set (Single Normalize) None;
     dl_batch_size := batch_size; dl_shuffle := shuffle |}.

Definition run : @Run ExactBase :=
  {| writer := None;
     train_loader := loader "train" 16 true;
     val_loader := loader "val" 4 false;
     test_loader := loader "test" 4 false;
     num_train_batches := qc 1 8; num_val_batches := qc 1 4;
     num_test_batches := qc 1 4;
     loss_fn := {| bce_weight := None |};
     loss_loc := Some energy;
     model_activator := {| act_layer := None; act_is_bcos := false |};
     attributor := Some (ixg true);
     eval_attributor := Some (ixg false) |}.

Definition batch : @Batch ExactBase := batch_of ([5; 6], 1, Some [0; 0; 1; 1], 0).

Definition acc0 : @TrainAcc ExactBase :=
  {| total_loss := NInt 0; total_class_loss := NInt 0;
     total_localization_loss := NInt 0 |}.

Definition with_schedule (a : @Args ExactBase) (epochs freq : Z) (threshold : Qc)
    : @Args ExactBase :=
  {| task := task a; model_backbone := model_backbone a; model_path := model_path a;
     data_path := data_path a; total_epochs := epochs;
     learning_rate := learning_rate a; log_path := log_path a;
     save_path := save_path a; seed := seed a;
     train_batch_size := train_batch_size a; dataset := dataset a;
     localization_loss_lambda := localization_loss_lambda a; layer := layer a;
     localization_loss_fn := localization_loss_fn a;
     attribution_method := attribution_method a;
     optimize_explanations := optimize_explanations a; min_acc := threshold;
     pareto := pareto a; annotated_fraction := annotated_fraction a;
     evaluation_frequency := freq; eval_batch_size := eval_batch_size a;
     box_dilation_percentage := box_dilation_percentage a;
     use_loss_weights := use_loss_weights a |}.

(** the same command line for another admitted value of [--dataset] *)
Definition args_voc : @Args ExactBase :=
  {| task := "background"; model_backbone := "bcos"; model_path := Some "ckpt/run1/model.pt";
     data_path := "datasets/"; total_epochs := 1; learning_rate := qc 1 100000;
     log_path := Some "logs"; save_path := "checkpoints/"; seed := 0;
     train_batch_size := 16; dataset := "VOC2007";
     localization_loss_lambda := qc 1 1; layer := "Final";
     localization_loss_fn := None; attribution_method := None;
     optimize_explanations := false; min_acc := qc (-1) 1; pareto := true;
     annotated_fraction := qc 1 2; evaluation_frequency := 1;
     eval_batch_size := 4; box_dilation_percentage := qc 1 10;
     use_loss_weights := true |}.

(** an attribution method with no localization loss *)
Definition args_no_loc : @Args ExactBase :=
  {| task := "birds"; model_backbone := "xdnn"; model_path := None;
     data_path := "datasets/"; total_epochs := 2; learning_rate := qc 1 100000;
     log_path := None; save_path := "checkpoints/"; seed := 0;
     train_batch_size := 16; dataset := "Waterbirds-100";
     localization_loss_lambda := qc 1 1; layer := "Mid2";
     localization_loss_fn := None; attribution_method := Some "GradCam";
     optimize_explanations := true; min_acc := qc (-1) 1; pareto := false;
     annotated_fraction := qc 1 1; evaluation_frequency := 1;
     eval_batch_size := 4; box_dilation_percentage := qc 0 1;
     use_loss_weights := false |}.

(** a run whose command line gave no attribution method *)
Definition run_plain : @Run ExactBase :=
  {| writer := writer run; train_loader := train_loader run;
     val_loader := val_loader run; test_loader := test_loader run;
     num_train_batches := num_train_batches run;
     num_val_batches := num_val_batches run;
     num_test_batches := num_test_batches run;
     loss_fn := loss_fn run; loss_loc := None;
     model_activator := model_activator run;
     attributor := None; eval_attributor := None |}.

(** the samples the toy library finds on disk *)
Definition train_data : list sample :=
  waterbirds_detect_parsed lib "datasets/Waterbirds-100/birds_processed/" "train"
    (Single Normalize) None.

Definition test_data : list sample :=
  waterbirds_detect_parsed lib "datasets/Waterbirds-100/birds_processed/" "test"
    (Single Normalize) None.

(** a loader over a dataset without samples *)
Definition empty_loader : @DataLoader ExactBase :=
  {| dl_data := []; dl_batch_size := 4; dl_shuffle := false |}.

(** one epoch, evaluation every second epoch: no evaluation takes place *)
Definition args_no_eval : @Args ExactBase := with_schedule args 1 2 (qc (-1) 1).

(** a threshold no accuracy reaches: stops at the second evaluation *)
Definition args_stop : @Args ExactBase := with_schedule args 5 1 (qc 2 1).
End Toy.

(** The rational a finite binary32 value stands for. *)
Definition b32_to_Q (x : spec_float) : option Q :=
  match x with
  | S754_zero _ => Some (0 # 1)
  | S754_finite s m e =>
      let z := if s then Zneg m else Zpos m in
      Some (match e with
            | Z0 => z # 1
            | Zpos p => (z * 2 ^ Zpos p) # 1
            | Zneg p => z # (2 ^ p)
            end)
  | _ => None
  end.

(** ** The same small library over binary32 scalars *)
Module Toy32.
#[local] Existing Instance Binary32Base.

Definition frac (n d : Z) : spec_float :=
  SFdiv prec32 emax32 (b32_of_Z n) (b32_of_Z d).

Definition batch_of (s : Toy.sample) : @Batch Binary32Base :=
  {| b_X := s.1.1.1; b_y := [s.1.1.2]; b_bbs := map (fun _ => s.1.2) s.1.1.1;
     b_groups := [s.2] |}.

Definition tracker : Type :=
  option (spec_float * list Z * Z * gmap string (@PyVal Binary32Base)).

Definition tracker_update32 (t : tracker)
    (metric_vals : gmap string (@PyVal Binary32Base)) (m : @Model Binary32Base) (e : Z)
    : tracker :=
  match metric_vals !! "Accuracy" with
  | Some (VFloat x) =>
      match t with
      | Some (best, _, _, _) =>
          if SFltb best x then Some (x, m_params m, e, metric_vals) else t
      | None => Some (x, m_params m, e, metric_vals)
      end
  | _ => t
  end.

Definition tracker_get_best32 (t : tracker) :=
  match t with
  | Some (best, p, e, d) => (Some best, Some p, Some e, Some d)
  | None => (None, None, None, None)
  end.

Definition lib : Lib Binary32Base := {|
  hubconf_resnet50 := fun _ => [1];
  xfixup_resnet50 := [2];
  torchvision_resnet50 := fun _ => [3];
  pretrained_fc := fun arch =>
    {| fc_kind := match arch with BcosResNet50 => BcosConv2d | _ => Linear end;
       fc_in := 2048; fc_out := 1000 |};
  fresh_fc := fun _ p => p;
  remove_module := fun p => p;
  torch_load := fun path =>
    if bool_decide (path = "missing.pt") then None
    else Some {[ "model" := VParams [7]; "state_dict" := VParams [8] ]};
  waterbirds_detect_parsed := fun root image_set _ _ =>
    if bool_decide (image_set = "train")
    then [([5; 6], 1, Some [0; 0; 1; 1], 0); ([7], 0, None, 1)]
    else [([9], 1, Some [0; 0; 2; 2], 3)];
  ds_len := fun d => Z.of_nat (length d);
  iter_loader := fun dl _ => map batch_of (dl_data dl);
  tensor_len := fun t => length t;
  tensor_index := fun t i => [default 0 (t !! i)];
  forward := fun _ m x => (m_params m, x);
  bce_with_logits := fun _ logits y => frac (Toy.sum_Z logits + Toy.sum_Z y) 2;
  get_localization_loss := fun name =>
    {| ll_name := name; only_positive := true; binarize := false |};
  loc_loss := fun _ attr bb => frac (Toy.sum_Z attr + Toy.sum_Z bb) 3;
  attribute_batch := fun _ _ features _ _ => features;
  attribute_one := fun _ _ features _ _ _ => features;
  get_random_optimization_targets := fun _ y => y;
  positive_classes := fun y _ => if bool_decide (y = [1]) then [[0]] else [];
  filter_bbs := fun bb _ => bb;
  enlarge_bb := fun bb _ => bb;
  adam_step := fun _ _ p _ _ => map Z.succ p;
  multilabel_compute := fun _ ups =>
    {[ "Accuracy" := VFloat (frac 1 2); "Precision" := VFloat (frac 1 2);
       "Recall" := VFloat (frac 1 3); "F-Score" := VFloat (frac 2 5) ]};
  grouped_compute := fun names _ =>
    list_to_map (map (fun n => (n, VFloat (frac 1 4))) (default [] names));
  bb_energy_compute := fun ups => VInt (Z.of_nat (length ups));
  bb_iou_compute := fun ups => VInt (Z.of_nat (length ups));
  update_val_metrics := fun d => d;
  Tracker := tracker;
  tracker_new := fun _ => None;
  tracker_update := tracker_update32;
  tracker_get_best := tracker_get_best32;
  Pareto := nat;
  pareto_new := 0%nat;
  pareto_update := fun p _ _ _ => S p;
|}.

Definition args : @Args Binary32Base := {|
  task := "birds"; model_backbone := "vanilla"; model_path := None;
  data_path := "datasets/"; total_epochs := 2; learning_rate := frac 1 100000;
  log_path := None; save_path := "checkpoints/"; seed := 0;
  train_batch_size := 16; dataset := "Waterbirds-100";
  localization_loss_lambda := frac 1 2; layer := "Input";
  localization_loss_fn := Some "Energy"; attribution_method := Some "IxG";
  optimize_explanations := true; min_acc := b32_of_Z (-1); pareto := false;
  annotated_fraction := b32_of_Z 1; evaluation_frequency := 1;
  eval_batch_size := 4; box_dilation_percentage := b32_of_Z 0;
  use_loss_weights := true;
|}.

Definition model : @Model Binary32Base :=
  {| m_arch := TorchvisionResNet50;
     m_fc := {| fc_kind := Linear; fc_in := 2048; fc_out := 2 |};
     m_params := [3]; m_training := true; m_device := Some "cuda:1" |}.

Definition world : @World Binary32Base :=
  {| w_model := model; w_rng := 0; w_steps := 0; w_trace := [] |}.

Definition ixg (batch_mode : bool) : Attributor :=
  {| at_method := "IxG"; at_only_positive := true; at_binarize := false;
     at_interpolate := false; at_batch_mode := batch_mode |}.

Definition energy : LocLoss :=
  {| ll_name := "Energy"; only_positive := true; binarize := false |}.

Definition train_data : list Toy.sample :=
  [([5; 6], 1, Some [0; 0; 1; 1], 0); ([7], 0, None, 1)].

Definition test_data : list Toy.sample := [([9], 1, Some [0; 0; 2; 2], 3)].

Definition loader (data : list Toy.sample) (batch_size : Z) (shuffle : bool)
    : @DataLoader Binary32Base :=
  {| dl_data := data; dl_batch_size := batch_size; dl_shuffle := shuffle |}.

Definition run : @Run Binary32Base :=
  {| writer := None;
     train_loader := loader train_data 16 true;
     val_loader := loader test_data 4 false;
     test_loader := loader test_data 4 false;
     num_train_batches := frac 2 16; num_val_batches := frac 1 4;
     num_test_batches := frac 1 4;
     loss_fn := {| bce_weight := Some (get_loss_upweights Binary32Base) |};
     loss_loc := Some energy;
     model_activator := {| act_layer := None; act_is_bcos := false |};
     attributor := Some (ixg true);
     eval_attributor := Some (ixg false) |}.

Definition batch : @Batch Binary32Base := batch_of ([5; 6], 1, Some [0; 0; 1; 1], 0).

Definition acc0 : @TrainAcc Binary32Base :=
  {| total_loss := NInt 0; total_class_loss := NInt 0;
     total_localization_loss := NInt 0 |}.
End Toy32.

(** ** Observations on a trace, and the vocabulary of the properties *)

Section Observations.
Context {B : Base}.

(** the [torch.save] calls of a trace: object and path *)
Definition saves (tr : list (@Event B)) : list (gmap string (@PyVal B) * string) :=
  omap (fun ev => match ev with EvTorchSave d p => Some (d, p) | _ => None end) tr.

(** the losses on which [backward()] was called *)
Definition backward_losses (tr : list (@Event B)) : list (R B) :=
  omap (fun ev => match ev with EvBackward x => Some x | _ => None end) tr.

Definition is_dataset_event (ev : @Event B) : bool :=
  match ev with EvWaterbirdsDetectParsed _ _ _ _ => true | _ => false end.

Definition is_attribution (ev : @Event B) : bool :=
  match ev with EvAttribution _ => true | _ => false end.

(** events of a gradient step *)
Definition is_update (ev : @Event B) : bool :=
  match ev with EvZeroGrad | EvBackward _ | EvOptimizerStep => true | _ => false end.

Definition is_save (ev : @Event B) : bool :=
  match ev with EvTorchSave _ _ => true | _ => false end.

Definition dataset_events (tr : list (@Event B)) : list (@Event B) :=
  List.filter is_dataset_event tr.

(** a group-wise report is over the four Waterbirds groups *)
Definition over_four_groups (ev : @Event B) : Prop :=
  match ev with
  | EvPrintGroups gn _ => gn = Some GROUP_NAMES
  | _ => True
  end.

(** Python's [sum]: a left fold from the integer 0 *)
Definition py_sum (xs : list (R B)) : R B := fold_left (add B) xs (of_Z B 0).

(** [m] only appends events, all of which satisfy [P], whether it
    returns or raises. *)
Definition emits {A} (P : @Event B → Prop) (m : M A) : Prop :=
  ∀ w, ∃ evs, res_trace (m w) = w_trace w ++ evs ∧ Forall P evs.

(** What a run may change besides the trace and the random stream:
    nothing but the train/eval mode of the model. *)
Definition same_weights (w w' : World) : Prop :=
  m_params (w_model w') = m_params (w_model w)
  ∧ m_arch (w_model w') = m_arch (w_model w)
  ∧ m_fc (w_model w') = m_fc (w_model w)
  ∧ m_device (w_model w') = m_device (w_model w)
  ∧ w_steps w' = w_steps w.

(** the model object and the optimizer are untouched *)
Definition same_store (w w' : World) : Prop :=
  w_model w' = w_model w ∧ w_steps w' = w_steps w.

(** the events [eval_model] may append *)
Definition eval_event (attributor : option Attributor)
    (group_names : option (list string)) (ev : @Event B) : Prop :=
  match ev with
  | EvPrintMetrics _ | EvAddScalar _ _ _ => True
  | EvPrintGroups gn _ => gn = group_names
  | EvAttribution a => attributor = Some a
  | _ => False
  end.

(** the events of the epoch loop and of what follows it *)
Definition run_event (run : @Run B) (ev : @Event B) : Prop :=
  match ev with
  | EvSetSeed _ | EvMakedirs _ | EvSummaryWriter _
  | EvWaterbirdsDetectParsed _ _ _ _ => False
  | EvPrintGroups gn _ => gn = Some GROUP_NAMES
  | EvAttribution a => attributor run = Some a ∨ eval_attributor run = Some a
  | _ => True
  end.

(** the events of the gradient steps of an epoch *)
Definition train_event (run : @Run B) (ev : @Event B) : Prop :=
  match ev with
  | EvZeroGrad | EvBackward _ | EvOptimizerStep | EvPrintEpoch _ _
  | EvAddScalar _ _ _ => True
  | EvAttribution a => attributor run = Some a
  | _ => False
  end.

(** the events of the set-up of a run (lines 196-276) *)
Definition setup_event (ev : @Event B) : Prop :=
  match ev with
  | EvMakedirs _ | EvSummaryWriter _ | EvWaterbirdsDetectParsed _ _ _ _ => True
  | _ => False
  end.

Definition keeps {A} (Rel : World → World → Prop) (m : M A) : Prop :=
  ∀ w a w', m w = Ok a w' → Rel w w'.

(** the model of a store, switched to eval mode *)
Definition in_eval_mode (m : Model) : Model :=
  {| m_arch := m_arch m; m_fc := m_fc m; m_params := m_params m;
     m_training := false; m_device := m_device m |}.

Definition in_train_mode (m : Model) : Model :=
  {| m_arch := m_arch m; m_fc := m_fc m; m_params := m_params m;
     m_training := true; m_device := m_device m |}.

Definition detached (n : @Num B) : Prop :=
  match n with NTensor _ g => g = false | _ => True end.
End Observations.

Section Quantities.
Context {B : Base} (L : Lib B).

(** the forward pass of an evaluation batch, on a given model *)
Definition eval_logits (model : Activator) (m : Model) (data : @Batch B) : Tensor B :=
  (forward L model m (b_X data)).1.

Definition eval_loss (model : Activator) (loss_fn : LossFn) (m : Model)
    (data : @Batch B) : R B :=
  bce_with_logits L loss_fn (eval_logits model m data) (b_y data).

(** the updates [bb_metric.update(attributions, bb_list)] of one evaluation
    batch: for every image in order, for every class the image is labelled
    with, the attribution of that class and the boxes of that class *)
Definition bb_updates (a : Attributor) (model : Activator) (m : Model)
    (data : @Batch B) : list (Tensor B * Tensor B) :=
  let out := forward L model m (b_X data) in
  flat_map
    (fun img_idx =>
       match b_bbs data !! img_idx with
       | Some (Some bbs) =>
           map (fun pred =>
                  (attribute_one L a m out.2 out.1 pred img_idx, filter_bbs L bbs pred))
             (positive_classes L (b_y data) img_idx)
       | _ => []
       end)
    (seq 0 (tensor_len L (b_X data))).

(** *** One training batch, in the words of the loss it optimizes *)

Definition train_logits (run : @Run B) (m : Model) (data : @Batch B) : Tensor B :=
  (forward L (model_activator run) m (b_X data)).1.

Definition train_features (run : @Run B) (m : Model) (data : @Batch B) : Tensor B :=
  (forward L (model_activator run) m (b_X data)).2.

(** [loss_fn(logits, train_y)] *)
Definition classification_loss (run : @Run B) (m : Model) (data : @Batch B) : R B :=
  bce_with_logits L (loss_fn run) (train_logits run m data) (b_y data).

(** [loss_loc(attributions[img_idx], bb_list)] for an annotated image *)
Definition image_loc_loss (args : Args) (ll : LocLoss) (attributions gt_classes : Tensor B)
    (img_idx : nat) (bbs : Tensor B) : R B :=
  let bb_list := filter_bbs L bbs (tensor_index L gt_classes img_idx) in
  let bb_list :=
    if dilated args then enlarge_bb L bb_list (box_dilation_percentage args)
    else bb_list in
  loc_loss L ll (tensor_index L attributions img_idx) bb_list.

(** the images among [idxs] whose bounding-box annotation is not None *)
Definition annotated (train_bbs : list (option (Tensor B))) (idxs : list nat)
    : list (nat * Tensor B) :=
  omap (fun i => match train_bbs !! i with
                 | Some (Some t) => Some (i, t)
                 | _ => None
                 end) idxs.

(** the sum of the per-image localization losses of a batch *)
Definition localization_sum (args : Args) (ll : LocLoss) (a : Attributor)
    (run : @Run B) (w : World) (data : @Batch B) : R B :=
  let m := w_model w in
  let gt_classes := get_random_optimization_targets L (w_rng w) (b_y data) in
  let attributions :=
    attribute_batch L a m (train_features run m data) (train_logits run m data)
      gt_classes in
  py_sum (map (fun it => image_loc_loss args ll attributions gt_classes it.1 it.2)
            (annotated (b_bbs data) (seq 0 (tensor_len L (b_X data))))).

(** *** Datasets *)

Definition task_subdir (task : string) : string :=
  if bool_decide (task = "birds") then "birds_processed/" else "background_processed/".

(** the root path: [--data_path], [--dataset] and the task subdirectory *)
Definition waterbirds_root (args : @Args B) : string :=
  os_path_join (data_path args) [dataset args; task_subdir (task args)].

Definition eval_transform (args : @Args B) : Transform :=
  if bool_decide (model_backbone args = "bcos") then AddInverse 0 else Normalize.

(** the three [datasets.WaterbirdsDetectParsed] constructions of a run *)
Definition dataset_loads (args : @Args B) : list (@Event B) :=
  [ EvWaterbirdsDetectParsed (waterbirds_root args) "train"
      (Compose [RandomResizedCrop 224 224; RandomHorizontalFlip; eval_transform args])
      (Some (annotated_fraction args));
    EvWaterbirdsDetectParsed (waterbirds_root args) "val"
      (Single (eval_transform args)) None;
    EvWaterbirdsDetectParsed (waterbirds_root args) "test"
      (Single (eval_transform args)) None ].

(** *** Checkpoints *)

(** the dict saved on an early stop after epoch [e] *)
Definition stopped_checkpoint (e : Z) (d : gmap string (@PyVal B)) : Prop :=
  d !! "model" = Some VNone
  ∧ d !! "BelowThresh" = Some (VBool true)
  ∧ d !! "epochs" = Some (VInt (e + 1)).

(** the dict saved for the model after the last epoch [e] *)
Definition final_checkpoint (e : Z) (d : gmap string (@PyVal B)) : Prop :=
  d !! "epochs" = Some (VInt (e + 1)) ∧ ∃ p, d !! "model" = Some (VParams p).

(** the dict saved for the best model the tracker holds *)
Definition best_checkpoint (t : Tracker L) (d : gmap string (@PyVal B)) : Prop :=
  ∃ p ep, (tracker_get_best L t).1.1.2 = Some p
    ∧ (tracker_get_best L t).1.2 = Some ep
    ∧ d !! "model" = Some (VParams p)
    ∧ d !! "epochs" = Some (VInt (ep + 1)).

(** an evaluation took place in an epoch before [e] *)
Definition evaluated_before (args : @Args B) (e : Z) : Prop :=
  ∃ e0, 0 ≤ e0 < e ∧ (e0 + 1) `mod` evaluation_frequency args = 0.

(** the locals of [main] on entry to the epoch loop *)
Definition loop_entry : Locals L :=
  {| metric_vals := None; acc_tracker := tracker_new L "Accuracy";
     pareto_front_tracker := pareto_new L; e_var := None |}.

(** a tracker that was never updated reports no best value *)
Definition fresh_tracker_has_no_best : Prop :=
  (tracker_get_best L (tracker_new L "Accuracy")).1.1.1 = None.
End Quantities.

Arguments vars_args : simpl never.
Arguments dict_update : simpl never.
Arguments save_dir : simpl never.
Arguments stopped_path : simpl never.
Arguments final_path : simpl never.
Arguments acc_best_path : simpl never.
Arguments data_root : simpl never.
Arguments out_name : simpl never.
Arguments saves : simpl never.
Arguments dataset_events : simpl never.
Arguments waterbirds_root : simpl never.
Arguments backward_losses : simpl never.

(** * Properties *)

Section MonadLaws.
Context {B : Base}.
Implicit Types w : @World B.

Lemma bind_unfold {A C} (m : M A) (k : A → M C) w :
  (m ≫= k) w = match m w with Ok a w' => k a w' | Err e tr => Err e tr end.
Proof. reflexivity. Qed.

Lemma bind_Ok_inv {A C} (m : M A) (k : A → M C) w c w2 :
  (m ≫= k) w = Ok c w2 → ∃ a w1, m w = Ok a w1 ∧ k a w1 = Ok c w2.
Proof. rewrite bind_unfold. destruct (m w) as [a w1|]; [eauto | discriminate]. Qed.

Lemma bind_Ok {A C} (m : M A) (k : A → M C) w a w1 :
  m w = Ok a w1 → (m ≫= k) w = k a w1.
Proof. intros H. rewrite bind_unfold, H. reflexivity. Qed.

Lemma bind_Err {A C} (m : M A) (k : A → M C) w e tr :
  m w = Err e tr → (m ≫= k) w = Err e tr.
Proof. intros H. rewrite bind_unfold, H. reflexivity. Qed.

Lemma for_each_cons {A S} (x : A) xs (body : A → S → M S) s w :
  for_each (x :: xs) body s w
  = match body x s w with
    | Ok s' w' => for_each xs body s' w'
    | Err e tr => Err e tr
    end.
Proof. reflexivity. Qed.

Lemma from_option_Ok {A} (o : option A) e w a w' :
  from_option o e w = Ok a w' → o = Some a ∧ w' = w.
Proof. destruct o; cbn; intros H; inversion H; auto. Qed.

(** *** Frame rules for the trace *)

Lemma emits_ret {A} P (a : A) : emits P (mret a).
Proof. intros w. exists []. cbn. rewrite app_nil_r. auto. Qed.

Lemma emits_raise {A} P e : emits P (raise (A:=A) e).
Proof. intros w. exists []. cbn. rewrite app_nil_r. auto. Qed.

Lemma emits_emit (P : @Event B → Prop) ev : P ev → emits P (emit ev).
Proof. intros H w. exists [ev]. cbn. auto. Qed.

Lemma emits_get_model P : emits P get_model.
Proof. intros w. exists []. cbn. rewrite app_nil_r. auto. Qed.

Lemma emits_set_model P m : emits P (set_model m).
Proof. intros w. exists []. cbn. rewrite app_nil_r. auto. Qed.

Lemma emits_draw P : emits P draw.
Proof. intros w. exists []. cbn. rewrite app_nil_r. auto. Qed.

Lemma emits_bind {A C} P (m : M A) (k : A → M C) :
  emits P m → (∀ a, emits P (k a)) → emits P (m ≫= k).
Proof.
  intros Hm Hk w. rewrite bind_unfold. destruct (Hm w) as (evs & Ht & Hp).
  destruct (m w) as [a w1|e tr]; cbn in Ht.
  - destruct (Hk a w1) as (evs' & Ht' & Hp'). exists (evs ++ evs').
    rewrite Ht', Ht, app_assoc. split; [done | by apply Forall_app].
  - exists evs. auto.
Qed.

Lemma emits_from_option {A} P (o : option A) e : emits P (from_option o e).
Proof. destruct o; [apply emits_ret | apply emits_raise]. Qed.

Lemma emits_bind_from_option {A C} P (o : option A) e (k : A → M C) :
  (∀ a, o = Some a → emits P (k a)) → emits P (from_option o e ≫= k).
Proof.
  intros Hk w. rewrite bind_unfold. destruct o as [a|]; cbn.
  - exact (Hk a eq_refl w).
  - exists []. rewrite app_nil_r. auto.
Qed.

Lemma emits_when P b m : emits P m → emits P (when b m).
Proof. destruct b; [done | intros; apply emits_ret]. Qed.

Lemma emits_for_each {A S} P (xs : list A) (body : A → S → M S) :
  (∀ x s, emits P (body x s)) → ∀ s, emits P (for_each xs body s).
Proof.
  intros Hb. induction xs as [|x xs IH]; intros s; cbn.
  - apply emits_ret.
  - apply (emits_bind P (body x s)); auto.
Qed.

Lemma emits_mono {A} (P Q : @Event B → Prop) (m : M A) :
  (∀ ev, P ev → Q ev) → emits P m → emits Q m.
Proof.
  intros HPQ Hm w. destruct (Hm w) as (evs & Ht & Hp). exists evs.
  split; [done |]. eapply Forall_impl; eauto.
Qed.

(** *** Frame rules for the store *)

Section Keeps.
Context (Rel : @World B → @World B → Prop).
Context (Rel_refl : ∀ w, Rel w w).
Context (Rel_trans : ∀ w1 w2 w3, Rel w1 w2 → Rel w2 w3 → Rel w1 w3).

Lemma keeps_ret {A} (a : A) : keeps Rel (mret a).
Proof. intros w a' w' H. inversion H; subst. apply Rel_refl. Qed.

Lemma keeps_raise {A} e : keeps Rel (raise (A:=A) e).
Proof. intros w a' w' H. inversion H. Qed.

Lemma keeps_get_model : keeps Rel get_model.
Proof. intros w a' w' H. inversion H; subst. apply Rel_refl. Qed.

Lemma keeps_bind {A C} (m : M A) (k : A → M C) :
  keeps Rel m → (∀ a, keeps Rel (k a)) → keeps Rel (m ≫= k).
Proof.
  intros Hm Hk w c w2 H. apply bind_Ok_inv in H as (a & w1 & H1 & H2).
  eapply Rel_trans; [eapply Hm | eapply Hk]; eauto.
Qed.

Lemma keeps_from_option {A} (o : option A) e : keeps Rel (from_option o e).
Proof. destruct o; [apply keeps_ret | apply keeps_raise]. Qed.

Lemma keeps_for_each {A S} (xs : list A) (body : A → S → M S) :
  (∀ x s, keeps Rel (body x s)) → ∀ s, keeps Rel (for_each xs body s).
Proof.
  intros Hb. induction xs as [|x xs IH]; intros s; cbn.
  - apply keeps_ret.
  - apply (keeps_bind (body x s)); auto.
Qed.
End Keeps.

Lemma same_store_refl w : same_store w w.
Proof. by split. Qed.

Lemma same_store_trans w1 w2 w3 :
  same_store w1 w2 → same_store w2 w3 → same_store w1 w3.
Proof. intros [] []. split; congruence. Qed.

Lemma keeps_emit ev : keeps same_store (emit ev).
Proof. intros w a w' H. inversion H; subst. by split. Qed.

Lemma keeps_draw : keeps same_store draw.
Proof. intros w a w' H. inversion H; subst. by split. Qed.
End MonadLaws.

Ltac emits_with tac :=
  repeat first
    [ tac
    | apply emits_ret | apply emits_raise | apply emits_get_model
    | apply emits_set_model | apply emits_draw | apply emits_from_option
    | apply emits_emit; cbn; solve [auto]
    | apply emits_for_each; intros ? ?
    | apply emits_when
    | apply emits_bind_from_option; intros ? ?
    | apply emits_bind; [| intros ?]
    | progress unfold num_item, float_div, int_div, num_div, dict_get, group_value,
        set_training, save_pareto_front, backward, make_loader, load_dataset
    | match goal with
      | |- emits _ (match ?x with _ => _ end) => destruct x
      | |- emits _ (let _ := _ in _) => cbv zeta
      end ].

Ltac emits_tac := emits_with fail.

Ltac keeps_with tac :=
  repeat first
    [ tac
    | apply keeps_ret; apply same_store_refl
    | apply keeps_raise | apply keeps_get_model; apply same_store_refl
    | apply keeps_emit | apply keeps_draw
    | apply keeps_from_option; apply same_store_refl
    | apply keeps_for_each; [apply same_store_refl | apply same_store_trans | intros ? ?]
    | apply keeps_bind; [apply same_store_trans | | intros ?]
    | progress unfold num_item, float_div, int_div, num_div, dict_get, group_value,
        save_pareto_front, make_loader, load_dataset
    | match goal with
      | |- keeps _ (match ?x with _ => _ end) => destruct x
      | |- keeps _ (let _ := _ in _) => cbv zeta
      end ].

Ltac keeps_tac := keeps_with fail.

(** ** eval_model *)

Section EvalModel.
Context {B : Base} (L : Lib B).
Implicit Types w : @World B.

Lemma for_each_inv {A S} (I : S → @World B → Prop) (xs : list A)
    (body : A → S → M S) :
  (∀ x s w s' w', I s w → body x s w = Ok s' w' → I s' w') →
  ∀ s w s' w', I s w → for_each xs body s w = Ok s' w' → I s' w'.
Proof.
  intros Hb. induction xs as [|x xs IH]; intros s w s' w' HI H; cbn in H.
  - inversion H; subst. exact HI.
  - apply bind_Ok_inv in H as (s1 & w1 & H1 & H2). eauto.
Qed.

Lemma eval_pred_Ok a features logits bbs img_idx pred s w s' w' :
  eval_pred L a features logits bbs img_idx pred s w = Ok s' w' →
  w_model w' = w_model w ∧ w_steps w' = w_steps w ∧ w_rng w' = w_rng w
  ∧ ea_total_loss s' = ea_total_loss s ∧ ea_acc s' = ea_acc s
  ∧ ea_grouped s' = ea_grouped s.
Proof.
  unfold eval_pred. intros H.
  apply bind_Ok_inv in H as (m & w1 & H1 & H). inversion H1; subst; clear H1.
  apply bind_Ok_inv in H as ([] & w2 & H2 & H). inversion H2; subst; clear H2.
  apply bind_Ok_inv in H as (t & w3 & H3 & H).
  destruct (bbs !! img_idx) as [[t'|]|]; inversion H3; subst; clear H3.
  inversion H; subst. cbn. auto 10.
Qed.

Lemma eval_batch_Ok model attributor loss_fn data s w s' w' :
  eval_batch L model attributor loss_fn data s w = Ok s' w' →
  w_model w' = w_model w ∧ w_steps w' = w_steps w ∧ w_rng w' = w_rng w
  ∧ ea_total_loss s'
    = num_add (ea_total_loss s) (NTensor (eval_loss L model loss_fn (w_model w) data) false)
  ∧ ea_acc s' = ea_acc s ++ [(eval_logits L model (w_model w) data, b_y data)]
  ∧ ea_grouped s'
    = ea_grouped s ++ [(eval_logits L model (w_model w) data, b_y data, b_groups data)].
Proof.
  unfold eval_batch. intros H.
  apply bind_Ok_inv in H as (m & w1 & H1 & H). inversion H1; subst; clear H1.
  cbv zeta in H. destruct attributor as [a|].
  - revert H. match goal with |- for_each _ _ ?s0 _ = _ → _ => set (s1 := s0) end.
    intros H.
    apply (for_each_inv (fun s2 w2 =>
             w_model w2 = w_model w1 ∧ w_steps w2 = w_steps w1 ∧ w_rng w2 = w_rng w1
             ∧ ea_total_loss s2 = ea_total_loss s1 ∧ ea_acc s2 = ea_acc s1
             ∧ ea_grouped s2 = ea_grouped s1)) in H; [exact H | | by auto 10].
    intros img_idx s2 w2 s3 w3 HI Hin.
    apply (for_each_inv (fun s4 w4 =>
             w_model w4 = w_model w1 ∧ w_steps w4 = w_steps w1 ∧ w_rng w4 = w_rng w1
             ∧ ea_total_loss s4 = ea_total_loss s1 ∧ ea_acc s4 = ea_acc s1
             ∧ ea_grouped s4 = ea_grouped s1)) in Hin; [exact Hin | | exact HI].
    intros pred s4 w4 s5 w5 HI4 Hp. apply eval_pred_Ok in Hp.
    destruct HI4 as (? & ? & ? & ? & ? & ?), Hp as (? & ? & ? & ? & ? & ?).
    repeat split; congruence.
  - inversion H; subst. cbn. auto 10.
Qed.

(** The accumulators after the loop over the loader. *)
Lemma eval_batches_Ok model attributor loss_fn batches : ∀ s w s' w',
  for_each batches (eval_batch L model attributor loss_fn) s w = Ok s' w' →
  w_model w' = w_model w ∧ w_steps w' = w_steps w
  ∧ ea_total_loss s'
    = fold_left num_add
        (map (fun d => NTensor (eval_loss L model loss_fn (w_model w) d) false) batches)
        (ea_total_loss s)
  ∧ ea_acc s'
    = ea_acc s ++ map (fun d => (eval_logits L model (w_model w) d, b_y d)) batches
  ∧ ea_grouped s'
    = ea_grouped s
      ++ map (fun d => (eval_logits L model (w_model w) d, b_y d, b_groups d)) batches.
Proof.
  induction batches as [|d ds IH]; intros s w s' w' H; cbn in H.
  - inversion H; subst. cbn. rewrite !app_nil_r. auto 10.
  - apply bind_Ok_inv in H as (s1 & w1 & H1 & H2).
    apply eval_batch_Ok in H1 as (Hm & Hs & _ & Htl & Hacc & Hg).
    apply IH in H2 as (Hm2 & Hs2 & Htl2 & Hacc2 & Hg2).
    rewrite Hm in *. rewrite Hm2, Hs2, Hs, Htl2, Hacc2, Hg2, Htl, Hacc, Hg.
    cbn. rewrite <- !app_assoc. auto 10.
Qed.

Lemma eval_loop_Ok model attributor loader loss_fn w s w' :
  eval_loop L model attributor loader loss_fn w = Ok s w' →
  let m := in_eval_mode (w_model w) in
  let batches := iter_loader L loader (w_rng w) in
  w_model w' = m ∧ w_steps w' = w_steps w
  ∧ ea_total_loss s
    = fold_left num_add
        (map (fun d => NTensor (eval_loss L model loss_fn m d) false) batches) (NInt 0)
  ∧ ea_acc s = map (fun d => (eval_logits L model m d, b_y d)) batches
  ∧ ea_grouped s = map (fun d => (eval_logits L model m d, b_y d, b_groups d)) batches.
Proof.
  unfold eval_loop. intros H.
  apply bind_Ok_inv in H as ([] & w1 & H1 & H).
  apply bind_Ok_inv in H as (i & w2 & H2 & H).
  cbv in H1. inversion H1; subst; clear H1.
  cbv in H2. inversion H2; subst; clear H2.
  apply eval_batches_Ok in H. cbn in H. exact H.
Qed.
End EvalModel.

Section EvalReport.
Context {B : Base} (L : Lib B).
Implicit Types w : @World B.

(** Accumulating 0-dimensional tensors into a Python number. *)
Lemma sum_tensors g (xs : list (R B)) : ∀ y,
  fold_left num_add (map (fun x => NTensor x g) xs) (NTensor y g)
  = NTensor (fold_left (add B) xs y) g.
Proof.
  induction xs as [|x xs IH]; intros y; [done |].
  cbn [map fold_left num_add]. rewrite orb_diag. apply IH.
Qed.

Lemma sum_from_int g (xs : list (R B)) z :
  fold_left num_add (map (fun x => NTensor x g) xs) (NInt z)
  = match xs with
    | [] => NInt z
    | _ => NTensor (fold_left (add B) xs (of_Z B z)) g
    end.
Proof. destruct xs as [|x xs]; [done |]. cbn [map fold_left num_add]. apply sum_tensors. Qed.

Lemma emits_eval_log attributor tl nb mv gv epoch gn :
  emits (eval_event attributor gn) (eval_log attributor tl nb mv gv epoch gn).
Proof.
  unfold eval_log. emits_tac.
Qed.

Lemma keeps_eval_log attributor tl nb mv gv epoch gn :
  keeps same_store (eval_log attributor tl nb mv gv epoch gn).
Proof.
  unfold eval_log. keeps_tac.
Qed.

Lemma emits_eval_model model attributor loader nb nc loss_fn writer epoch gn :
  emits (eval_event attributor gn)
    (eval_model L model attributor loader nb nc loss_fn writer epoch gn).
Proof.
  unfold eval_model, eval_loop, eval_report, eval_batch, eval_pred.
  emits_with ltac:(apply emits_eval_log).
Qed.

Lemma emit_Ok (ev : @Event B) w a w' :
  emit ev w = Ok a w' →
  w_model w' = w_model w ∧ w_steps w' = w_steps w ∧ w_trace w' = w_trace w ++ [ev].
Proof. intros H. injection H as _ <-. done. Qed.

Lemma set_training_Ok b w a w' :
  set_training b w = Ok a w' →
  w_model w'
  = {| m_arch := m_arch (w_model w); m_fc := m_fc (w_model w);
       m_params := m_params (w_model w); m_training := b;
       m_device := m_device (w_model w) |}
  ∧ w_steps w' = w_steps w ∧ w_trace w' = w_trace w.
Proof. intros H. injection H as _ <-. done. Qed.

Lemma eval_report_Ok attributor nb nc writer epoch gn s w d w' :
  eval_report L attributor nb nc writer epoch gn s w = Ok d w' →
  ∃ tl g, ea_total_loss s = NTensor tl g
    ∧ eqb B nb (of_Z B 0) = false
    ∧ d = <["Average-Loss" := VFloat (div B tl nb)]> (eval_metrics L attributor nc s)
    ∧ w_model w' = in_train_mode (w_model w)
    ∧ w_steps w' = w_steps w.
Proof.
  unfold eval_report. intros H.
  apply bind_Ok_inv in H as (tl & w1 & H1 & H).
  destruct (ea_total_loss s) as [z|y|x g] eqn:Etl; try discriminate.
  injection H1 as -> ->.
  apply bind_Ok_inv in H as (avg & w2 & H2 & H).
  unfold float_div in H2. destruct (eqb B nb (of_Z B 0)) eqn:Enb; [discriminate |].
  injection H2 as <- <-.
  apply bind_Ok_inv in H as ([] & w3 & H3 & H). apply emit_Ok in H3 as (Hm3 & Hs3 & _).
  apply bind_Ok_inv in H as ([] & w4 & H4 & H). apply emit_Ok in H4 as (Hm4 & Hs4 & _).
  apply bind_Ok_inv in H as ([] & w5 & H5 & H).
  apply set_training_Ok in H5 as (Hm5 & Hs5 & _).
  apply bind_Ok_inv in H as ([] & w6 & H6 & H). injection H as <- <-.
  exists tl, g. split; [done |]. split; [done |]. split; [done |].
  assert (Hlast : w_model w6 = w_model w5 ∧ w_steps w6 = w_steps w5).
  { destruct writer as [wr|].
    - by apply keeps_eval_log in H6.
    - by injection H6 as <-. }
  destruct Hlast as [-> ->]. rewrite Hm5, Hs5, Hm4, Hs4, Hm3, Hs3. done.
Qed.

(** What a returning call of [eval_model] has done. *)
Lemma eval_model_Ok model attributor loader nb nc loss_fn writer epoch gn w d w' :
  eval_model L model attributor loader nb nc loss_fn writer epoch gn w = Ok d w' →
  let m := in_eval_mode (w_model w) in
  let batches := iter_loader L loader (w_rng w) in
  ∃ s w1,
    eval_loop L model attributor loader loss_fn w = Ok s w1
    ∧ w_model w1 = m
    ∧ batches ≠ []
    ∧ ea_total_loss s
      = NTensor (py_sum (map (eval_loss L model loss_fn m) batches)) false
    ∧ ea_acc s = map (fun d => (eval_logits L model m d, b_y d)) batches
    ∧ ea_grouped s = map (fun d => (eval_logits L model m d, b_y d, b_groups d)) batches
    ∧ eqb B nb (of_Z B 0) = false
    ∧ d = <["Average-Loss" :=
             VFloat (div B (py_sum (map (eval_loss L model loss_fn m) batches)) nb)]>
            (eval_metrics L attributor nc s)
    ∧ w_model w' = in_train_mode (w_model w)
    ∧ w_steps w' = w_steps w.
Proof.
  intros H m batches. unfold eval_model in H.
  apply bind_Ok_inv in H as (s & w1 & H1 & H).
  pose proof (eval_loop_Ok L _ _ _ _ _ _ _ H1) as (Hm & Hs & Htl & Hacc & Hg).
  apply eval_report_Ok in H as (tl & g & Etl & Enb & Hd & Hm' & Hs').
  fold m batches in Hm, Htl, Hacc, Hg.
  rewrite <- (map_map (eval_loss L model loss_fn m) (fun x => NTensor x false)) in Htl.
  rewrite sum_from_int in Htl.
  exists s, w1. split; [done |]. split; [done |].
  destruct batches as [|b0 bs] eqn:Eb.
  { cbn in Htl. congruence. }
  rewrite Htl in Etl. inversion Etl; subst tl g.
  repeat split; try done.
  rewrite Hm', Hm. reflexivity. congruence.
Qed.
End EvalReport.

(** ** The training batch *)

Section TrainBatch.
Context {B : Base} (L : Lib B).
Implicit Types w : @World B.

(** The loop over the images of a batch adds up the localization losses
    of the annotated images and skips the others. *)
Lemma annotated_cons (bbs : list (option (Tensor B))) i idxs :
  annotated bbs (i :: idxs)
  = match bbs !! i with
    | Some (Some t) => (i, t) :: annotated bbs idxs
    | _ => annotated bbs idxs
    end.
Proof. unfold annotated. cbn. by destruct (bbs !! i) as [[t|]|]. Qed.

Lemma loc_images_Ok args ll attributions gt_classes (bbs : list (option (Tensor B))) idxs :
  ∀ (acc : @Num B) w,
  Forall (fun i => (i < length bbs)%nat) idxs →
  for_each idxs (loc_image L args (Some ll) attributions gt_classes bbs) acc w
  = Ok (fold_left num_add
          (map (fun x => NTensor x true)
             (map (fun it => image_loc_loss L args ll attributions gt_classes it.1 it.2)
                (annotated bbs idxs)))
          acc) w.
Proof.
  induction idxs as [|i idxs IH]; intros acc w Hlen; [done |].
  inversion Hlen as [|? ? Hi Hrest]; subst.
  rewrite for_each_cons, annotated_cons. unfold loc_image at 1.
  rewrite bind_unfold.
  destruct (lookup_lt_is_Some_2 bbs i Hi) as [bb Hbb].
  rewrite Hbb. cbn [from_option ret].
  destruct bb as [t|]; [rewrite bind_unfold |]; cbn; by rewrite IH.
Qed.

Lemma seq_in_range (bbs : list (option (Tensor B))) n :
  (n ≤ length bbs)%nat → Forall (fun i => (i < length bbs)%nat) (seq 0 n).
Proof.
  intros Hn. apply Forall_forall. intros i Hi.
  apply list_elem_of_In, in_seq in Hi. lia.
Qed.

Lemma train_batch_plain args run data acc w :
  optimize_explanations args = false →
  ∃ acc' w',
    train_batch L args run data acc w = Ok acc' w'
    ∧ w_trace w'
      = w_trace w ++ [EvZeroGrad;
                      EvBackward (add B (of_Z B 0) (classification_loss L run (w_model w) data));
                      EvOptimizerStep].
Proof.
  intros Hopt. unfold train_batch. rewrite Hopt. cbn.
  eexists _, _. split; [reflexivity |]. cbn. rewrite <- !app_assoc. reflexivity.
Qed.

Lemma train_batch_explained args run data acc w a ll :
  optimize_explanations args = true →
  attributor run = Some a →
  loss_loc run = Some ll →
  (tensor_len L (b_X data) ≤ length (b_bbs data))%nat →
  ∃ acc' w',
    train_batch L args run data acc w = Ok acc' w'
    ∧ w_trace w'
      = w_trace w ++ [EvZeroGrad; EvAttribution a;
                      EvBackward
                        (add B (add B (of_Z B 0) (classification_loss L run (w_model w) data))
                           (mul B (localization_loss_lambda args)
                              (localization_sum L args ll a run w data)));
                      EvOptimizerStep].
Proof.
  intros Hopt Ha Hll Hlen. unfold train_batch. rewrite Hopt.
  unfold explanation_loss. rewrite Ha, Hll.
  rewrite bind_unfold. cbn [emit]. rewrite bind_unfold. cbn [get_model].
  cbv zeta. rewrite bind_unfold. rewrite bind_unfold. cbn [draw].
  rewrite bind_unfold. cbn [from_option ret]. rewrite bind_unfold. cbn [get_model].
  rewrite bind_unfold. cbn [emit]. rewrite bind_unfold.
  rewrite loc_images_Ok by (by apply seq_in_range).
  rewrite sum_from_int.
  unfold localization_sum, classification_loss, train_logits, train_features, py_sum.
  cbn [w_model w_rng w_trace].
  match goal with
  | |- context [map ?f (annotated ?b ?i)] => destruct (map f (annotated b i)) as [|x xs]
  end; cbn; eexists _, _; (split; [reflexivity |]); cbn;
    rewrite <- !app_assoc; reflexivity.
Qed.
End TrainBatch.

(** ** The epoch loop *)

Section Loop.
Context {B : Base} (L : Lib B).
Implicit Types w : @World B.

Lemma emits_optimizer_step (P : @Event B → Prop) lr data loss :
  P EvOptimizerStep → emits P (optimizer_step L lr data loss).
Proof. intros H w. exists [EvOptimizerStep]. cbn. auto. Qed.

Lemma emits_train_batch args run data acc :
  emits (train_event run) (train_batch L args run data acc).
Proof.
  unfold train_batch, explanation_loss, loc_image.
  emits_with ltac:(apply emits_optimizer_step; exact I).
Qed.

Lemma emits_train_epoch args run e :
  emits (train_event run) (train_epoch L args run e).
Proof.
  unfold train_epoch. emits_with ltac:(apply emits_train_batch).
Qed.

Lemma train_event_run run ev : train_event run ev → run_event run ev.
Proof. destruct ev; cbn; tauto. Qed.

Lemma eval_event_run run ev :
  eval_event (eval_attributor run) (Some GROUP_NAMES) ev → run_event run ev.
Proof. destruct ev; cbn; tauto. Qed.

Lemma emits_test_eval run : emits (run_event run) (test_eval L run).
Proof.
  unfold test_eval. eapply emits_mono; [apply eval_event_run | apply emits_eval_model].
Qed.

Lemma emits_evaluate_epoch args run e s :
  emits (run_event run) (evaluate_epoch L args run e s).
Proof.
  unfold evaluate_epoch, stop_early.
  emits_with ltac:(eapply emits_mono; [apply eval_event_run | apply emits_eval_model]).
Qed.

Lemma emits_epoch args run e s : emits (run_event run) (epoch L args run e s).
Proof.
  unfold epoch.
  emits_with ltac:(first
    [ eapply emits_mono; [apply train_event_run | apply emits_train_epoch]
    | apply emits_evaluate_epoch ]).
Qed.

Lemma emits_for_epochs P es (body : Z → Locals L → M (Flow L)) :
  (∀ e s, emits P (body e s)) → ∀ s, emits P (for_epochs L es body s).
Proof.
  intros Hb. induction es as [|e es IH]; intros s; cbn [for_epochs].
  - apply emits_ret.
  - apply emits_bind; [apply Hb |]. intros [s'|]; [apply IH | apply emits_ret].
Qed.

Lemma emits_finish args run s : emits (run_event run) (finish L args run s).
Proof.
  unfold finish. emits_with ltac:(apply emits_test_eval).
Qed.

(** Everything after the set-up of a run. *)
Lemma emits_after_setup args run :
  emits (run_event run)
    (f ← for_epochs L (range (total_epochs args)) (epoch L args run)
           {| metric_vals := None; acc_tracker := tracker_new L "Accuracy";
              pareto_front_tracker := pareto_new L; e_var := None |};
     match f with
     | Next s => finish L args run s
     | Return => mret tt
     end).
Proof.
  apply emits_bind.
  - apply emits_for_epochs. intros. apply emits_epoch.
  - intros [s|]; [apply emits_finish | apply emits_ret].
Qed.

(** An invariant over [range]-indexed epochs, with the outcomes of an
    early return and of an exception. *)
Lemma for_epochs_range (I : nat → Locals L → @World B → Prop)
    (Qret : @World B → Prop) (Qerr : list (@Event B) → Prop)
    (body : Z → Locals L → M (Flow L)) n : ∀ k,
  (∀ j s w, (k ≤ j < k + n)%nat → I j s w →
     match body (Z.of_nat j) s w with
     | Ok (Next s') w' => I (S j) s' w'
     | Ok Return w' => Qret w'
     | Err _ tr => Qerr tr
     end) →
  ∀ s w, I k s w →
    match for_epochs L (map Z.of_nat (seq k n)) body s w with
    | Ok (Next s') w' => I (k + n)%nat s' w'
    | Ok Return w' => Qret w'
    | Err _ tr => Qerr tr
    end.
Proof.
  induction n as [|n IH]; intros k Hb s w HI.
  - cbn. by rewrite Nat.add_0_r.
  - cbn [seq map for_epochs]. rewrite bind_unfold.
    specialize (Hb k s w) as Hk. specialize (Hk ltac:(lia) HI).
    destruct (body (Z.of_nat k) s w) as [[s1|] w1|e tr]; [| done | done].
    replace (k + S n)%nat with (S k + n)%nat by lia.
    apply IH; [| done]. intros j s2 w2 Hj. apply Hb. lia.
Qed.

(** *** What is written by [torch.save] *)

Lemma saves_app (tr1 tr2 : list (@Event B)) : saves (tr1 ++ tr2) = saves tr1 ++ saves tr2.
Proof. apply omap_app. Qed.

Lemma saves_none (P : @Event B → Prop) evs :
  (∀ ev, P ev → is_save ev = false) → Forall P evs → saves evs = [].
Proof.
  intros HP. induction 1 as [|ev evs Hev _ IH]; [done |].
  specialize (HP ev Hev). destruct ev; try discriminate; exact IH.
Qed.

Lemma no_saves {A} (P : @Event B → Prop) (m : M A) :
  (∀ ev, P ev → is_save ev = false) → emits P m →
  ∀ w, saves (res_trace (m w)) = saves (w_trace w).
Proof.
  intros HP Hm w. destruct (Hm w) as (evs & -> & Hevs).
  rewrite saves_app, (saves_none P evs HP Hevs). apply app_nil_r.
Qed.

Lemma train_event_no_save run ev : train_event run ev → is_save ev = false.
Proof. by destruct ev. Qed.

Lemma eval_event_no_save a gn ev : eval_event a gn ev → is_save ev = false.
Proof. by destruct ev. Qed.

Lemma stopped_dict args e (mv : gmap string (@PyVal B)) :
  stopped_checkpoint e
    (dict_update
       (dict_update mv
          (dict_update {[ "model" := VNone; "epochs" := VInt (e + 1) ]} (vars_args args)))
       {[ "BelowThresh" := VBool true ]}).
Proof.
  unfold stopped_checkpoint, dict_update. repeat split.
  - rewrite lookup_union_r by done. erewrite lookup_union_Some_l; [done |].
    rewrite lookup_union_r by reflexivity. done.
  - erewrite lookup_union_Some_l; done.
  - rewrite lookup_union_r by done. erewrite lookup_union_Some_l; [done |].
    rewrite lookup_union_r by reflexivity. done.
Qed.

Lemma checkpoint_dict args (p : Params B) k (mv : gmap string (@PyVal B)) :
  let d := dict_update mv
             (dict_update {[ "model" := VParams p; "epochs" := VInt k ]} (vars_args args)) in
  d !! "model" = Some (VParams p) ∧ d !! "epochs" = Some (VInt k).
Proof.
  unfold dict_update. split.
  - erewrite lookup_union_Some_l; [done |].
    rewrite lookup_union_r by reflexivity. done.
  - erewrite lookup_union_Some_l; [done |].
    rewrite lookup_union_r by reflexivity. done.
Qed.

Lemma stop_early_outcome args e mv w :
  match stop_early L args e mv w with
  | Err _ tr => saves tr = saves (w_trace w)
  | Ok (Next _) _ => False
  | Ok Return w' =>
      ∃ d, saves (w_trace w') = saves (w_trace w) ++ [(d, stopped_path args e)]
           ∧ stopped_checkpoint e d
  end.
Proof.
  unfold stop_early, dict_get. rewrite bind_unfold.
  destruct (mv !! "Accuracy") as [acc|]; cbn [from_option ret raise]; [| done].
  rewrite bind_unfold. cbn [emit]. rewrite bind_unfold. cbn [emit].
  rewrite bind_unfold. unfold save_pareto_front, when.
  destruct (pareto args); cbn; eexists; (split; [| apply stopped_dict]);
    rewrite !saves_app; unfold saves; cbn; rewrite ?app_nil_r; reflexivity.
Qed.

Lemma evaluate_epoch_outcome args run e s w :
  match evaluate_epoch L args run e s w with
  | Err _ tr => saves tr = saves (w_trace w)
  | Ok (Next s') w' =>
      saves (w_trace w') = saves (w_trace w)
      ∧ e_var s' = Some e ∧ is_Some (metric_vals s')
  | Ok Return w' =>
      ∃ d best,
        saves (w_trace w') = saves (w_trace w) ++ [(d, stopped_path args e)]
        ∧ stopped_checkpoint e d
        ∧ (tracker_get_best L (acc_tracker s)).1.1.1 = Some best
        ∧ ltb B best (min_acc args) = true
  end.
Proof.
  unfold evaluate_epoch. rewrite bind_unfold.
  pose proof (no_saves _ _ (eval_event_no_save _ _)
                (emits_eval_model L (model_activator run) (eval_attributor run)
                   (val_loader run) (num_val_batches run) num_classes (loss_fn run)
                   (writer run) (Some e) (Some GROUP_NAMES)) w) as Hs.
  destruct (eval_model _ _ _ _ _ _ _ _ _ _ w) as [mv w1|err tr]; cbn in Hs; [| done].
  rewrite bind_unfold. cbn [get_model]. cbv zeta.
  destruct ((tracker_get_best L (acc_tracker s)).1.1.1) as [best|] eqn:Ebest.
  - destruct (ltb B best (min_acc args)) eqn:Elt.
    + pose proof (stop_early_outcome args e mv w1) as Hstop.
      destruct (stop_early L args e mv w1) as [[s'|] w2|err tr]; [done | | congruence].
      destruct Hstop as (d & Hd & Hc). exists d, best. rewrite Hd, Hs. auto.
    + cbn. auto.
  - cbn. auto.
Qed.

Lemma epoch_outcome args run e s w :
  match epoch L args run e s w with
  | Err _ tr => saves tr = saves (w_trace w)
  | Ok (Next s') w' =>
      saves (w_trace w') = saves (w_trace w)
      ∧ e_var s' = Some e
      ∧ (((e + 1) `mod` evaluation_frequency args = 0 ∧ is_Some (metric_vals s'))
         ∨ ((e + 1) `mod` evaluation_frequency args ≠ 0
            ∧ metric_vals s' = metric_vals s ∧ acc_tracker s' = acc_tracker s))
  | Ok Return w' =>
      (e + 1) `mod` evaluation_frequency args = 0
      ∧ ∃ d best,
          saves (w_trace w') = saves (w_trace w) ++ [(d, stopped_path args e)]
          ∧ stopped_checkpoint e d
          ∧ (tracker_get_best L (acc_tracker s)).1.1.1 = Some best
          ∧ ltb B best (min_acc args) = true
  end.
Proof.
  unfold epoch. rewrite bind_unfold.
  pose proof (no_saves _ _ (train_event_no_save run) (emits_train_epoch args run e) w) as Hs.
  destruct (train_epoch L args run e w) as [[] w1|err tr]; cbn in Hs; [| done].
  case_bool_decide as Hz; [done |].
  case_bool_decide as Hmod.
  - pose proof (evaluate_epoch_outcome args run e s w1) as He.
    destruct (evaluate_epoch L args run e s w1) as [[s'|] w2|err tr].
    + destruct He as (He1 & He2 & He3). rewrite He1. auto.
    + split; [done |]. destruct He as (d & best & He1 & He). exists d, best.
      rewrite He1, Hs. done.
    + congruence.
  - cbn. auto 10.
Qed.

Lemma finish_outcome args run s w :
  match finish L args run s w with
  | Err err tr =>
      saves tr = saves (w_trace w)
      ∧ (metric_vals s = None → err = UnboundLocalError "metric_vals")
  | Ok _ w' =>
      ∃ e d1 d2,
        is_Some (metric_vals s) ∧ e_var s = Some e
        ∧ saves (w_trace w')
          = saves (w_trace w) ++ [(d1, final_path args e); (d2, acc_best_path args)]
        ∧ final_checkpoint e d1
        ∧ best_checkpoint L (acc_tracker s) d2
  end.
Proof.
  unfold finish. rewrite bind_unfold.
  assert (∃ w0, save_pareto_front args w = Ok tt w0
                ∧ saves (w_trace w0) = saves (w_trace w)) as (w0 & Hp & Hs0).
  { unfold save_pareto_front, when. destruct (pareto args); cbn; eexists; split; try done.
    cbn. rewrite saves_app. unfold saves. cbn. by rewrite app_nil_r. }
  rewrite Hp, <- Hs0. clear Hp Hs0. rewrite bind_unfold.
  destruct (metric_vals s) as [mv|] eqn:Emv; cbn [from_option ret raise]; [| done].
  rewrite bind_unfold.
  pose proof (no_saves _ _ (fun ev H => eval_event_no_save _ _ ev H)
                (emits_eval_model L (model_activator run) (eval_attributor run)
                   (test_loader run) (num_test_batches run) num_classes (loss_fn run)
                   None None (Some GROUP_NAMES))) as Hte.
  pose proof (Hte w0) as Hs1. fold (test_eval L run) in Hs1.
  destruct (test_eval L run w0) as [fm w1|err tr]; cbn in Hs1; [| by split].
  rewrite bind_unfold. cbn [get_model]. cbv zeta. rewrite bind_unfold.
  destruct (e_var s) as [e|] eqn:Ee; cbn [from_option ret raise]; [| by split].
  rewrite bind_unfold.
  destruct ((tracker_get_best L (acc_tracker s)).2) as [bmv|] eqn:Ebmv;
    cbn [from_option ret raise]; [| by split].
  rewrite bind_unfold.
  destruct ((tracker_get_best L (acc_tracker s)).1.1.2) as [bsd|] eqn:Ebsd;
    cbn [from_option ret raise]; [| by split].
  rewrite bind_unfold. cbn [set_model]. rewrite bind_unfold.
  match goal with |- context [test_eval L run ?w2] => set (w2' := w2) end.
  pose proof (Hte w2') as Hs2. fold (test_eval L run) in Hs2.
  destruct (test_eval L run w2') as [bm w3|err tr]; cbn in Hs2;
    [| split; [congruence | done]].
  rewrite bind_unfold.
  destruct ((tracker_get_best L (acc_tracker s)).1.2) as [bep|] eqn:Ebep;
    cbn [from_option ret raise]; [| split; [congruence | done]].
  rewrite bind_unfold. cbn [emit]. cbn [mbind M_bind bind emit w_trace].
  eexists e, _, _. split; [done |]. split; [done |]. split.
  - rewrite !saves_app, Hs2, Hs1. unfold saves at 2 3. cbn [omap list_omap].
    rewrite <- app_assoc. reflexivity.
  - split.
    + split; [| eexists]; apply checkpoint_dict.
    + exists bsd, bep. split; [done |]. split; [done |]. apply checkpoint_dict.
Qed.

Lemma evaluated_before_dec args (n : Z) :
  evaluated_before args n ∨ ¬ evaluated_before args n.
Proof.
  destruct (decide (Exists (fun e0 => (e0 + 1) `mod` evaluation_frequency args = 0)
                      (seqZ 0 n))) as [H|H].
  - left. apply Exists_exists in H as (e0 & Hin & Hm).
    apply elem_of_seqZ in Hin. exists e0. split; [lia | done].
  - right. intros (e0 & He0 & Hm). apply H, Exists_exists. exists e0.
    split; [apply elem_of_seqZ; lia | done].
Qed.

Lemma evaluated_before_succ args (j : Z) :
  evaluated_before args (j + 1)
  ↔ evaluated_before args j ∨ (0 ≤ j ∧ (j + 1) `mod` evaluation_frequency args = 0).
Proof.
  unfold evaluated_before. split.
  - intros (e0 & He0 & Hm). destruct (decide (e0 = j)) as [->|Hne].
    + right. split; [lia | done].
    + left. exists e0. split; [lia | done].
  - intros [(e0 & He0 & Hm)|[Hj Hm]].
    + exists e0. split; [lia | done].
    + exists j. split; [lia | done].
Qed.

(** The loop over the epochs: what has been saved, and whether an
    evaluation has assigned [metric_vals]. *)
Lemma loop_outcome args run w :
  match for_epochs L (range (total_epochs args)) (epoch L args run) (loop_entry L) w with
  | Err _ tr => saves tr = saves (w_trace w)
  | Ok (Next s) w' =>
      saves (w_trace w') = saves (w_trace w)
      ∧ (evaluated_before args (total_epochs args) → is_Some (metric_vals s))
      ∧ (¬ evaluated_before args (total_epochs args) → metric_vals s = None)
      ∧ (0 < total_epochs args → e_var s = Some (total_epochs args - 1))
  | Ok Return w' =>
      ∃ e d, 0 ≤ e < total_epochs args
        ∧ (e + 1) `mod` evaluation_frequency args = 0
        ∧ saves (w_trace w') = saves (w_trace w) ++ [(d, stopped_path args e)]
        ∧ stopped_checkpoint e d
        ∧ (fresh_tracker_has_no_best L → evaluated_before args e)
  end.
Proof.
  set (n := Z.to_nat (total_epochs args)).
  pose proof (for_epochs_range
    (fun k s w' =>
       saves (w_trace w') = saves (w_trace w)
       ∧ (evaluated_before args (Z.of_nat k)
          ∨ (metric_vals s = None ∧ acc_tracker s = tracker_new L "Accuracy"))
       ∧ (evaluated_before args (Z.of_nat k) → is_Some (metric_vals s))
       ∧ ((0 < k)%nat → e_var s = Some (Z.of_nat k - 1)))
    (fun w' =>
       ∃ e d, 0 ≤ e < total_epochs args
         ∧ (e + 1) `mod` evaluation_frequency args = 0
         ∧ saves (w_trace w') = saves (w_trace w) ++ [(d, stopped_path args e)]
         ∧ stopped_checkpoint e d
         ∧ (fresh_tracker_has_no_best L → evaluated_before args e))
    (fun tr => saves tr = saves (w_trace w))
    (epoch L args run) n 0%nat) as Hloop.
  unfold range. fold n.
  lapply Hloop; clear Hloop.
  - intros Hloop. specialize (Hloop (loop_entry L) w).
    lapply Hloop; clear Hloop.
    + intros Hloop.
      destruct (for_epochs L (map Z.of_nat (seq 0 n)) (epoch L args run) (loop_entry L) w)
        as [[s|] w'|err tr]; [| done | done].
      destruct Hloop as (Hs & Hev & Hmv & He). cbn [Nat.add] in *.
      assert (Hn : evaluated_before args (Z.of_nat n)
                   ↔ evaluated_before args (total_epochs args)).
      { unfold evaluated_before. split; intros (e0 & He0 & Hm); exists e0; (split; [lia | done]). }
      split; [done |]. split; [tauto |]. split.
      * intros Hne. destruct Hev as [Hev|[Hev _]]; [tauto | done].
      * intros Hpos. rewrite He by lia. f_equal. lia.
    + split; [done |]. split; [by right |]. split; [| lia].
      intros (e0 & He0 & _). lia.
  - intros j s w1 Hj (Hs & Hev & Hmv & He).
    pose proof (epoch_outcome args run (Z.of_nat j) s w1) as Hstep.
    destruct (epoch L args run (Z.of_nat j) s w1) as [[s'|] w2|err tr].
    + destruct Hstep as (Hs' & He' & Hcase).
      replace (Z.of_nat (S j)) with (Z.of_nat j + 1) by lia.
      split; [congruence |]. rewrite evaluated_before_succ.
      destruct Hcase as [[Hm Hsome]|(Hm & Hmv' & Htr')].
      * split; [left; right; split; [lia | done] |]. split; [done |].
        intros _. rewrite He'. f_equal. lia.
      * split; [| split].
        -- destruct Hev as [Hev|[Hev1 Hev2]]; [by left; left |].
           right. split; congruence.
        -- intros [Hb|[_ Hb]]; [rewrite Hmv'; auto | done].
        -- intros _. rewrite He'. f_equal. lia.
    + destruct Hstep as (Hm & d & best & Hsv & Hd & Hbest & _).
      exists (Z.of_nat j), d. split; [lia |]. split; [done |].
      split; [by rewrite Hsv, Hs |]. split; [done |].
      intros Hfresh. destruct Hev as [Hev|[_ Hev]]; [done |].
      unfold fresh_tracker_has_no_best in Hfresh. rewrite Hev in Hbest. congruence.
    + congruence.
Qed.
End Loop.

(** ** main as a whole *)

Section Main.
Context {B : Base} (L : Lib B).
Implicit Types w : @World B.

Lemma trace_after_bind {A C} P (m : M A) (k : A → M C) w :
  (∀ a, emits P (k a)) →
  ∃ evs, res_trace ((m ≫= k) w) = res_trace (m w) ++ evs ∧ Forall P evs.
Proof.
  intros Hk. rewrite bind_unfold. destruct (m w) as [a w1|err tr]; cbn.
  - apply Hk.
  - exists []. by rewrite app_nil_r.
Qed.

Lemma dataset_events_app (tr1 tr2 : list (@Event B)) :
  dataset_events (tr1 ++ tr2) = dataset_events tr1 ++ dataset_events tr2.
Proof. apply List.filter_app. Qed.

Lemma dataset_events_none (P : @Event B → Prop) evs :
  (∀ ev, P ev → is_dataset_event ev = false) → Forall P evs → dataset_events evs = [].
Proof.
  intros HP. induction 1 as [|ev evs Hev _ IH]; [done |].
  unfold dataset_events in *. cbn [List.filter]. by rewrite (HP ev Hev).
Qed.

Lemma dataset_events_snoc (tr : list (@Event B)) ev :
  is_dataset_event ev = false → dataset_events (tr ++ [ev]) = dataset_events tr.
Proof.
  intros H. rewrite dataset_events_app. unfold dataset_events at 2. cbn.
  rewrite H. apply app_nil_r.
Qed.

Lemma data_root_spec (args : @Args B) : data_root args = waterbirds_root args.
Proof.
  unfold data_root, waterbirds_root, task_subdir. by case_bool_decide.
Qed.

Lemma emits_make_run P args li wr d1 d2 d3 : emits P (make_run L args li wr d1 d2 d3).
Proof. unfold make_run, make_attributors. emits_tac. Qed.

Lemma emits_setup_run args li : emits setup_event (setup_run L args li).
Proof.
  unfold setup_run, open_writer, load_datasets.
  emits_with ltac:(apply emits_make_run).
Qed.

Lemma load_datasets_Ok args w :
  ∃ ds, load_datasets L args w
        = Ok ds {| w_model := w_model w; w_rng := w_rng w; w_steps := w_steps w;
                   w_trace := w_trace w ++ dataset_loads args |}.
Proof.
  unfold load_datasets, load_dataset, dataset_loads, eval_transform.
  rewrite data_root_spec. eexists.
  unfold mbind, M_bind, bind, mret, M_ret, ret, emit. cbn [w_trace w_model w_rng w_steps].
  rewrite <- !app_assoc. reflexivity.
Qed.

Lemma setup_run_datasets args li w :
  dataset_events (res_trace (setup_run L args li w))
  = dataset_events (w_trace w) ++ dataset_loads args.
Proof.
  unfold setup_run. rewrite bind_unfold. cbn [emit].
  rewrite bind_unfold.
  assert (∃ wr w1, open_writer args {|
             w_model := w_model w; w_rng := w_rng w; w_steps := w_steps w;
             w_trace := w_trace w ++ [EvMakedirs (save_dir args)] |} = Ok wr w1
           ∧ dataset_events (w_trace w1) = dataset_events (w_trace w))
    as (wr & w1 & -> & <-).
  { unfold open_writer. destruct (log_path args); eexists _, _;
      (split; [reflexivity |]); cbn [w_trace]; by rewrite !dataset_events_snoc. }
  destruct (load_datasets_Ok args w1) as (ds & Hds).
  destruct (trace_after_bind (fun _ => False) (load_datasets L args)
              (fun data => make_run L args li wr data.1.1 data.1.2 data.2) w1)
    as (evs & -> & Hevs).
  { intros a. apply emits_make_run. }
  rewrite Hds. cbn [res_trace w_trace].
  rewrite !dataset_events_app, (dataset_events_none (fun _ => False) evs) by done.
  rewrite app_nil_r. reflexivity.
Qed.

Lemma run_event_no_dataset run ev : run_event run ev → is_dataset_event ev = false.
Proof. by destruct ev. Qed.

Lemma train_and_save_datasets args li w :
  dataset_events (res_trace (train_and_save L args li w))
  = dataset_events (w_trace w) ++ dataset_loads args.
Proof.
  unfold train_and_save. rewrite bind_unfold.
  pose proof (setup_run_datasets args li w) as Hd.
  destruct (setup_run L args li w) as [run w1|err tr]; cbn [res_trace] in *; [| done].
  destruct (emits_after_setup L args run w1) as (evs & -> & Hevs).
  rewrite dataset_events_app, (dataset_events_none _ evs (run_event_no_dataset run) Hevs).
  by rewrite app_nil_r.
Qed.

Lemma emits_train_and_save args li :
  emits over_four_groups (train_and_save L args li).
Proof.
  unfold train_and_save. apply emits_bind.
  - eapply emits_mono; [| apply emits_setup_run]. by intros [].
  - intros run. eapply emits_mono; [| apply (emits_after_setup L args run)].
    intros ev. destruct ev; cbn; tauto.
Qed.

Lemma setup_event_no_save ev : setup_event ev → is_save ev = false.
Proof. by destruct ev. Qed.

(** What a run of [main] has written with [torch.save]. *)
Lemma main_outcome args :
  match main L args with
  | Err _ tr => saves tr = []
  | Ok _ w =>
      (∃ e d, 0 ≤ e < total_epochs args
         ∧ (e + 1) `mod` evaluation_frequency args = 0
         ∧ saves (w_trace w) = [(d, stopped_path args e)]
         ∧ stopped_checkpoint e d
         ∧ (fresh_tracker_has_no_best L → evaluated_before args e))
      ∨ (∃ d1 d2 t,
           0 < total_epochs args
           ∧ evaluated_before args (total_epochs args)
           ∧ saves (w_trace w)
             = [(d1, final_path args (total_epochs args - 1)); (d2, acc_best_path args)]
           ∧ final_checkpoint (total_epochs args - 1) d1
           ∧ best_checkpoint L t d2)
  end.
Proof.
  unfold main. destruct (setup_model L args) as [err|[model li]]; [done |].
  unfold train_and_save. rewrite bind_unfold.
  match goal with |- context [setup_run L args li ?w0] => set (w := w0) end.
  pose proof (no_saves _ _ setup_event_no_save (emits_setup_run args li) w) as Hs.
  destruct (setup_run L args li w) as [run w1|err tr]; cbn [res_trace] in Hs; [| done].
  change (saves (w_trace w)) with (@nil (gmap string (@PyVal B) * string)) in Hs.
  rewrite bind_unfold.
  pose proof (loop_outcome L args run w1) as Hloop. unfold loop_entry in Hloop.
  destruct (for_epochs L _ _ _ w1) as [[s|] w2|err tr].
  - destruct Hloop as (Hs2 & Hev & Hmv & He).
    pose proof (finish_outcome L args run s w2) as Hfin.
    destruct (finish L args run s w2) as [[] w3|err tr].
    + right. destruct Hfin as (e & d1 & d2 & Hsome & Hevar & Hsv & Hd1 & Hd2).
      assert (Heb : evaluated_before args (total_epochs args)).
      { destruct (evaluated_before_dec args (total_epochs args)) as [H|H]; [done |].
        apply Hmv in H. rewrite H in Hsome. by destruct Hsome. }
      assert (Hpos : 0 < total_epochs args).
      { destruct Heb as (e0 & ? & _). lia. }
      rewrite (He Hpos) in Hevar. inversion Hevar; subst e.
      exists d1, d2, (acc_tracker s). rewrite Hsv, Hs2, Hs. auto.
    + destruct Hfin as [Hfin _]. congruence.
  - left. destruct Hloop as (e & d & He & Hm & Hsv & Hd & Hf).
    exists e, d. rewrite Hsv, Hs. auto.
  - congruence.
Qed.
End Main.

(** ** Further facts used by the statements below *)

Section Support.
Context {B : Base} (L : Lib B).
Implicit Types w : @World B.

Lemma eval_report_trace attributor nb nc writer epoch gn s w d w' :
  eval_report L attributor nb nc writer epoch gn s w = Ok d w' →
  EvPrintGroups gn (grouped_compute L gn (ea_grouped s)) ∈ w_trace w'.
Proof.
  unfold eval_report. intros H.
  apply bind_Ok_inv in H as (tl & w1 & H1 & H).
  destruct (ea_total_loss s) as [z|y|x g] eqn:Etl; try discriminate.
  inversion H1; subst; clear H1.
  apply bind_Ok_inv in H as (avg & w2 & H2 & H).
  unfold float_div in H2. destruct (eqb B nb (of_Z B 0)) eqn:Enb; [discriminate |].
  inversion H2; subst; clear H2.
  apply bind_Ok_inv in H as ([] & w3 & H3 & H). inversion H3; subst; clear H3.
  apply bind_Ok_inv in H as ([] & w4 & H4 & H). inversion H4; subst; clear H4.
  apply bind_Ok_inv in H as ([] & w5 & H5 & H).
  assert (Ht5 : EvPrintGroups gn (grouped_compute L gn (ea_grouped s)) ∈ w_trace w5)
    by (inversion H5; cbn [w_trace]; set_solver).
  clear H5.
  apply bind_Ok_inv in H as ([] & w6 & H6 & H). inversion H; subst; clear H.
  destruct writer as [wr|].
  - match type of H6 with ?m w5 = _ =>
      assert (Hm : emits (eval_event attributor gn) m) by apply emits_eval_log;
      destruct (Hm w5) as (evs & Ht & _)
    end.
    rewrite H6 in Ht. cbn [res_trace] in Ht. rewrite Ht. set_solver.
  - inversion H6; subst. done.
Qed.

Lemma make_run_loss_fn args li wr d1 d2 d3 w run w' :
  make_run L args li wr d1 d2 d3 w = Ok run w' →
  bce_weight (loss_fn run)
  = if use_loss_weights args then Some (get_loss_upweights B) else None.
Proof.
  unfold make_run. intros H.
  do 7 (apply bind_Ok_inv in H as (? & ? & _ & H)).
  inversion H; subst; clear H. cbn. by destruct (use_loss_weights args).
Qed.

Lemma construct_model_cases args :
  let b := model_backbone args in
  (b = "bcos" →
     construct_model L args
     = inr (replace_fc L BcosConv2d (new_model L BcosResNet50 (hubconf_resnet50 L true)),
            layer_dict_3456))
  ∧ (b = "xdnn" →
       construct_model L args
       = match load_params L xdnn_weights "state_dict" with
         | inl err => inl err
         | inr sd =>
             inr (replace_fc L Linear
                    (load_state_dict (new_model L XFixupResNet50 (xfixup_resnet50 L))
                       (remove_module L sd)),
                  layer_dict_3456)
         end)
  ∧ (b = "vanilla" →
       construct_model L args
       = inr (replace_fc L Linear
                (new_model L TorchvisionResNet50
                   (torchvision_resnet50 L "ResNet50_Weights.IMAGENET1K_V1")),
              layer_dict_4567))
  ∧ (b ≠ "bcos" → b ≠ "xdnn" → b ≠ "vanilla" →
       construct_model L args = inl NotImplementedError).
Proof.
  intros b. unfold construct_model. fold b. repeat split.
  - intros ->. reflexivity.
  - intros ->. reflexivity.
  - intros ->. reflexivity.
  - intros H1 H2 H3. by rewrite !bool_decide_eq_false_2.
Qed.

Lemma setup_model_Ok args m li :
  setup_model L args = inr (m, li) →
  ∃ m0 ld,
    construct_model L args = inr (m0, ld)
    ∧ ld !! layer args = Some li
    ∧ m_arch m = m_arch m0 ∧ m_fc m = m_fc m0
    ∧ m_training m = true ∧ m_device m = Some "cuda:1"
    ∧ match model_path args with
      | None => m_params m = m_params m0
      | Some path => load_params L path "model" = inr (m_params m)
      end.
Proof.
  unfold setup_model. intros H.
  destruct (construct_model L args) as [err|[m0 ld]]; [discriminate |].
  destruct (ld !! layer args) as [li'|] eqn:Eli; [| discriminate].
  exists m0, ld. split; [done |].
  destruct (model_path args) as [path|].
  - destruct (load_params L path "model") as [err|sd]; [discriminate |].
    inversion H; subst. cbn. auto 10.
  - inversion H; subst. cbn. auto 10.
Qed.

Lemma load_params_inr path key sd :
  load_params L path key = inr sd
  ↔ ∃ checkpoint, torch_load L path = Some checkpoint
                  ∧ checkpoint !! key = Some (VParams sd).
Proof.
  unfold load_params. split.
  - destruct (torch_load L path) as [ckpt|]; [| discriminate].
    destruct (ckpt !! key) as [[]|] eqn:Ek; try discriminate.
    intros H. injection H as ->. eauto.
  - intros (ckpt & -> & ->). reflexivity.
Qed.

(** *** The bounding-box metrics of an evaluation *)

Lemma eval_pred_bb a features logits bbs img_idx pred s w s' w' :
  eval_pred L a features logits bbs img_idx pred s w = Ok s' w' →
  ∃ t, bbs !! img_idx = Some (Some t)
       ∧ ea_bb s'
         = ea_bb s ++ [(attribute_one L a (w_model w) features logits pred img_idx,
                        filter_bbs L t pred)]
       ∧ ea_iou s'
         = ea_iou s ++ [(attribute_one L a (w_model w) features logits pred img_idx,
                         filter_bbs L t pred)].
Proof.
  unfold eval_pred. intros H.
  apply bind_Ok_inv in H as (m & w1 & H1 & H). injection H1 as <- <-.
  apply bind_Ok_inv in H as ([] & w2 & H2 & H). apply emit_Ok in H2 as (Hm2 & _).
  apply bind_Ok_inv in H as (t & w3 & H3 & H).
  destruct (bbs !! img_idx) as [[t'|]|]; try discriminate.
  injection H3 as <- <-. injection H as <- _. exists t'. by cbn.
Qed.

Lemma eval_preds_bb a features logits bbs img_idx preds : ∀ s w s' w',
  for_each preds (eval_pred L a features logits bbs img_idx) s w = Ok s' w' →
  let ups :=
    match bbs !! img_idx with
    | Some (Some t) =>
        map (fun pred =>
               (attribute_one L a (w_model w) features logits pred img_idx,
                filter_bbs L t pred)) preds
    | _ => []
    end in
  w_model w' = w_model w ∧ ea_bb s' = ea_bb s ++ ups ∧ ea_iou s' = ea_iou s ++ ups.
Proof.
  induction preds as [|pred preds IH]; intros s w s' w' H.
  - injection H as <- <-. cbn. destruct (bbs !! img_idx) as [[t|]|]; by rewrite !app_nil_r.
  - rewrite for_each_cons in H.
    destruct (eval_pred L a features logits bbs img_idx pred s w) as [s1 w1|] eqn:E1;
      [| discriminate].
    pose proof (eval_pred_Ok L _ _ _ _ _ _ _ _ _ _ E1) as (Hm1 & _).
    apply eval_pred_bb in E1 as (t & Ht & Hbb & Hiou).
    apply IH in H. cbv zeta in *. rewrite Ht in *. rewrite Hm1 in H.
    destruct H as (Hm & Hbb' & Hiou').
    split; [done |]. rewrite Hbb', Hiou', Hbb, Hiou. cbn [map].
    by rewrite <- !app_assoc.
Qed.

Lemma eval_images_bb a features logits bbs (y : Tensor B) idxs : ∀ s w s' w',
  for_each idxs
    (fun img_idx =>
       for_each (positive_classes L y img_idx)
         (eval_pred L a features logits bbs img_idx)) s w = Ok s' w' →
  let ups :=
    flat_map
      (fun img_idx =>
         match bbs !! img_idx with
         | Some (Some t) =>
             map (fun pred =>
                    (attribute_one L a (w_model w) features logits pred img_idx,
                     filter_bbs L t pred)) (positive_classes L y img_idx)
         | _ => []
         end) idxs in
  w_model w' = w_model w ∧ ea_bb s' = ea_bb s ++ ups ∧ ea_iou s' = ea_iou s ++ ups.
Proof.
  induction idxs as [|i idxs IH]; intros s w s' w' H.
  - injection H as <- <-. cbn. by rewrite !app_nil_r.
  - rewrite for_each_cons in H.
    destruct (for_each (positive_classes L y i) (eval_pred L a features logits bbs i) s w)
      as [s1 w1|] eqn:E1; [| discriminate].
    apply eval_preds_bb in E1 as (Hm1 & Hbb & Hiou).
    apply IH in H. cbv zeta in *. rewrite Hm1 in H. destruct H as (Hm & Hbb' & Hiou').
    split; [done |]. rewrite Hbb', Hiou', Hbb, Hiou. cbn [flat_map].
    by rewrite <- !app_assoc.
Qed.

Lemma eval_batch_bb model a loss_fn data s w s' w' :
  eval_batch L model (Some a) loss_fn data s w = Ok s' w' →
  ea_bb s' = ea_bb s ++ bb_updates L a model (w_model w) data
  ∧ ea_iou s' = ea_iou s ++ bb_updates L a model (w_model w) data.
Proof.
  unfold eval_batch. intros H.
  apply bind_Ok_inv in H as (m & w1 & H1 & H). injection H1 as <- <-.
  cbv zeta in H. apply eval_images_bb in H as (_ & Hbb & Hiou).
  cbn [ea_bb ea_iou] in Hbb, Hiou. done.
Qed.

Lemma eval_batches_bb model a loss_fn batches : ∀ s w s' w',
  for_each batches (eval_batch L model (Some a) loss_fn) s w = Ok s' w' →
  ea_bb s' = ea_bb s ++ flat_map (bb_updates L a model (w_model w)) batches
  ∧ ea_iou s' = ea_iou s ++ flat_map (bb_updates L a model (w_model w)) batches.
Proof.
  induction batches as [|b bs IH]; intros s w s' w' H.
  - injection H as <- <-. cbn. by rewrite !app_nil_r.
  - rewrite for_each_cons in H.
    destruct (eval_batch L model (Some a) loss_fn b s w) as [s1 w1|] eqn:E1; [| discriminate].
    pose proof (eval_batch_Ok L _ _ _ _ _ _ _ _ E1) as (Hm1 & _).
    apply eval_batch_bb in E1 as (Hbb & Hiou).
    apply IH in H. rewrite Hm1 in H. destruct H as (Hbb' & Hiou').
    rewrite Hbb', Hiou', Hbb, Hiou. cbn [flat_map]. by rewrite <- !app_assoc.
Qed.

Lemma eval_loop_bb model a loader loss_fn w s w' :
  eval_loop L model (Some a) loader loss_fn w = Ok s w' →
  let ups := flat_map (bb_updates L a model (in_eval_mode (w_model w)))
               (iter_loader L loader (w_rng w)) in
  ea_bb s = ups ∧ ea_iou s = ups.
Proof.
  unfold eval_loop. intros H.
  apply bind_Ok_inv in H as ([] & w1 & H1 & H).
  injection H1 as <-.
  apply bind_Ok_inv in H as (i & w2 & H2 & H). injection H2 as <- <-.
  apply eval_batches_bb in H. cbn [w_model w_rng ea_bb ea_iou eval_init app] in H.
  exact H.
Qed.

(** *** The decision at an evaluation *)

Lemma evaluate_epoch_decision args run e s w mv w1 :
  eval_model L (model_activator run) (eval_attributor run) (val_loader run)
    (num_val_batches run) num_classes (loss_fn run) (writer run) (Some e)
    (Some GROUP_NAMES) w = Ok mv w1 →
  if match (tracker_get_best L (acc_tracker s)).1.1.1 with
     | Some best => ltb B best (min_acc args)
     | None => false
     end
  then match mv !! "Accuracy" with
       | Some _ =>
           ∃ w2 d,
             evaluate_epoch L args run e s w = Ok Return w2
             ∧ saves (w_trace w2)
               = saves (w_trace w1)
                 ++ [(d, os_path_join (save_dir args)
                           ["model_checkpoint_stopped_" +:+ pretty (e + 1) +:+ ".pt"])]
             ∧ stopped_checkpoint e d
       | None => evaluate_epoch L args run e s w = Err (KeyError "Accuracy") (w_trace w1)
       end
  else evaluate_epoch L args run e s w
       = Ok (Next {| metric_vals := Some mv;
                     acc_tracker := tracker_update L (acc_tracker s) mv (w_model w1) e;
                     pareto_front_tracker :=
                       (if pareto args
                        then pareto_update L (pareto_front_tracker s) (w_model w1) mv e
                        else pareto_front_tracker s);
                     e_var := Some e |}) w1.
Proof.
  intros He. unfold evaluate_epoch. rewrite (bind_Ok _ _ _ _ _ He).
  rewrite bind_unfold. cbn [get_model]. cbv zeta.
  destruct ((tracker_get_best L (acc_tracker s)).1.1.1) as [best|]; [| done].
  destruct (ltb B best (min_acc args)); [| done].
  pose proof (stop_early_outcome L args e mv w1) as Hstop.
  unfold stop_early, dict_get in *.
  destruct (mv !! "Accuracy") as [acc|] eqn:Ea.
  - match type of Hstop with match ?r with _ => _ end =>
      destruct r as [[s'|] w2|err tr] eqn:Er; [done | | ] end.
    + destruct Hstop as (d & Hsv & Hd). exists w2, d. done.
    + exfalso. revert Er. rewrite bind_unfold. cbn [from_option ret].
      rewrite !bind_unfold. cbn [emit]. unfold save_pareto_front, when.
      destruct (pareto args); discriminate.
  - reflexivity.
Qed.

(** *** The names of the checkpoint files *)

Lemma string_app_inj_l (p a b : string) : p +:+ a = p +:+ b → a = b.
Proof.
  induction p as [|c p IH]; [done |].
  intros H. apply IH. by injection H.
Qed.

Lemma os_path_join_file_inj dir a b :
  starts_with_sep a = false → starts_with_sep b = false →
  os_path_join dir [a] = os_path_join dir [b] → a = b.
Proof.
  intros Ha Hb. unfold os_path_join. cbn [fold_left]. unfold path_join2.
  rewrite Ha, Hb.
  destruct (bool_decide (dir = "") || ends_with_sep dir); intros H.
  - by apply string_app_inj_l in H.
  - apply string_app_inj_l in H. by apply (string_app_inj_l "/") in H.
Qed.

Lemma checkpoint_names_differ (args : @Args B) e e' :
  os_path_join (save_dir args) ["model_checkpoint_stopped_" +:+ pretty (e + 1) +:+ ".pt"]
  ≠ os_path_join (save_dir args) ["model_checkpoint_final_" +:+ pretty (e' + 1) +:+ ".pt"]
  ∧ os_path_join (save_dir args) ["model_checkpoint_stopped_" +:+ pretty (e + 1) +:+ ".pt"]
    ≠ os_path_join (save_dir args) ["model_checkpoint_acc_best.pt"].
Proof.
  split; intros H; apply os_path_join_file_inj in H; try reflexivity; discriminate H.
Qed.

Lemma epoch_decision args run e s w w0 mv w1 :
  evaluation_frequency args ≠ 0 →
  (e + 1) `mod` evaluation_frequency args = 0 →
  train_epoch L args run e w = Ok tt w0 →
  eval_model L (model_activator run) (eval_attributor run) (val_loader run)
    (num_val_batches run) num_classes (loss_fn run) (writer run) (Some e)
    (Some GROUP_NAMES) w0 = Ok mv w1 →
  epoch L args run e s w = evaluate_epoch L args run e s w0.
Proof.
  intros Hz Hm Ht _. unfold epoch. rewrite (bind_Ok _ _ _ _ _ Ht).
  rewrite bool_decide_eq_false_2 by done. by rewrite bool_decide_eq_true_2.
Qed.
End Support.

(** * The properties of the specification *)

(** In binary32, adding a value to the zero a Python [0] becomes returns
    that value, the negative zero apart (for which the sum is [+0.0]). *)
Lemma binary32_zero_add (x : spec_float) :
  x ≠ S754_zero true → add Binary32Base (of_Z Binary32Base 0) x = x.
Proof. intros Hx. destruct x as [[]|[]| |]; try reflexivity. congruence. Qed.

(** The negative zero included, the sum compares equal to the value. *)
Lemma binary32_zero_add_numeric (x : spec_float) :
  x ≠ S754_nan →
  eqb Binary32Base (add Binary32Base (of_Z Binary32Base 0) x) x = true.
Proof.
  intros Hx. destruct x as [[]|[]| |s m e]; try reflexivity; [congruence |].
  change (SFeqb (S754_finite s m e) (S754_finite s m e) = true).
  unfold SFeqb, SFcompare.
  destruct s; rewrite Z.compare_refl, ?Pos.compare_refl; reflexivity.
Qed.

Section Claims.
Context {B : Base} (L : Lib B).
Implicit Types w : @World B.

Lemma backward_losses_app (tr1 tr2 : list (@Event B)) :
  backward_losses (tr1 ++ tr2) = backward_losses tr1 ++ backward_losses tr2.
Proof. apply omap_app. Qed.

(** C1. For every training batch the loss on which [backward()] is called
    is [batch_loss]: the integer 0, to which the classification loss
    [loss_fn(logits, train_y)] is added and, when [--optimize_explanations]
    is set, [localization_loss_lambda] times the sum of the localization
    losses of the images of the batch whose bounding-box annotation is not
    None.  Where adding the classification loss to 0 returns it (in
    binary32: every value but the negative zero), this is the
    classification loss alone, respectively the classification loss plus
    the weighted sum.  With explanations the batch needs its attributor,
    its localization loss and one annotation slot per image. *)
Theorem batch_loss_combines_losses args run data acc w a ll :
  (optimize_explanations args = true →
     attributor run = Some a ∧ loss_loc run = Some ll
     ∧ (tensor_len L (b_X data) ≤ length (b_bbs data))%nat) →
  let loss := classification_loss L run (w_model w) data in
  let loc := mul B (localization_loss_lambda args)
               (localization_sum L args ll a run w data) in
  ∃ acc' w' batch_loss,
    train_batch L args run data acc w = Ok acc' w'
    ∧ backward_losses (w_trace w') = backward_losses (w_trace w) ++ [batch_loss]
    ∧ batch_loss
      = (if optimize_explanations args
         then add B (add B (of_Z B 0) loss) loc
         else add B (of_Z B 0) loss)
    ∧ (add B (of_Z B 0) loss = loss →
       batch_loss = if optimize_explanations args then add B loss loc else loss).
Proof.
  intros Hopt loss loc. destruct (optimize_explanations args) eqn:Eopt.
  - destruct (Hopt eq_refl) as (Ha & Hll & Hlen).
    destruct (train_batch_explained L args run data acc w a ll Eopt Ha Hll Hlen)
      as (acc' & w' & Hrun & Htr).
    exists acc', w', (add B (add B (of_Z B 0) loss) loc).
    split; [done |]. split; [| split; [done | by intros ->]].
    rewrite Htr, backward_losses_app. reflexivity.
  - destruct (train_batch_plain L args run data acc w Eopt) as (acc' & w' & Hrun & Htr).
    exists acc', w', (add B (of_Z B 0) loss).
    split; [done |]. split; [| split; [done | by intros ->]].
    rewrite Htr, backward_losses_app. reflexivity.
Qed.

(** C2. Every group-wise report of a run of the script is over the four
    group names; a returning [eval_model] has updated the grouped metric
    once per batch of the loader, with the logits of the model in eval
    mode, and reports it; the dict it returns carries the "Accuracy" entry
    of the overall metric unchanged and an "Average-Loss" entry equal to
    the summed loss divided by [num_batches]. *)
Theorem eval_model_group_and_overall_accuracy
    model attributor loader nb nc loss_fn writer epoch gn w d w' :
  eval_model L model attributor loader nb nc loss_fn writer epoch gn w = Ok d w' →
  let m := in_eval_mode (w_model w) in
  let batches := iter_loader L loader (w_rng w) in
  (GROUP_NAMES = ["Landbird_on_Land"; "Landbird_on_Water";
                  "Waterbird_on_Land"; "Waterbird_on_Water"]
   ∧ length GROUP_NAMES = 4%nat ∧ NoDup GROUP_NAMES)
  ∧ (∀ args, Forall over_four_groups (res_trace (main L args)))
  ∧ EvPrintGroups gn
      (grouped_compute L gn
         (map (fun b => (eval_logits L model m b, b_y b, b_groups b)) batches))
    ∈ w_trace w'
  ∧ d !! "Accuracy"
    = multilabel_compute L nc (map (fun b => (eval_logits L model m b, b_y b)) batches)
        !! "Accuracy"
  ∧ d !! "Average-Loss"
    = Some (VFloat (div B (py_sum (map (eval_loss L model loss_fn m) batches)) nb)).
Proof.
  intros H m batches.
  pose proof (eval_model_Ok L _ _ _ _ _ _ _ _ _ _ _ _ H)
    as (s & w1 & Hloop & Hm1 & Hne & Htl & Hacc & Hg & Hnb & Hd & Hm' & Hs').
  fold m batches in Hm1, Hne, Htl, Hacc, Hg, Hd.
  split; [split; [done | split; [done |]] |].
  { apply (bool_decide_unpack _). by vm_compute. }
  split.
  { intros args. unfold main.
    destruct (setup_model L args) as [err|[mo li]]; cbn [res_trace].
    - by repeat constructor.
    - match goal with |- context [train_and_save L args li ?w0] =>
        destruct (emits_train_and_save L args li w0) as (evs & -> & Hevs) end.
      apply Forall_app. split; [by repeat constructor | done]. }
  split.
  { unfold eval_model in H. rewrite (bind_Ok _ _ _ _ _ Hloop) in H.
    apply eval_report_trace in H. by rewrite Hg in H. }
  split.
  - rewrite Hd, lookup_insert_ne by done. unfold eval_metrics.
    destruct attributor; [rewrite !lookup_insert_ne by done |]; by rewrite Hacc.
  - rewrite Hd. apply lookup_insert_eq.
Qed.

(** C3. Provided the overall metric itself reports nothing under "BB-Loc"
    or "BB-IoU", the dict returned by [eval_model] has these two keys if
    and only if an attributor was passed.  With an attributor, "BB-Loc" is
    what the bounding-box energy metric computes, and "BB-IoU" what the
    bounding-box IoU metric computes, from the updates of the run: for
    every batch, image and class the image is labelled with, in order, the
    attribution of that class on the model in eval mode and the boxes of
    that class.  With no attributor neither key is present and no
    attribution is computed. *)
Theorem eval_model_bounding_box_metrics
    model attributor loader nb nc loss_fn writer epoch gn w d w' :
  (∀ updates, multilabel_compute L nc updates !! "BB-Loc" = None
              ∧ multilabel_compute L nc updates !! "BB-IoU" = None) →
  eval_model L model attributor loader nb nc loss_fn writer epoch gn w = Ok d w' →
  (is_Some (d !! "BB-Loc") ↔ attributor ≠ None)
  ∧ (is_Some (d !! "BB-IoU") ↔ attributor ≠ None)
  ∧ (∀ a, attributor = Some a →
       let updates :=
         flat_map (bb_updates L a model (in_eval_mode (w_model w)))
           (iter_loader L loader (w_rng w)) in
       d !! "BB-Loc" = Some (bb_energy_compute L updates)
       ∧ d !! "BB-IoU" = Some (bb_iou_compute L updates))
  ∧ (attributor = None →
     d !! "BB-Loc" = None ∧ d !! "BB-IoU" = None
     ∧ ∃ evs, w_trace w' = w_trace w ++ evs
              ∧ Forall (fun ev => is_attribution ev = false) evs).
Proof.
  intros Hlib H.
  pose proof (eval_model_Ok L _ _ _ _ _ _ _ _ _ _ _ _ H)
    as (s & w1 & Hloop & _ & _ & _ & _ & _ & _ & Hd & _ & _).
  destruct (Hlib (ea_acc s)) as [Hloc Hiou].
  assert (Hsome : ∀ a, attributor = Some a →
            d !! "BB-Loc"
            = Some (bb_energy_compute L
                      (flat_map (bb_updates L a model (in_eval_mode (w_model w)))
                         (iter_loader L loader (w_rng w))))
            ∧ d !! "BB-IoU"
              = Some (bb_iou_compute L
                        (flat_map (bb_updates L a model (in_eval_mode (w_model w)))
                           (iter_loader L loader (w_rng w))))).
  { intros a ->. apply eval_loop_bb in Hloop as [Hbb Hi].
    rewrite Hd. unfold eval_metrics. rewrite Hbb, Hi. split.
    - rewrite lookup_insert_ne by done. rewrite lookup_insert_ne by done.
      apply lookup_insert_eq.
    - rewrite lookup_insert_ne by done. apply lookup_insert_eq. }
  assert (Hnone : attributor = None → d !! "BB-Loc" = None ∧ d !! "BB-IoU" = None).
  { intros ->. rewrite Hd. unfold eval_metrics.
    rewrite !lookup_insert_ne by done. done. }
  split; [| split; [| split; [exact Hsome |]]].
  - destruct attributor as [a|].
    + destruct (Hsome a eq_refl) as [-> _]. split; [done | by eexists].
    + destruct (Hnone eq_refl) as [-> _]. split; [by intros [] | done].
  - destruct attributor as [a|].
    + destruct (Hsome a eq_refl) as [_ ->]. split; [done | by eexists].
    + destruct (Hnone eq_refl) as [_ ->]. split; [by intros [] | done].
  - intros Hn. destruct (Hnone Hn) as [H1 H2]. split; [done |]. split; [done |]. subst.
    destruct (emits_eval_model L model None loader nb nc loss_fn writer epoch gn w)
      as (evs & Ht & Hevs).
    rewrite H in Ht. cbn [res_trace] in Ht. exists evs. split; [done |].
    eapply Forall_impl; [exact Hevs |]. intros ev. by destruct ev.
Qed.

Lemma string_app_assoc (a b c : string) : (a +:+ b) +:+ c = a +:+ (b +:+ c).
Proof.
  induction a as [|x a IH]; [done |].
  change (String x ((a +:+ b) +:+ c) = String x (a +:+ (b +:+ c))). by f_equal.
Qed.

Lemma root_ends_with_subdir (args : @Args B) :
  ∃ prefix, waterbirds_root args = prefix +:+ task_subdir (task args).
Proof.
  unfold waterbirds_root, os_path_join. cbn [fold_left].
  set (p := path_join2 (data_path args) (dataset args)).
  unfold path_join2 at 1, task_subdir.
  case_bool_decide; cbn [starts_with_sep is_sep Ascii.eqb Bool.eqb];
    destruct (bool_decide (p = "") || ends_with_sep p); eauto.
  - exists (p +:+ "/"). by rewrite string_app_assoc.
  - exists (p +:+ "/"). by rewrite string_app_assoc.
Qed.


(** C5. For the backbones [bcos], [xdnn] and [vanilla], [main] builds the
    B-cos, fixup and torchvision ResNet-50 from its pretrained weights (for
    [xdnn], the state dict of the weights file, when it loads) and replaces
    the final layer by a fresh one with [num_classes = 2] outputs; for any
    other backbone the dispatch raises [NotImplementedError]. *)
Theorem backbone_dispatch args :
  (model_backbone args = "bcos" →
     ∃ m ld, construct_model L args = inr (m, ld)
       ∧ m_arch m = BcosResNet50
       ∧ m_fc m = {| fc_kind := BcosConv2d;
                     fc_in := fc_in (pretrained_fc L BcosResNet50); fc_out := 2 |}
       ∧ m_params m = fresh_fc L (m_fc m) (hubconf_resnet50 L true))
  ∧ (∀ sd, model_backbone args = "xdnn" →
       load_params L xdnn_weights "state_dict" = inr sd →
       ∃ m ld, construct_model L args = inr (m, ld)
         ∧ m_arch m = XFixupResNet50
         ∧ m_fc m = {| fc_kind := Linear;
                       fc_in := fc_in (pretrained_fc L XFixupResNet50); fc_out := 2 |}
         ∧ m_params m = fresh_fc L (m_fc m) (remove_module L sd))
  ∧ (model_backbone args = "vanilla" →
       ∃ m ld, construct_model L args = inr (m, ld)
         ∧ m_arch m = TorchvisionResNet50
         ∧ m_fc m = {| fc_kind := Linear;
                       fc_in := fc_in (pretrained_fc L TorchvisionResNet50); fc_out := 2 |}
         ∧ m_params m
           = fresh_fc L (m_fc m) (torchvision_resnet50 L "ResNet50_Weights.IMAGENET1K_V1"))
  ∧ (model_backbone args ≠ "bcos" → model_backbone args ≠ "xdnn" →
     model_backbone args ≠ "vanilla" →
       construct_model L args = inl NotImplementedError
       ∧ main L args = Err NotImplementedError [EvSetSeed (seed args)]).
Proof.
  destruct (construct_model_cases L args) as (Hb & Hx & Hv & Hn).
  split; [| split; [| split]].
  - intros E. rewrite (Hb E). eexists _, _. by split.
  - intros sd E Hsd. rewrite (Hx E), Hsd. eexists _, _. by split.
  - intros E. rewrite (Hv E). eexists _, _. by split.
  - intros H1 H2 H3. split; [by apply Hn |].
    unfold main, setup_model. by rewrite (Hn H1 H2 H3).
Qed.

(** C6 (the code departs from it). When fewer epochs are run than
    [--evaluation_frequency], the loop completes without an evaluation and
    [main] then fails on the unbound [metric_vals]: it raises, and no
    checkpoint is written. *)
Theorem no_evaluation_no_checkpoint args :
  0 ≤ total_epochs args < evaluation_frequency args →
  (∃ err tr, main L args = Err err tr ∧ saves tr = [])
  ∧ (∀ run w s w',
       for_epochs L (range (total_epochs args)) (epoch L args run) (loop_entry L) w
       = Ok (Next s) w' →
       ∃ tr, finish L args run s w' = Err (UnboundLocalError "metric_vals") tr
             ∧ saves tr = saves (w_trace w)).
Proof.
  intros Hlt.
  assert (Hnone : ¬ evaluated_before args (total_epochs args)).
  { intros (e0 & He0 & Hm). rewrite Z.mod_small in Hm by lia. lia. }
  split.
  - pose proof (main_outcome L args) as Hout.
    destruct (main L args) as [[] w|err tr]; [| eauto].
    destruct Hout as [(e & d & He & Hm & _)|(d1 & d2 & t & _ & Hev & _)].
    + rewrite Z.mod_small in Hm by lia. lia.
    + done.
  - intros run w s w' Hloop.
    pose proof (loop_outcome L args run w) as Hout. rewrite Hloop in Hout.
    destruct Hout as (Hs & _ & Hmv & _). specialize (Hmv Hnone).
    pose proof (finish_outcome L args run s w') as Hfin.
    destruct (finish L args run s w') as [[] w2|err tr].
    + destruct Hfin as (e & d1 & d2 & Hsome & _). rewrite Hmv in Hsome. by destruct Hsome.
    + destruct Hfin as [Hsv Herr]. rewrite (Herr Hmv). exists tr. split; congruence.
Qed.

(** C7. The model the training loop starts from is built on the
    pretrained construction of the chosen backbone: [hubconf.resnet50] with
    [pretrained=True] for [bcos], the "state_dict" entry of what
    [torch.load] reads from [weights/xdnn/xfixup_resnet50_model_best.pth.tar]
    for [xdnn], torchvision's [ResNet50_Weights.IMAGENET1K_V1] for
    [vanilla].  When [--model_path] is None its parameters are those of
    that construction; otherwise they are the "model" entry of what
    [torch.load] reads from [--model_path].  Architecture and final layer
    are those of the construction, and training runs on that model in
    train mode. *)
Theorem training_starts_from_pretrained args m li :
  setup_model L args = inr (m, li) →
  ∃ m0 ld,
    construct_model L args = inr (m0, ld)
    ∧ (model_backbone args = "bcos" →
         m_params m0 = fresh_fc L (m_fc m0) (hubconf_resnet50 L true))
    ∧ (model_backbone args = "xdnn" →
         ∃ imagenet_checkpoint sd,
           torch_load L "weights/xdnn/xfixup_resnet50_model_best.pth.tar"
           = Some imagenet_checkpoint
           ∧ imagenet_checkpoint !! "state_dict" = Some (VParams sd)
           ∧ m_params m0 = fresh_fc L (m_fc m0) (remove_module L sd))
    ∧ (model_backbone args = "vanilla" →
         m_params m0
         = fresh_fc L (m_fc m0) (torchvision_resnet50 L "ResNet50_Weights.IMAGENET1K_V1"))
    ∧ match model_path args with
      | None => m_params m = m_params m0
      | Some path =>
          ∃ checkpoint, torch_load L path = Some checkpoint
                        ∧ checkpoint !! "model" = Some (VParams (m_params m))
      end
    ∧ m_arch m = m_arch m0 ∧ m_fc m = m_fc m0
    ∧ m_training m = true
    ∧ main L args
      = train_and_save L args li
          {| w_model := m; w_rng := 0; w_steps := 0;
             w_trace := [EvSetSeed (seed args)] |}.
Proof.
  intros Hm.
  destruct (setup_model_Ok L args m li Hm)
    as (m0 & ld & Hc & _ & Harch & Hfc & Htrain & _ & Hpath).
  destruct (construct_model_cases L args) as (Hb & Hx & Hv & _).
  exists m0, ld. split; [done |].
  split; [| split; [| split; [| split; [| split; [done | split; [done | split; [done |]]]]]]].
  - intros E. rewrite (Hb E) in Hc. by inversion Hc.
  - intros E. rewrite (Hx E) in Hc.
    destruct (load_params L xdnn_weights "state_dict") as [err|sd] eqn:Esd; [discriminate |].
    apply load_params_inr in Esd as (ckpt & Hload & Hkey).
    exists ckpt, sd. split; [exact Hload |]. split; [done |]. by inversion Hc.
  - intros E. rewrite (Hv E) in Hc. by inversion Hc.
  - destruct (model_path args) as [path|]; [| done].
    by apply load_params_inr in Hpath.
  - unfold main. by rewrite Hm.
Qed.

(** C8. An epoch whose number [e+1] is not a multiple of
    [--evaluation_frequency] only trains.  At an evaluation epoch, once
    training and the evaluation have returned, the best accuracy is taken
    from the tracker as it stood before this evaluation: if there is one
    and it is below [--min_acc], the loop returns early, having written
    [model_checkpoint_stopped_{e+1}.pt] with "model" None and "BelowThresh"
    True (the threshold message needs the "Accuracy" entry); otherwise the
    tracker is updated with the current metrics and the loop goes on.  An
    early return happens only so; a fresh tracker holding no best value,
    the first evaluation never stops, and an early stop is preceded by an
    earlier evaluation.  When the loop returns early [main] returns with
    that one file written; the final and the best checkpoint, whose names
    differ from it, are written only after a loop that ran to its end. *)
Theorem early_stopping_semantics args :
  fresh_tracker_has_no_best L →
  (∀ run e s,
     evaluation_frequency args ≠ 0 →
     (e + 1) `mod` evaluation_frequency args ≠ 0 →
     epoch L args run e s
     = (train_epoch L args run e;;
        mret (Next {| metric_vals := metric_vals s; acc_tracker := acc_tracker s;
                      pareto_front_tracker := pareto_front_tracker s;
                      e_var := Some e |})))
  ∧ (∀ run e s w w0 mv w1,
       evaluation_frequency args ≠ 0 →
       (e + 1) `mod` evaluation_frequency args = 0 →
       train_epoch L args run e w = Ok tt w0 →
       eval_model L (model_activator run) (eval_attributor run) (val_loader run)
         (num_val_batches run) num_classes (loss_fn run) (writer run) (Some e)
         (Some GROUP_NAMES) w0 = Ok mv w1 →
       let continue :=
         Ok (Next {| metric_vals := Some mv;
                     acc_tracker := tracker_update L (acc_tracker s) mv (w_model w1) e;
                     pareto_front_tracker :=
                       (if pareto args
                        then pareto_update L (pareto_front_tracker s) (w_model w1) mv e
                        else pareto_front_tracker s);
                     e_var := Some e |}) w1 in
       match (tracker_get_best L (acc_tracker s)).1.1.1 with
       | None => epoch L args run e s w = continue
       | Some best_acc =>
           if ltb B best_acc (min_acc args)
           then match mv !! "Accuracy" with
                | Some _ =>
                    ∃ w2 d,
                      epoch L args run e s w = Ok Return w2
                      ∧ saves (w_trace w2)
                        = saves (w_trace w1)
                          ++ [(d, os_path_join (save_dir args)
                                    ["model_checkpoint_stopped_" +:+ pretty (e + 1)
                                     +:+ ".pt"])]
                      ∧ stopped_checkpoint e d
                | None =>
                    epoch L args run e s w = Err (KeyError "Accuracy") (w_trace w1)
                end
           else epoch L args run e s w = continue
       end)
  ∧ (∀ run e s w w',
       epoch L args run e s w = Ok Return w' →
       (e + 1) `mod` evaluation_frequency args = 0
       ∧ ∃ best_acc, (tracker_get_best L (acc_tracker s)).1.1.1 = Some best_acc
                     ∧ ltb B best_acc (min_acc args) = true)
  ∧ (∀ run e w w', epoch L args run e (loop_entry L) w ≠ Ok Return w')
  ∧ match setup_model L args with
    | inl err => main L args = Err err [EvSetSeed (seed args)]
    | inr (model, layer_idx) =>
        match setup_run L args layer_idx
                {| w_model := model; w_rng := 0; w_steps := 0;
                   w_trace := [EvSetSeed (seed args)] |} with
        | Err err tr => main L args = Err err tr ∧ saves tr = []
        | Ok run w1 =>
            match for_epochs L (range (total_epochs args)) (epoch L args run)
                    (loop_entry L) w1 with
            | Ok Return w2 =>
                main L args = Ok tt w2
                ∧ ∃ e d,
                    0 ≤ e < total_epochs args
                    ∧ (e + 1) `mod` evaluation_frequency args = 0
                    ∧ evaluated_before args e
                    ∧ saves (w_trace w2)
                      = [(d, os_path_join (save_dir args)
                               ["model_checkpoint_stopped_" +:+ pretty (e + 1) +:+ ".pt"])]
                    ∧ stopped_checkpoint e d
            | Ok (Next s) w2 =>
                main L args = finish L args run s w2 ∧ saves (w_trace w2) = []
            | Err err tr => main L args = Err err tr ∧ saves tr = []
            end
        end
    end
  ∧ (∀ run s w,
       match finish L args run s w with
       | Ok _ w' =>
           ∃ e d1 d2,
             saves (w_trace w')
             = saves (w_trace w)
               ++ [(d1, os_path_join (save_dir args)
                          ["model_checkpoint_final_" +:+ pretty (e + 1) +:+ ".pt"]);
                   (d2, os_path_join (save_dir args) ["model_checkpoint_acc_best.pt"])]
       | Err _ tr => saves tr = saves (w_trace w)
       end)
  ∧ (∀ e e',
       os_path_join (save_dir args)
         ["model_checkpoint_stopped_" +:+ pretty (e + 1) +:+ ".pt"]
       ≠ os_path_join (save_dir args)
           ["model_checkpoint_final_" +:+ pretty (e' + 1) +:+ ".pt"]
       ∧ os_path_join (save_dir args)
           ["model_checkpoint_stopped_" +:+ pretty (e + 1) +:+ ".pt"]
         ≠ os_path_join (save_dir args) ["model_checkpoint_acc_best.pt"]).
Proof.
  intros Hfresh.
  assert (Hnec : ∀ run e s w w',
            epoch L args run e s w = Ok Return w' →
            (e + 1) `mod` evaluation_frequency args = 0
            ∧ ∃ best_acc, (tracker_get_best L (acc_tracker s)).1.1.1 = Some best_acc
                          ∧ ltb B best_acc (min_acc args) = true).
  { intros run e s w w' H.
    pose proof (epoch_outcome L args run e s w) as Hout. rewrite H in Hout.
    destruct Hout as (Hm & d & best & _ & _ & Hbest & Hlt). eauto. }
  split; [| split; [| split; [exact Hnec | split; [| split; [| split]]]]].
  - intros run e s Hz Hm. unfold epoch.
    by rewrite !bool_decide_eq_false_2.
  - intros run e s w w0 mv w1 Hz Hm Ht He continue.
    rewrite (epoch_decision L args run e s w w0 mv w1 Hz Hm Ht He).
    pose proof (evaluate_epoch_decision L args run e s w0 mv w1 He) as Hdec.
    destruct ((tracker_get_best L (acc_tracker s)).1.1.1) as [best|]; [| exact Hdec].
    destruct (ltb B best (min_acc args)); exact Hdec.
  - intros run e w w' H. apply Hnec in H as (_ & best & Hb & _).
    unfold loop_entry in Hb. cbn [acc_tracker] in Hb.
    unfold fresh_tracker_has_no_best in Hfresh. congruence.
  - unfold main. destruct (setup_model L args) as [err|[model li]]; [done |].
    unfold train_and_save. rewrite bind_unfold.
    match goal with |- context [setup_run L args li ?w0] => set (w := w0) end.
    pose proof (no_saves _ _ setup_event_no_save (emits_setup_run L args li) w) as Hs.
    destruct (setup_run L args li w) as [run w1|err tr]; cbn [res_trace] in Hs; [| done].
    change (saves (w_trace w)) with (@nil (gmap string (@PyVal B) * string)) in Hs.
    rewrite bind_unfold.
    pose proof (loop_outcome L args run w1) as Hloop. unfold loop_entry in *.
    destruct (for_epochs L _ _ _ w1) as [[s|] w2|err tr].
    + destruct Hloop as (Hs2 & _). split; [done | congruence].
    + split; [done |]. destruct Hloop as (e & d & He & Hm & Hsv & Hd & Hf).
      exists e, d. rewrite Hsv, Hs. auto 10.
    + split; [done | congruence].
  - intros run s w. pose proof (finish_outcome L args run s w) as Hfin.
    destruct (finish L args run s w) as [[] w'|err tr].
    + destruct Hfin as (e & d1 & d2 & _ & _ & Hsv & _). by exists e, d1, d2.
    + by destruct Hfin.
  - intros e e'. apply checkpoint_names_differ.
Qed.

(** C9 (amended). [get_loss_upweights] returns two weights, the class
    fractions [1/3694] and [1/1101] each divided by the larger of the two,
    in the arithmetic of the tensor.  In binary32, the dtype of
    [torch.Tensor], these are the float nearest to [1101/3694], which is
    [312529/1048576] and lies below [1101/3694] by less than [2^-26], and
    exactly [1.0]; in exact arithmetic they are [1101/3694] and [1].  The
    largest weight is 1.  The loss function of a run carries these weights
    exactly when [--use_loss_weights] is true. *)
Theorem loss_upweights args li wr d1 d2 d3 w run w' :
  make_run L args li wr d1 d2 d3 w = Ok run w' →
  (bce_weight (loss_fn run) = Some (get_loss_upweights B) ↔ use_loss_weights args = true)
  ∧ (bce_weight (loss_fn run) = None ↔ use_loss_weights args = false)
  ∧ length (get_loss_upweights B) = 2%nat
  ∧ (let f1 := div B (of_Z B 1) (of_Z B 3694) in
     let f2 := div B (of_Z B 1) (of_Z B 1101) in
     let m := if ltb B f1 f2 then f2 else f1 in
     get_loss_upweights B = [div B f1 m; div B f2 m])
  ∧ (∃ x q,
       get_loss_upweights Binary32Base = [x; b32_of_Z 1]
       ∧ x = SFdiv prec32 emax32 (b32_of_Z 1101) (b32_of_Z 3694)
       ∧ b32_to_Q x = Some q
       ∧ (q == 312529 # 1048576)%Q
       ∧ (q < 1101 # 3694)%Q
       ∧ ((1101 # 3694) - q < 1 # 67108864)%Q)
  ∧ (∃ one, b32_to_Q (b32_of_Z 1) = Some one ∧ (one == 1)%Q)
  ∧ torch_max Binary32Base (get_loss_upweights Binary32Base) = Some (b32_of_Z 1)
  ∧ get_loss_upweights ExactBase = [Q2Qc (1101 # 3694); Q2Qc 1]
  ∧ torch_max ExactBase (get_loss_upweights ExactBase) = Some (Q2Qc 1).
Proof.
  intros H. apply make_run_loss_fn in H. rewrite H.
  assert (Hex : get_loss_upweights ExactBase = [Q2Qc (1101 # 3694); Q2Qc 1]).
  { unfold get_loss_upweights. cbn [map torch_max fold_left].
    repeat f_equal; apply Qc_is_canon; vm_compute; reflexivity. }
  split; [destruct (use_loss_weights args); split; congruence |].
  split; [destruct (use_loss_weights args); split; congruence |].
  split; [done |]. split; [done |].
  split.
  { exists (S754_finite false 10000928 (-25)), (10000928 # 33554432)%Q.
    split; [by vm_compute |]. split; [by vm_compute |]. split; [by vm_compute |].
    split; [by vm_compute |]. split; by vm_compute. }
  split.
  { exists (8388608 # 8388608)%Q. split; by vm_compute. }
  split; [by vm_compute |].
  split; [exact Hex |].
  rewrite Hex. cbn [torch_max fold_left]. f_equal.
Qed.

End Claims.

(** * The properties at concrete inputs *)

Section Instances.
#[local] Existing Instance ExactBase.

Lemma batch_loss_combines_losses_witness :
  ∃ acc' w',
    train_batch Toy32.lib Toy32.args Toy32.run Toy32.batch Toy32.acc0 Toy32.world
    = Ok acc' w'
    ∧ backward_losses (w_trace w')
      = [ add Binary32Base
            (classification_loss Toy32.lib Toy32.run (w_model Toy32.world) Toy32.batch)
            (mul Binary32Base (localization_loss_lambda Toy32.args)
               (localization_sum Toy32.lib Toy32.args Toy32.energy (Toy32.ixg true)
                  Toy32.run Toy32.world Toy32.batch)) ].
Proof.
  destruct (batch_loss_combines_losses Toy32.lib Toy32.args Toy32.run Toy32.batch
              Toy32.acc0 Toy32.world (Toy32.ixg true) Toy32.energy)
    as (acc' & w' & batch_loss & Hrun & Htr & _ & Hlaw).
  { intros _. split; [reflexivity |]. split; [reflexivity |]. cbn. lia. }
  exists acc', w'. split; [exact Hrun |]. rewrite Htr, Hlaw; [reflexivity |].
  apply binary32_zero_add. vm_compute. discriminate.
Defined.

Lemma eval_model_group_and_overall_accuracy_witness :
  ∃ d w',
    eval_model Toy.lib (model_activator Toy.run) (eval_attributor Toy.run)
      (val_loader Toy.run) (num_val_batches Toy.run) 2 (loss_fn Toy.run)
      None None (Some GROUP_NAMES) Toy.world = Ok d w'
    ∧ is_Some (d !! "Average-Loss").
Proof.
  assert (Hok : is_ok (eval_model Toy.lib (model_activator Toy.run) (eval_attributor Toy.run)
              (val_loader Toy.run) (num_val_batches Toy.run) 2 (loss_fn Toy.run)
              None None (Some GROUP_NAMES) Toy.world) = true) by (vm_compute; reflexivity).
  destruct (eval_model Toy.lib (model_activator Toy.run) (eval_attributor Toy.run)
              (val_loader Toy.run) (num_val_batches Toy.run) 2 (loss_fn Toy.run)
              None None (Some GROUP_NAMES) Toy.world) as [d w'|e tr] eqn:E; [| discriminate Hok].
  exists d, w'. split; [reflexivity |].
  destruct (eval_model_group_and_overall_accuracy Toy.lib _ _ _ _ _ _ _ _ _ _ _ _ E)
    as (_ & _ & _ & _ & Havg).
  rewrite Havg. by eexists.
Defined.

Lemma toy_metric_has_no_bb_keys (updates : list (list Z * list Z)) :
  multilabel_compute Toy.lib 2 updates !! "BB-Loc" = None
  ∧ multilabel_compute Toy.lib 2 updates !! "BB-IoU" = None.
Proof. split; reflexivity. Defined.

Lemma eval_model_bounding_box_metrics_witness :
  ∃ d w',
    eval_model Toy.lib (model_activator Toy.run) (Some (Toy.ixg false))
      (val_loader Toy.run) (num_val_batches Toy.run) 2 (loss_fn Toy.run)
      None None (Some GROUP_NAMES) Toy.world = Ok d w'
    ∧ d !! "BB-Loc"
      = Some (bb_energy_compute Toy.lib
                (flat_map (bb_updates Toy.lib (Toy.ixg false) (model_activator Toy.run)
                             (in_eval_mode (w_model Toy.world)))
                   (iter_loader Toy.lib (val_loader Toy.run) (w_rng Toy.world))))
    ∧ d !! "BB-IoU"
      = Some (bb_iou_compute Toy.lib
                (flat_map (bb_updates Toy.lib (Toy.ixg false) (model_activator Toy.run)
                             (in_eval_mode (w_model Toy.world)))
                   (iter_loader Toy.lib (val_loader Toy.run) (w_rng Toy.world))))
    ∧ flat_map (bb_updates Toy.lib (Toy.ixg false) (model_activator Toy.run)
                  (in_eval_mode (w_model Toy.world)))
        (iter_loader Toy.lib (val_loader Toy.run) (w_rng Toy.world)) ≠ [].
Proof.
  assert (Hok : is_ok (eval_model Toy.lib (model_activator Toy.run) (Some (Toy.ixg false))
              (val_loader Toy.run) (num_val_batches Toy.run) 2 (loss_fn Toy.run)
              None None (Some GROUP_NAMES) Toy.world) = true) by (vm_compute; reflexivity).
  destruct (eval_model Toy.lib (model_activator Toy.run) (Some (Toy.ixg false))
              (val_loader Toy.run) (num_val_batches Toy.run) 2 (loss_fn Toy.run)
              None None (Some GROUP_NAMES) Toy.world) as [d w'|e tr] eqn:E; [| discriminate Hok].
  exists d, w'. split; [reflexivity |].
  destruct (eval_model_bounding_box_metrics Toy.lib _ _ _ _ _ _ _ _ _ _ _ _
              toy_metric_has_no_bb_keys E) as (_ & _ & Hsome & _).
  destruct (Hsome (Toy.ixg false) eq_refl) as [Hloc Hiou].
  split; [exact Hloc |]. split; [exact Hiou |]. vm_compute. discriminate.
Defined.


Lemma no_evaluation_no_checkpoint_witness :
  0 ≤ total_epochs Toy.args_no_eval < evaluation_frequency Toy.args_no_eval
  ∧ ∃ err tr, main Toy.lib Toy.args_no_eval = Err err tr ∧ saves tr = [].
Proof.
  assert (H : 0 ≤ total_epochs Toy.args_no_eval < evaluation_frequency Toy.args_no_eval)
    by (cbn; lia).
  split; [exact H |].
  apply (no_evaluation_no_checkpoint Toy.lib Toy.args_no_eval H).
Defined.

Lemma training_starts_from_pretrained_witness :
  ∃ m li checkpoint,
    setup_model Toy.lib Toy.args_voc = inr (m, li)
    ∧ torch_load Toy.lib "ckpt/run1/model.pt" = Some checkpoint
    ∧ checkpoint !! "model" = Some (VParams (m_params m)).
Proof.
  destruct (setup_model Toy.lib Toy.args_voc) as [err|[m li]] eqn:E.
  - exfalso. revert E. vm_compute. discriminate.
  - destruct (training_starts_from_pretrained Toy.lib Toy.args_voc m li E)
      as (m0 & ld & _ & _ & _ & _ & (checkpoint & Hload & Hkey) & _).
    exists m, li, checkpoint. split; [reflexivity |]. split; [exact Hload | exact Hkey].
Defined.

Lemma early_stopping_semantics_witness :
  fresh_tracker_has_no_best Toy.lib
  ∧ ∃ w e d,
      main Toy.lib Toy.args_stop = Ok tt w
      ∧ 0 ≤ e < total_epochs Toy.args_stop
      ∧ evaluated_before Toy.args_stop e
      ∧ saves (w_trace w)
        = [(d, os_path_join (save_dir Toy.args_stop)
                 ["model_checkpoint_stopped_" +:+ pretty (e + 1) +:+ ".pt"])]
      ∧ stopped_checkpoint e d.
Proof.
  assert (H : fresh_tracker_has_no_best Toy.lib) by reflexivity.
  split; [exact H |].
  assert (Hlen : match main Toy.lib Toy.args_stop with
                 | Ok _ w => length (saves (w_trace w))
                 | Err _ _ => 0%nat
                 end = 1%nat) by (vm_compute; reflexivity).
  destruct (early_stopping_semantics Toy.lib Toy.args_stop H)
    as (_ & _ & _ & _ & Hmain & Hfinish & _).
  destruct (setup_model Toy.lib Toy.args_stop) as [err|[m li]].
  { rewrite Hmain in Hlen. discriminate Hlen. }
  match type of Hmain with match ?r with _ => _ end =>
    destruct r as [run w1|err tr] end.
  2: { destruct Hmain as [Hmain _]. rewrite Hmain in Hlen. discriminate Hlen. }
  match type of Hmain with match ?r with _ => _ end =>
    destruct r as [[s|] w2|err tr] end.
  - destruct Hmain as [Hmain Hsv]. specialize (Hfinish run s w2).
    rewrite Hmain in Hlen.
    destruct (finish Toy.lib Toy.args_stop run s w2) as [[] w3|err tr];
      [| discriminate Hlen].
    destruct Hfinish as (e & d1 & d2 & Hsv3). rewrite Hsv3, Hsv in Hlen.
    discriminate Hlen.
  - destruct Hmain as (Hmain & e & d & He & _ & Hev & Hsv & Hd).
    exists w2, e, d. auto.
  - destruct Hmain as [Hmain _]. rewrite Hmain in Hlen. discriminate Hlen.
Defined.

Lemma loss_upweights_witness :
  ∃ run w',
    make_run Toy32.lib Toy32.args None None Toy32.train_data Toy32.test_data
      Toy32.test_data Toy32.world = Ok run w'
    ∧ bce_weight (loss_fn run) = Some (get_loss_upweights Binary32Base).
Proof.
  assert (Hok : is_ok (make_run Toy32.lib Toy32.args None None Toy32.train_data
                         Toy32.test_data Toy32.test_data Toy32.world) = true)
    by (vm_compute; reflexivity).
  destruct (make_run Toy32.lib Toy32.args None None Toy32.train_data
              Toy32.test_data Toy32.test_data Toy32.world) as [run w'|e tr] eqn:E;
    [| discriminate Hok].
  exists run, w'. split; [reflexivity |].
  destruct (loss_upweights Toy32.lib _ _ _ _ _ _ _ _ _ E) as (Hw & _).
  apply Hw. reflexivity.
Defined.

(** C9, as the claim words it: the first weight is not [1101/3694] in
    binary32. *)
Lemma loss_upweights_not_exact_in_float32 :
  ∃ x q,
    get_loss_upweights Binary32Base !! 0%nat = Some x
    ∧ b32_to_Q x = Some q
    ∧ ¬ (q == 1101 # 3694)%Q.
Proof.
  exists (S754_finite false 10000928 (-25)), (10000928 # 33554432)%Q.
  split; [by vm_compute |]. split; [by vm_compute |].
  intros H. vm_compute in H. discriminate H.
Qed.

End Instances.

(** * Runs of the model on concrete inputs *)

Example os_path_join_default :
  os_path_join "datasets/" ["Waterbirds-100"; "birds_processed/"]
  = "datasets/Waterbirds-100/birds_processed/".
Proof. reflexivity. Qed.

Example os_path_join_absolute : os_path_join "a" ["/b"; "c"] = "/b/c".
Proof. reflexivity. Qed.

Example os_path_basename_ex : os_path_basename "ckpt/run1/model.pt" = "model.pt".
Proof. reflexivity. Qed.

(** One epoch with an evaluation every second epoch: the loop completes and
    [main] raises on the unbound [metric_vals]. *)
Example main_no_evaluation_raises :
  match main Toy.lib Toy.args_no_eval with
  | Err e tr => Some (e, length (saves tr))
  | Ok _ _ => None
  end = Some (UnboundLocalError "metric_vals", 0%nat).
Proof. vm_compute. reflexivity. Qed.

(** A threshold above every accuracy: the run stops at the second
    evaluation and writes the one checkpoint of an early stop. *)
Example main_stops_at_second_evaluation :
  match main Toy.lib Toy.args_stop with
  | Ok _ w => map snd (saves (w_trace w))
  | Err _ _ => []
  end = [stopped_path Toy.args_stop 1].
Proof. vm_compute. reflexivity. Qed.

(** The default schedule: both checkpoints are written. *)
Example main_completes :
  match main Toy.lib Toy.args with
  | Ok _ w => map snd (saves (w_trace w))
  | Err _ _ => []
  end = [final_path Toy.args 1; acc_best_path Toy.args].
Proof. vm_compute. reflexivity. Qed.

(** * Further properties of the script *)

Ltac run_m :=
  cbv [mbind M_bind bind mret M_ret ret raise emit get_model set_model draw
       from_option when set_training num_item float_div for_each];
  cbn [w_model w_rng w_steps w_trace].

Section Edges.
Context {B : Base} (L : Lib B).
Implicit Types w : @World B.

(** With no attributor a batch of the evaluation loop cannot fail and
    touches nothing in the store. *)
Lemma eval_batches_plain model loss_fn batches : ∀ s w,
  ∃ s', for_each batches (eval_batch L model None loss_fn) s w = Ok s' w.
Proof.
  induction batches as [|b bs IH]; intros s w; [by eexists |].
  rewrite for_each_cons. unfold eval_batch at 1.
  cbv [mbind M_bind bind get_model ret]. apply IH.
Qed.

(** X1. Evaluating over a loader that yields no batch fails: [total_loss]
    is still the integer 0, which has no [item()]; nothing is printed or
    logged. *)
Theorem eval_model_empty_loader model attributor loader nb nc loss_fn writer epoch gn w :
  iter_loader L loader (w_rng w) = [] →
  eval_model L model attributor loader nb nc loss_fn writer epoch gn w
  = Err (AttributeError "'int' object has no attribute 'item'") (w_trace w).
Proof.
  intros Hempty. unfold eval_model, eval_loop, eval_report. run_m.
  rewrite Hempty. reflexivity.
Qed.

(** X2. Without attributor and writer, [eval_model] returns exactly when
    the loader yields a batch and [num_batches] is not zero; a zero
    [num_batches] raises [ZeroDivisionError] after the whole loop has run,
    before anything is printed. *)
Theorem eval_model_plain_returns model loader nb nc loss_fn epoch gn w :
  iter_loader L loader (w_rng w) ≠ [] →
  if eqb B nb (of_Z B 0)
  then eval_model L model None loader nb nc loss_fn None epoch gn w
       = Err ZeroDivisionError (w_trace w)
  else ∃ d w', eval_model L model None loader nb nc loss_fn None epoch gn w = Ok d w'.
Proof.
  intros Hne. unfold eval_model.
  assert (∃ s w1, eval_loop L model None loader loss_fn w = Ok s w1
                  ∧ w_trace w1 = w_trace w) as (s & w1 & Hloop & Htr).
  { unfold eval_loop.
    cbv [mbind M_bind bind set_training get_model set_model draw].
    cbn [w_model w_rng w_steps w_trace].
    match goal with |- context [for_each ?bs ?body ?s0 ?w0] =>
      destruct (eval_batches_plain model loss_fn bs s0 w0) as (s' & ->) end.
    by eexists _, _. }
  rewrite (bind_Ok _ _ _ _ _ Hloop).
  pose proof (eval_loop_Ok L _ _ _ _ _ _ _ Hloop) as (_ & _ & Htl & _).
  rewrite <- (map_map (eval_loss L model loss_fn (in_eval_mode (w_model w)))
                (fun x => NTensor x false)) in Htl.
  rewrite sum_from_int in Htl.
  destruct (map _ (iter_loader L loader (w_rng w))) as [|x xs] eqn:Emap.
  { apply map_eq_nil in Emap. done. }
  unfold eval_report. rewrite Htl. rewrite bind_unfold. cbn [num_item ret].
  rewrite bind_unfold. unfold float_div.
  destruct (eqb B nb (of_Z B 0)); [by rewrite <- Htr |].
  by eexists _, _.
Qed.

(** X3. Logging to a writer with the default [group_names=None] never
    returns: at the latest the lookup [group_names[0]] raises. *)
Theorem eval_model_writer_needs_group_names
    model attributor loader nb nc loss_fn wr epoch w :
  is_ok (eval_model L model attributor loader nb nc loss_fn (Some wr) epoch None w) = false.
Proof.
  destruct (eval_model L model attributor loader nb nc loss_fn (Some wr) epoch None w)
    as [d w'|err tr] eqn:H; [exfalso | done].
  unfold eval_model in H.
  apply bind_Ok_inv in H as (s & w1 & _ & H). unfold eval_report in H.
  do 5 (apply bind_Ok_inv in H as (? & ? & _ & H)).
  apply bind_Ok_inv in H as ([] & w6 & H6 & _). unfold eval_log in H6.
  do 11 (apply bind_Ok_inv in H6 as (? & ? & _ & H6)).
  apply bind_Ok_inv in H6 as (v & w7 & Hg & _).
  unfold group_value in Hg. apply bind_Ok_inv in Hg as (? & ? & Hg & _). discriminate.
Qed.

(** X4. With [--optimize_explanations] but no attributor, a training batch
    raises when the attributor is called: after [zero_grad] and the forward
    pass, before any backward pass or optimizer step. *)
Theorem train_batch_needs_attributor args run data acc w :
  optimize_explanations args = true →
  attributor run = None →
  train_batch L args run data acc w
  = Err (TypeError "'NoneType' object is not callable") (w_trace w ++ [EvZeroGrad]).
Proof.
  intros Hopt Ha. unfold train_batch, explanation_loss. rewrite Hopt, Ha.
  run_m. reflexivity.
Qed.

Lemma make_loader_Ok (data : Dataset B) bs sh w dl w' :
  make_loader L data bs sh w = Ok dl w' →
  0 < bs ∧ (sh = true → 0 < ds_len L data) ∧ w' = w
  ∧ dl = {| dl_data := data; dl_batch_size := bs; dl_shuffle := sh |}.
Proof.
  unfold make_loader.
  destruct (sh && bool_decide (ds_len L data ≤ 0)) eqn:Ee; [discriminate |].
  destruct (bool_decide (bs ≤ 0)) eqn:Hb; [discriminate |].
  apply bool_decide_eq_false in Hb.
  intros H. injection H as <- <-. split; [lia |]. split; [| done].
  intros ->. cbn in Ee. apply bool_decide_eq_false in Ee. lia.
Qed.

Lemma int_div_Ok n d w x w' :
  int_div n d w = Ok x w' → d ≠ 0 ∧ w' = w ∧ x = div B (of_Z B n) (of_Z B d).
Proof.
  unfold int_div. case_bool_decide as Hd; [discriminate |].
  intros H. by injection H as <- <-.
Qed.

Lemma make_attributors_cases args li (ll : option LocLoss) w :
  make_attributors args li ll w
  = if truthy_str (attribution_method args)
    then match ll with
         | Some l =>
             let mk batch_mode :=
               {| at_method := default "" (attribution_method args);
                  at_only_positive := only_positive l; at_binarize := binarize l;
                  at_interpolate := bool_decide (li ≠ None);
                  at_batch_mode := batch_mode |} in
             Ok (Some (mk true), Some (mk false)) w
         | None =>
             Err (AttributeError "'NoneType' object has no attribute 'only_positive'")
               (w_trace w)
         end
    else Ok (None, None) w.
Proof.
  unfold make_attributors. destruct (attribution_method args) as [method|]; [| done].
  destruct (truthy_str (Some method)); [| done]. by destruct ll.
Qed.

(** The localization loss object of a run (lines 257-258). *)
Lemma make_run_Ok args li wr d1 d2 d3 w run w' :
  make_run L args li wr d1 d2 d3 w = Ok run w' →
  w' = w
  ∧ 0 < train_batch_size args ∧ 0 < eval_batch_size args
  ∧ loss_loc run
    = (if truthy_str (localization_loss_fn args)
       then Some (get_localization_loss L (default "" (localization_loss_fn args)))
       else None)
  ∧ make_attributors args li (loss_loc run) w = Ok (attributor run, eval_attributor run) w.
Proof.
  unfold make_run. intros H.
  apply bind_Ok_inv in H as (l1 & w1 & H1 & H).
  apply make_loader_Ok in H1 as (Hb1 & _ & -> & _).
  apply bind_Ok_inv in H as (l2 & w2 & H2 & H).
  apply make_loader_Ok in H2 as (Hb2 & _ & -> & _).
  apply bind_Ok_inv in H as (l3 & w3 & H3 & H).
  apply make_loader_Ok in H3 as (_ & _ & -> & _).
  apply bind_Ok_inv in H as (n1 & w4 & H4 & H). apply int_div_Ok in H4 as (_ & -> & _).
  apply bind_Ok_inv in H as (n2 & w5 & H5 & H). apply int_div_Ok in H5 as (_ & -> & _).
  apply bind_Ok_inv in H as (n3 & w6 & H6 & H). apply int_div_Ok in H6 as (_ & -> & _).
  apply bind_Ok_inv in H as ([a ea] & w7 & H7 & H).
  injection H as <- <-. cbn [loss_loc attributor eval_attributor fst snd].
  assert (w7 = w) as ->.
  { rewrite make_attributors_cases in H7.
    destruct (truthy_str (attribution_method args)); [| by injection H7].
    match type of H7 with match ?x with _ => _ end = _ => destruct x end;
      [by injection H7 | discriminate]. }
  split; [done |]. split; [done |]. split; [done |]. split; [| exact H7].
  destruct (localization_loss_fn args) as [name|]; [| done].
  unfold truthy_str. cbn. by destruct (bool_decide (name = "")).
Qed.


(** X6. In a run that was set up, the training and the evaluation
    attributor exist exactly when an attribution method was given, and then
    so does the localization loss; the two attributors are configured alike
    (method, flags of the localization loss, interpolation whenever the
    layer is not the input) and differ in batch mode only. *)
Theorem run_attributors args li wr d1 d2 d3 w run w' :
  make_run L args li wr d1 d2 d3 w = Ok run w' →
  if truthy_str (attribution_method args)
  then ∃ method ll,
         attribution_method args = Some method
         ∧ loss_loc run = Some ll
         ∧ attributor run
           = Some {| at_method := method; at_only_positive := only_positive ll;
                     at_binarize := binarize ll;
                     at_interpolate := bool_decide (li ≠ None);
                     at_batch_mode := true |}
         ∧ eval_attributor run
           = Some {| at_method := method; at_only_positive := only_positive ll;
                     at_binarize := binarize ll;
                     at_interpolate := bool_decide (li ≠ None);
                     at_batch_mode := false |}
  else attributor run = None ∧ eval_attributor run = None.
Proof.
  intros H. apply make_run_Ok in H as (_ & _ & _ & _ & H).
  rewrite make_attributors_cases in H.
  destruct (truthy_str (attribution_method args)) eqn:Et.
  - destruct (attribution_method args) as [method|]; [| discriminate].
    destruct (loss_loc run) as [ll|]; [| discriminate].
    injection H as <- <-. by exists method, ll.
  - by injection H as <- <-.
Qed.

(** X7. The layer table of every backbone knows the five layer names the
    command line admits; "Input" selects no layer, the other indices lie one
    deeper for the torchvision model than for the B-cos and fixup models;
    any other layer name fails with [KeyError] once the model is built. *)
Theorem layer_index_table args m ld :
  construct_model L args = inr (m, ld) →
  ld !! "Input" = Some None
  ∧ (∀ l, l ∈ ["Mid1"; "Mid2"; "Mid3"; "Final"] →
       ∃ i, ld !! l = Some (Some i)
            ∧ layer_dict_3456 !! l
              = Some (Some (if bool_decide (model_backbone args = "vanilla")
                            then i - 1 else i)))
  ∧ (layer args ∉ ["Input"; "Mid1"; "Mid2"; "Mid3"; "Final"] →
       setup_model L args = inl (KeyError (layer args))).
Proof.
  intros Hc.
  assert (Hld : ld = if bool_decide (model_backbone args = "vanilla")
                     then layer_dict_4567 else layer_dict_3456).
  { destruct (construct_model_cases L args) as (Hb & Hx & Hv & Hn).
    destruct (decide (model_backbone args = "vanilla")) as [E|E].
    - rewrite bool_decide_eq_true_2 by done. rewrite (Hv E) in Hc. by injection Hc as _ <-.
    - rewrite bool_decide_eq_false_2 by done.
      destruct (decide (model_backbone args = "bcos")) as [E1|E1].
      + rewrite (Hb E1) in Hc. by injection Hc as _ <-.
      + destruct (decide (model_backbone args = "xdnn")) as [E2|E2].
        * rewrite (Hx E2) in Hc. destruct (load_params L _ _); [discriminate |].
          by injection Hc as _ <-.
        * rewrite (Hn E1 E2 E) in Hc. discriminate. }
  split; [| split].
  - rewrite Hld. by case_bool_decide.
  - intros l Hl. rewrite Hld.
    repeat (apply elem_of_cons in Hl as [->|Hl]); [.. | by apply elem_of_nil in Hl];
      case_bool_decide; eexists; split; reflexivity.
  - intros Hl. unfold setup_model. rewrite Hc.
    assert (ld !! layer args = None) as ->; [| done].
    rewrite Hld. case_bool_decide; apply not_elem_of_list_to_map_1; exact Hl.
Qed.

Lemma explanation_loss_Ok args run data features logits bl tl w r w' :
  explanation_loss L args run data features logits bl tl w = Ok r w' →
  same_store w w'
  ∧ (∃ evs, w_trace w' = w_trace w ++ evs ∧ Forall (fun ev => is_update ev = false) evs)
  ∧ ∃ loc, r.1 = num_add bl (num_scale (localization_loss_lambda args) loc)
           ∧ r.2 = (if is_tensor loc then num_add tl (num_detach loc) else num_add tl loc).
Proof.
  intros H. split; [| split].
  - assert (Hk : keeps same_store
                   (explanation_loss L args run data features logits bl tl)).
    { unfold explanation_loss, loc_image. keeps_tac. }
    by apply Hk in H.
  - assert (Hem : emits (fun ev => is_update ev = false)
                    (explanation_loss L args run data features logits bl tl)).
    { unfold explanation_loss, loc_image. emits_tac. }
    destruct (Hem w) as (evs & Ht & Hevs). rewrite H in Ht. eauto.
  - unfold explanation_loss in H. cbv zeta in H.
    do 5 (apply bind_Ok_inv in H as (? & ? & _ & H)).
    injection H as <- _. cbn [fst snd]. eauto.
Qed.

(** X8. A training batch that succeeds takes exactly one gradient step:
    [zero_grad] first, then one [backward] on the batch loss followed at
    once by the optimizer step, which replaces the parameters; the epoch
    takes one step per batch of the loader. *)
Theorem one_step_per_batch args run :
  (∀ data acc w acc' w',
     train_batch L args run data acc w = Ok acc' w' →
     w_steps w' = S (w_steps w)
     ∧ m_training (w_model w') = m_training (w_model w)
     ∧ ∃ evs x,
         w_trace w' = w_trace w ++ [EvZeroGrad] ++ evs ++ [EvBackward x; EvOptimizerStep]
         ∧ Forall (fun ev => is_update ev = false) evs
         ∧ m_params (w_model w')
           = adam_step L (learning_rate args) (w_steps w) (m_params (w_model w)) data x)
  ∧ (∀ e w w',
       train_epoch L args run e w = Ok tt w' →
       w_steps w'
       = (w_steps w + length (iter_loader L (train_loader run) (w_rng w)))%nat).
Proof.
  assert (Hbatch : ∀ data acc w acc' w',
     train_batch L args run data acc w = Ok acc' w' →
     w_steps w' = S (w_steps w)
     ∧ m_training (w_model w') = m_training (w_model w)
     ∧ ∃ evs x,
         w_trace w' = w_trace w ++ [EvZeroGrad] ++ evs ++ [EvBackward x; EvOptimizerStep]
         ∧ Forall (fun ev => is_update ev = false) evs
         ∧ m_params (w_model w')
           = adam_step L (learning_rate args) (w_steps w) (m_params (w_model w)) data x).
  { intros data acc w acc' w' H. unfold train_batch in H. cbv zeta in H.
    apply bind_Ok_inv in H as ([] & w1 & H1 & H). apply emit_Ok in H1 as (Hm1 & Hs1 & Ht1).
    apply bind_Ok_inv in H as (m & w2 & H2 & H). injection H2 as <- <-.
    apply bind_Ok_inv in H as (r & w3 & H3 & H).
    assert (Hr : same_store w1 w3
                 ∧ ∃ evs, w_trace w3 = w_trace w1 ++ evs
                          ∧ Forall (fun ev => is_update ev = false) evs).
    { destruct (optimize_explanations args).
      - apply explanation_loss_Ok in H3 as (Hst & Hev & _). done.
      - injection H3 as _ <-. split; [by split |]. exists []. by rewrite app_nil_r. }
    destruct Hr as ([Hm3 Hs3] & evs & Ht3 & Hevs).
    apply bind_Ok_inv in H as ([] & w4 & H4 & H).
    destruct (r.1) as [z|y|x [|]] eqn:Er; try discriminate.
    apply emit_Ok in H4 as (Hm4 & Hs4 & Ht4).
    apply bind_Ok_inv in H as ([] & w5 & H5 & H). injection H as _ <-.
    unfold optimizer_step in H5. injection H5 as <-. cbn.
    rewrite Hs4, Hs3, Hs1, Hm4, Hm3, Hm1. split; [done |]. split; [done |].
    exists evs, x. rewrite Ht4, Ht3, Ht1, <- !app_assoc. done. }
  split; [exact Hbatch |].
  assert (Hloop : ∀ batches acc w acc' w',
            for_each batches (train_batch L args run) acc w = Ok acc' w' →
            w_steps w' = (w_steps w + length batches)%nat).
  { induction batches as [|b bs IH]; intros acc w acc' w' H.
    - injection H as _ <-. cbn. lia.
    - rewrite for_each_cons in H.
      destruct (train_batch L args run b acc w) as [acc1 w1|] eqn:Eb; [| discriminate].
      apply Hbatch in Eb as (Hs & _). apply IH in H. rewrite H, Hs. cbn. lia. }
  intros e w w' H. unfold train_epoch in H.
  apply bind_Ok_inv in H as (i & w1 & H1 & H). injection H1 as <- <-.
  apply bind_Ok_inv in H as (acc & w2 & H2 & H). apply Hloop in H2. cbn in H2.
  assert (Hk : keeps same_store
                 (avg ← num_div (total_loss acc) (num_train_batches run);
                  emit (EvPrintEpoch e avg);;
                  match writer run with
                  | Some _ =>
                      emit (EvAddScalar "train_loss" (num_to_val (total_loss acc)) (Some (e + 1)));;
                      emit (EvAddScalar "class_loss" (num_to_val (total_class_loss acc))
                              (Some (e + 1)));;
                      emit (EvAddScalar "localization_loss"
                              (num_to_val (total_localization_loss acc)) (Some (e + 1)))
                  | None => mret tt
                  end)) by keeps_tac.
  apply Hk in H as [_ Hs]. by rewrite Hs, H2.
Qed.

(** X9. With [--evaluation_frequency 0] the test [(e+1) % 0] raises
    [ZeroDivisionError] as soon as the first epoch has trained; whatever
    happens, [main] raises and writes no checkpoint. *)
Theorem zero_evaluation_frequency args :
  evaluation_frequency args = 0 →
  (∀ run e s w w1,
     train_epoch L args run e w = Ok tt w1 →
     epoch L args run e s w = Err ZeroDivisionError (w_trace w1))
  ∧ ∃ err tr, main L args = Err err tr ∧ saves tr = [].
Proof.
  intros Hz. split.
  - intros run e s w w1 Ht. unfold epoch. rewrite (bind_Ok _ _ _ _ _ Ht).
    by rewrite bool_decide_eq_true_2.
  - pose proof (main_outcome L args) as Hout.
    destruct (main L args) as [[] w|err tr]; [| eauto].
    exfalso.
    destruct Hout as [(e & d & He & Hm & _)|(d1 & d2 & t & _ & (e0 & He0 & Hm) & _)];
      rewrite Hz, Z.mod_0_r in Hm; lia.
Qed.

(** X10. The checkpoint of an early stop records every command-line
    argument under its name, and keeps every metric of the evaluation whose
    name is neither an argument nor "model", "epochs" or "BelowThresh"; the
    metrics must include "Accuracy". *)
Theorem stopped_checkpoint_records_args args e mv w f w' :
  stop_early L args e mv w = Ok f w' →
  is_Some (mv !! "Accuracy")
  ∧ ∃ d,
      saves (w_trace w') = saves (w_trace w) ++ [(d, stopped_path args e)]
      ∧ (∀ k v, vars_args args !! k = Some v → d !! k = Some v)
      ∧ (∀ k, vars_args args !! k = None →
              k ∉ ["model"; "epochs"; "BelowThresh"] → d !! k = mv !! k).
Proof.
  unfold stop_early, dict_get. intros H.
  apply bind_Ok_inv in H as (acc & w1 & H1 & H).
  destruct (mv !! "Accuracy") as [a|] eqn:Ea; [| discriminate]. injection H1 as <- <-.
  split; [by eexists |].
  apply bind_Ok_inv in H as ([] & w2 & H2 & H). apply emit_Ok in H2 as (_ & _ & Ht2).
  apply bind_Ok_inv in H as ([] & w3 & H3 & H). apply emit_Ok in H3 as (_ & _ & Ht3).
  apply bind_Ok_inv in H as ([] & w4 & H4 & H). injection H as _ <-.
  assert (Hs4 : saves (w_trace w4) = saves (w_trace w3)).
  { unfold save_pareto_front, when in H4. destruct (pareto args).
    - apply emit_Ok in H4 as (_ & _ & ->). rewrite saves_app. unfold saves at 2. cbn.
      by rewrite app_nil_r.
    - by injection H4 as <-. }
  eexists. split; [| split].
  - rewrite Hs4, Ht3, Ht2, !saves_app. unfold saves at 2 3. cbn [omap list_omap].
    rewrite app_nil_r. reflexivity.
  - intros k v Hk. unfold dict_update.
    assert (k ≠ "BelowThresh") by (intros ->; discriminate Hk).
    rewrite lookup_union_r by (by apply lookup_singleton_ne).
    erewrite lookup_union_Some_l; [done |]. by erewrite lookup_union_Some_l.
  - intros k Hk Hne. unfold dict_update.
    repeat (apply not_elem_of_cons in Hne as [? Hne]).
    rewrite lookup_union_r by (by apply lookup_singleton_ne).
    rewrite lookup_union_r; [done |].
    rewrite lookup_union_r by done.
    rewrite lookup_insert_ne by done. by apply lookup_singleton_ne.
Qed.

Lemma detached_add (a b : @Num B) : detached a → detached b → detached (num_add a b).
Proof. destruct a as [x|x|x g], b as [y|y|y h]; cbn; intros; subst; done. Qed.

Lemma detached_detach (a : @Num B) : detached (num_detach a).
Proof. by destruct a. Qed.

(** X11. The running totals of an epoch never hold the autograd graph: if
    they are detached before a batch they are detached after it. *)
Theorem running_totals_are_detached args run data acc w acc' w' :
  train_batch L args run data acc w = Ok acc' w' →
  detached (total_loss acc) → detached (total_class_loss acc) →
  detached (total_localization_loss acc) →
  detached (total_loss acc') ∧ detached (total_class_loss acc')
  ∧ detached (total_localization_loss acc').
Proof.
  intros H Hd1 Hd2 Hd3. unfold train_batch in H. cbv zeta in H.
  do 2 (apply bind_Ok_inv in H as (? & ? & _ & H)).
  apply bind_Ok_inv in H as (r & w3 & H3 & H).
  do 2 (apply bind_Ok_inv in H as (? & ? & _ & H)).
  injection H as <- _. cbn [total_loss total_class_loss total_localization_loss].
  split; [apply detached_add; [done | first [apply detached_detach | reflexivity]] |].
  split; [apply detached_add; [done | first [apply detached_detach | reflexivity]] |].
  destruct (optimize_explanations args).
  - apply explanation_loss_Ok in H3 as (_ & _ & loc & _ & ->).
    destruct loc as [z|y|y g]; cbn [is_tensor]; apply detached_add; done.
  - by injection H3 as <- _.
Qed.
End Edges.


(** * The further properties at concrete inputs *)

Section EdgeInstances.
#[local] Existing Instance ExactBase.

Lemma eval_model_empty_loader_witness :
  iter_loader Toy.lib Toy.empty_loader (w_rng Toy.world) = []
  ∧ eval_model Toy.lib (model_activator Toy.run) None Toy.empty_loader (Toy.qc 1 1) 2
      (loss_fn Toy.run) None None (Some GROUP_NAMES) Toy.world
    = Err (AttributeError "'int' object has no attribute 'item'") (w_trace Toy.world).
Proof.
  assert (H : iter_loader Toy.lib Toy.empty_loader (w_rng Toy.world) = []) by reflexivity.
  split; [exact H |].
  apply (eval_model_empty_loader Toy.lib _ _ _ _ _ _ _ _ _ _ H).
Defined.

Lemma eval_model_plain_returns_witness :
  iter_loader Toy.lib (val_loader Toy.run) (w_rng Toy.world) ≠ []
  ∧ eval_model Toy.lib (model_activator Toy.run) None (val_loader Toy.run)
      (Toy.qc 0 1) 2 (loss_fn Toy.run) None None (Some GROUP_NAMES) Toy.world
    = Err ZeroDivisionError (w_trace Toy.world).
Proof.
  assert (H : iter_loader Toy.lib (val_loader Toy.run) (w_rng Toy.world) ≠ [])
    by discriminate.
  split; [exact H |].
  apply (eval_model_plain_returns Toy.lib (model_activator Toy.run) (val_loader Toy.run)
           (Toy.qc 0 1) 2 (loss_fn Toy.run) None (Some GROUP_NAMES) Toy.world H).
Defined.

Lemma train_batch_needs_attributor_witness :
  optimize_explanations Toy.args = true ∧ attributor Toy.run_plain = None
  ∧ train_batch Toy.lib Toy.args Toy.run_plain Toy.batch Toy.acc0 Toy.world
    = Err (TypeError "'NoneType' object is not callable")
        (w_trace Toy.world ++ [EvZeroGrad]).
Proof.
  split; [reflexivity |]. split; [reflexivity |].
  apply (train_batch_needs_attributor Toy.lib Toy.args Toy.run_plain Toy.batch Toy.acc0
           Toy.world eq_refl eq_refl).
Defined.


Lemma run_attributors_witness :
  ∃ run w',
    make_run Toy.lib Toy.args None None Toy.train_data Toy.test_data Toy.test_data Toy.world = Ok run w'
    ∧ attributor run = Some (Toy.ixg true) ∧ eval_attributor run = Some (Toy.ixg false).
Proof.
  assert (Hok : is_ok (make_run Toy.lib Toy.args None None Toy.train_data Toy.test_data Toy.test_data Toy.world) = true)
    by (vm_compute; reflexivity).
  destruct (make_run Toy.lib Toy.args None None Toy.train_data Toy.test_data Toy.test_data Toy.world)
    as [run w'|e tr] eqn:E; [| discriminate Hok].
  exists run, w'. split; [reflexivity |].
  pose proof (run_attributors Toy.lib _ _ _ _ _ _ _ _ _ E) as H.
  cbn in H. destruct H as (method & ll & Hm & Hll & Ha & Hea).
  injection Hm as <-.
  pose proof (make_run_Ok Toy.lib _ _ _ _ _ _ _ _ _ E) as (_ & _ & _ & Hloc & _).
  rewrite Hll in Hloc. injection Hloc as ->.
  by rewrite Ha, Hea.
Defined.

Lemma layer_index_table_witness :
  ∃ m ld,
    construct_model Toy.lib Toy.args = inr (m, ld)
    ∧ ld !! "Input" = Some None.
Proof.
  destruct (construct_model Toy.lib Toy.args) as [err|[m ld]] eqn:E.
  - exfalso. revert E. vm_compute. discriminate.
  - exists m, ld. split; [reflexivity |].
    apply (layer_index_table Toy.lib Toy.args m ld E).
Defined.

Lemma one_step_per_batch_witness :
  ∃ acc' w',
    train_batch Toy.lib Toy.args Toy.run Toy.batch Toy.acc0 Toy.world = Ok acc' w'
    ∧ w_steps w' = S (w_steps Toy.world).
Proof.
  assert (Hok : is_ok (train_batch Toy.lib Toy.args Toy.run Toy.batch Toy.acc0 Toy.world)
                = true) by (vm_compute; reflexivity).
  destruct (train_batch Toy.lib Toy.args Toy.run Toy.batch Toy.acc0 Toy.world)
    as [acc' w'|e tr] eqn:E; [| discriminate Hok].
  exists acc', w'. split; [reflexivity |].
  destruct (one_step_per_batch Toy.lib Toy.args Toy.run) as [Hb _].
  apply (Hb _ _ _ _ _ E).
Defined.

Lemma zero_evaluation_frequency_witness :
  evaluation_frequency (Toy.with_schedule Toy.args 3 0 (Toy.qc 0 1)) = 0
  ∧ ∃ err tr,
      main Toy.lib (Toy.with_schedule Toy.args 3 0 (Toy.qc 0 1)) = Err err tr
      ∧ saves tr = [].
Proof.
  split; [reflexivity |].
  apply (zero_evaluation_frequency Toy.lib (Toy.with_schedule Toy.args 3 0 (Toy.qc 0 1))
           eq_refl).
Defined.

Lemma stopped_checkpoint_records_args_witness :
  ∃ f w',
    stop_early Toy.lib Toy.args_stop 1 {[ "Accuracy" := @VFloat ExactBase (Toy.qc 1 2) ]} Toy.world
    = Ok f w'
    ∧ is_Some (({[ "Accuracy" := @VFloat ExactBase (Toy.qc 1 2) ]}
                  : gmap string (@PyVal ExactBase)) !! "Accuracy").
Proof.
  assert (Hok : is_ok (stop_early Toy.lib Toy.args_stop 1
                         {[ "Accuracy" := @VFloat ExactBase (Toy.qc 1 2) ]} Toy.world) = true)
    by (vm_compute; reflexivity).
  destruct (stop_early Toy.lib Toy.args_stop 1 {[ "Accuracy" := @VFloat ExactBase (Toy.qc 1 2) ]}
              Toy.world) as [f w'|e tr] eqn:E; [| discriminate Hok].
  exists f, w'. split; [reflexivity |].
  apply (stopped_checkpoint_records_args Toy.lib _ _ _ _ _ _ E).
Defined.

Lemma running_totals_are_detached_witness :
  ∃ acc' w',
    train_batch Toy.lib Toy.args Toy.run Toy.batch Toy.acc0 Toy.world = Ok acc' w'
    ∧ detached (total_loss acc').
Proof.
  assert (Hok : is_ok (train_batch Toy.lib Toy.args Toy.run Toy.batch Toy.acc0 Toy.world)
                = true) by (vm_compute; reflexivity).
  destruct (train_batch Toy.lib Toy.args Toy.run Toy.batch Toy.acc0 Toy.world)
    as [acc' w'|e tr] eqn:E; [| discriminate Hok].
  exists acc', w'. split; [reflexivity |].
  apply (running_totals_are_detached Toy.lib _ _ _ _ _ _ _ E I I I).
Defined.
End EdgeInstances.
